(* ===== verification/_CoqProject ===== *)
-Q . S2P
Prelude.v
Paths.v
Dataset.v
Markers.v
FileSystem.v
Tar.v
TarWalk.v
Webapi.v
Cli.v
Pipeline.v
Progress.v
Click.v
Concurrency.v
Independence.v
