(* ===== verification/Prelude.v ===== *)
(** * ctwpy: a verification development of the worksheet exporter

    ** The program
    The repository (henrygong/ctwpy) is a small command-line tool.  Its only
    source file under [src/] is [src/ctwpy/cli.py], which defines the click
    commands and one helper:
    - [from_scanpy] (cli.py 19-48) reads an AnnData ([.h5ad]) file and
      gathers five products from it (lines 27-40): the cluster-to-cell-type
      mapping, the UMAP coordinates, the marker table, the clustering and
      the expression matrix.  It then exports them (lines 42-48): it
      creates a staging directory named after the worksheet, writes the
      five products into it, packs it into [<worksheet_name>.ctw.tgz] with
      [make_tarfile], and deletes the staging directory;
    - [upload_worksheet] (50-57) reads a JSON credentials file and calls
      [webapi.upload(None, credentials)];
    - [make_tarfile] (60-62) writes a gzip tar of one directory whose top
      entry is named [os.path.basename(source_dir)];
    - [scanpy_obs] (65-69) prints the observation column names;
    - [bye] (72-74) prints a greeting.
    The modules [cli.py] imports ([ctwpy.io], [ctwpy.marker_table],
    [ctwpy.scanpyapi] and [ctwpy.webapi]) are not under [src/].  They are
    modelled from spec.md sections 4.1-4.5.  The decorators of the four
    commands are modelled with the behaviour click gives them: [argv] is
    parsed against the declared arguments and options, then the function
    is called with the parsed parameters.

    ** Layout, in dependency order
    - [Prelude] (this file):
      - the exceptions of spec 7 ([error]);
      - the state-and-exception monad [EST] in which all effectful code is
        written.  A Python exception is [Err], and the state reached when it
        was raised is kept, as in Python;
      - its run lemmas, the combinators [preserves] (invariants) and
        [raises_only] (which exceptions a computation may raise);
      - the [ctw] hint database and the tactics [preserves_auto],
        [raises_auto] and [est_run];
      - generic lemmas on lists ([uniq_first], pandas' [unique]) and on maps
        built by successive inserts.
    - [Paths]: [posixpath.basename], [posixpath.join], [str.split('/')],
      and the resolution of a path string against the working directory
      ([resolve], [os.path.abspath]).  The lemmas say where a name, a name
      plus a suffix and a joined name land.
    - [Dataset]: the AnnData record and the [ctwpy.scanpyapi] accessors
      ([readh5ad]'s result, [celltype_mapping] by majority vote, [get_obs],
      [get_xys], [has_raw], [get_expression]), with the invariant
      [anndata_wf] and its executable check [anndata_wfb].
    - [Markers]: [ctwpy.marker_table.run_pipe]: one group per cluster, the
      genes ranked by a score (the difference of mean expression).
    - [FileSystem]: the world.  [w_fs] is a flat [gmap] from paths to nodes,
      [w_faults] is the set of paths where I/O fails, and the rest is
      standard output and the network.  The file also holds:
      - the system calls [mkdir], [write_file], [read_file], [rmtree] and
        [print];
      - the [ctwpy.io] helpers [make_dir_or_complain],
        [write_all_worksheet], [delete_dir] and [read_json];
      - the invariant [world_wf] (the root is a directory and every entry's
        parent is one), with its executable check [world_wfb].
    - [Tar]: [make_tarfile] as [tar_open], [tar_add] and [tar_close], with
      CPython's [tarfile] behaviour: the file is created at [open], the
      tree is walked in sorted order, and the archive itself is skipped.
      [extract] ([tarfile.extractall]) states the round trip.
    - [TarWalk]: CPython's recursive [TarFile.add] over
      [sorted(os.listdir)], as [tar_walk] with fuel, proved equal to the
      entries [Tar] uses once the fuel exceeds the depth of the tree.
    - [Webapi]: [ctwpy.webapi.upload].
    - [Cli]: the commands.  [from_scanpy] is [gather] (27-40) followed by
      [export_worksheet] (42-48); [upload_worksheet], [scanpy_obs], [bye].
      The file ends with concrete worlds on which the commands run.
    - [Pipeline]: [gather] as its extraction (27-33) and its marker part
      (35-40); only the extraction raises.  This gives the order of the
      archive and the cleanup (47-48) from a [CleanupError].
    - [Progress]: [from_scanpy] run forward: the conditions under which it
      succeeds, a second run after a success ([export_fs], the file
      system an export leaves, is idempotent), what a failed staging
      leaves, and what [gather] prints.
    - [Click]: the command line.  [command_decl] is what the decorators
      declare; [scan] and [click_parse] are click's parser
      ([OptionParser], [Command.parse_args]); [invoke] is [Command.main].
      The class [ClickCommand] is the interface between click and a
      command (declaration, binding of the parameters, function), with one
      instance per command of [cli.py]; [exit_status] is the status of
      the process.
    - [Concurrency]: two invocations with the same worksheet name as two
      processes whose export steps a scheduler interleaves
      ([interleave]), with the invariant that makes every interleaving
      equivalent to a sequential one: [os.mkdir] is exclusive.
    - [Independence]: two invocations with different worksheet names.
      Each computation gets a footprint ([footprint]: the regions of the
      file system it reads and writes, single entries or whole trees);
      the system calls get theirs one by one, and [fp_bind], [fp_catch]
      and [fp_weaken] lift them to the export steps.  Disjoint footprints
      commute ([footprint_commute]).  Section [Reduction] turns commuting
      steps into the reduction of any interleaving to the two processes
      run one after the other ([interleave_sequential]).

    ** What the theorems show (claims C1-C26)
    - C1-C9: the export contract of spec 4.3, 4.4, 7 and 8:
      - C1: what a successful run leaves;
      - C2: sufficient conditions for a run to succeed (liveness: the
        contract of C1 is not vacuous);
      - C3: a second run with the same arguments succeeds and leaves the
        disk as the first left it, unless the dataset is the archive path
        ([Progress.from_scanpy_overwrites_own_input] shows that case);
      - C4: the archive extracts to the staged worksheet (round trip);
      - C5: the staging directory is deleted only after the archive was
        written;
      - C6: [CleanupError] comes only after the archive was written;
      - C7: an existing staging directory is refused and left untouched;
      - C8: an extraction error writes nothing;
      - C9: a staging error leaves no archive, and a staging directory
        holding exactly the files written before the failure.
    - C10-C11: the defect modelling exposed.  With a worksheet name
      ending in ['/'], a run that reports success leaves no archive (C10),
      and in fact leaves the disk exactly as it found it (C11).
    - C12: two invocations with the same worksheet name (spec 5), their
      steps interleaved in any order, always have the effect of the two
      run one after the other.
    - C13: two invocations with different worksheet names whose staging
      directories and archives are apart ([exports_separated]): in every
      interleaving each process ends as it would alone, and the world is
      that of the two run one after the other, in either order.
    - C14-C15: [make_tarfile].  C14 shows the archive holds what the
      recursive [TarFile.add] produces; C15 is the missing-source case.
    - C16-C19: the command line.  C16 ties the exit status to the
      archive: a status of 0 means the help was printed or the whole of
      [from_scanpy] ran, and then the archive exists and the staging
      directory is gone.  For [from_scanpy]: the defaults and the usage
      errors for plain arguments (C17), the eager [--help] (C18), and the
      refusal of undeclared options such as [--cluster-name] (C19).
    - C20-C24: what [gather] computes: the marker table ranked per
      cluster (C20), the majority-vote mapping with its tie-break (C21),
      the products indexed by the cells (C22), the raw matrix preferred
      (C23), and the four lines printed with a preview of at most five
      rows (C24).
    - C25-C26: the errors for a missing embedding and a missing cluster
      column, raised before anything is written.
    Each claim with hypotheses has a witness ([..._witness], ending in
    [Defined]) that applies it to a concrete world of [Cli] or a concrete
    argument vector.

    ** Bounds and fuel
    Every recursion is structural.  The only fuel is that of [tar_walk],
    the recursion of [TarFile.add]: one unit per level of the tree.
    One more than [TarWalk.fs_depth], the length of the longest path, is
    enough: [make_tarfile_recursive_walk] (C14) shows that with this fuel
    the walk gives the archive [make_tarfile] writes.  [Tar] describes
    the same walk by its result: the entries below the source in the
    lexicographic order of their component lists.
    - Python integers are unbounded, so counts and matrix entries are [Z]
      or [nat] with no wrap-around.
    - Means are exact rationals ([Q]) rather than floats.
    - click's parser recurses on the argument vector, structurally.
    - A schedule is a finite list of turns; a process given more turns
      than it has steps does nothing after its last step or its first
      exception.

    ** Not modelled
    - How flask finds the commands: [cli.py] registers them nowhere (the
      [CLICK_COMMANDS] list its docstring names does not exist).
    - The texts click prints for [--help] and usage errors: the model
      records which of the two ends the command.
    - The bytes of the files: gzip, tab-separated text, HDF5 and JSON.
      Contents are typed values.
    - HTTP: the service is a log of requests.  What [upload] does with
      the archive path [None] that [upload_worksheet] passes (cli.py 57)
      is not said by spec 4.5; [Webapi] raises [UploadError], and no
      theorem rests on that choice.
    - The exact statistic of [ctwpy.marker_table]: spec 4.2 gives
      fold-change or rank-sum only as examples; [Markers] scores by the
      difference of means, and no theorem depends on that formula.
    - The stage machine of spec 4.5: [cli.py] has no stage state, it runs
      its calls in sequence.  The theorems state instead what each
      outcome leaves (C1, C5-C9).
    - [scanpy_obs] and [bye] are modelled ([Cli]) but have no theorem:
      each is a read and a print.
    - Symbolic links and permissions beyond the fault set.
    - Interleavings inside a single Python call, and more than two
      invocations at once: [Concurrency] and [Independence] interleave
      whole calls of two processes.  For the same-name race the staging
      directory exists throughout each call; for separated names the
      footprints are disjoint at every system call, so a finer grain would
      commute the same way, but it is not proved.
    - The reading part of a concurrent invocation ([gather]): it reads the
      dataset file, which no export step writes unless the dataset path is
      one of the other worksheet's paths.
    - Different worksheet names that are not separated, such as ["ws"] and
      ["ws.ctw.tgz"]: [Independence.archive_name_clash] shows on a
      concrete world that they do interfere. *)

From stdpp Require Export base list strings gmap sorting.

(** ** Results and the state-and-exception monad *)

(** The outcome of a computation that may raise: [Ok] carries the value,
    [Err] the exception. *)
Inductive result (E A : Type) : Type :=
  | Ok (a : A)
  | Err (e : E).
Arguments Ok {E A} a.
Arguments Err {E A} e.

(** A computation over state [S] that may raise an exception of type [E].
    When it raises, the state reached so far is kept: the side effects a
    Python function performed before raising are not undone. *)
Definition EST (S E A : Type) : Type := S -> result E A * S.

Section EST.
Context {S E : Type}.

#[export] Instance est_ret : MRet (EST S E) := fun A a s => (Ok a, s).
#[export] Instance est_bind : MBind (EST S E) := fun A B f c s =>
  match c s with
  | (Ok a, s') => f a s'
  | (Err e, s') => (Err e, s')
  end.

Definition raise {A} (e : E) : EST S E A := fun s => (Err e, s).
Definition get : EST S E S := fun s => (Ok s, s).
Definition put (s : S) : EST S E unit := fun _ => (Ok tt, s).
Definition modify (f : S -> S) : EST S E unit := fun s => (Ok tt, f s).

(** Lift a pure fallible value. *)
Definition lift {A} (r : result E A) : EST S E A := fun s => (r, s).

(** [try: c except: h(e)]: run the handler on an exception. *)
Definition catch {A} (c : EST S E A) (h : E -> EST S E A) : EST S E A :=
  fun s => match c s with
           | (Err e, s') => h e s'
           | r => r
           end.

(** [preserves P c]: every run of [c] from a state satisfying [P] ends
    (normally or by an exception) in a state satisfying [P]. *)
Definition preserves {A} (P : S -> Prop) (c : EST S E A) : Prop :=
  forall s, P s -> P (snd (c s)).

Lemma est_bind_run {A B} (c : EST S E A) (f : A -> EST S E B) s :
  (c ≫= f) s = match c s with
               | (Ok a, s') => f a s'
               | (Err e, s') => (Err e, s')
               end.
Proof. reflexivity. Qed.

Lemma est_bind_ok {A B} (c : EST S E A) (f : A -> EST S E B) s a s' :
  c s = (Ok a, s') -> (c ≫= f) s = f a s'.
Proof. intros H. by rewrite est_bind_run, H. Qed.

Lemma est_bind_err {A B} (c : EST S E A) (f : A -> EST S E B) s e s' :
  c s = (Err e, s') -> (c ≫= f) s = (Err e, s').
Proof. intros H. by rewrite est_bind_run, H. Qed.

Lemma est_ret_bind {A B} (a : A) (f : A -> EST S E B) s :
  (mret a ≫= f) s = f a s.
Proof. reflexivity. Qed.

Lemma est_bind_assoc {A B C} (c : EST S E A) (f : A -> EST S E B)
      (g : B -> EST S E C) s :
  ((c ≫= f) ≫= g) s = (c ≫= (fun a => f a ≫= g)) s.
Proof. rewrite !est_bind_run. by destruct (c s) as [[a|e] s']. Qed.

Lemma preserves_ret {A} P (a : A) : preserves P (mret a).
Proof. by intros s. Qed.

Lemma preserves_raise {A} P e : preserves P (@raise A e).
Proof. by intros s. Qed.

Lemma preserves_lift {A} P (r : result E A) : preserves P (lift r).
Proof. by intros s. Qed.

Lemma preserves_bind {A B} P (c : EST S E A) (f : A -> EST S E B) :
  preserves P c -> (forall a, preserves P (f a)) -> preserves P (c ≫= f).
Proof.
  intros Hc Hf s Hs. rewrite est_bind_run.
  specialize (Hc s Hs). destruct (c s) as [[a|e] s']; simpl in *; [by apply Hf | done].
Qed.

Lemma preserves_catch {A} P (c : EST S E A) h :
  preserves P c -> (forall e, preserves P (h e)) -> preserves P (catch c h).
Proof.
  intros Hc Hh s Hs. unfold catch. specialize (Hc s Hs).
  destruct (c s) as [[a|e] s']; simpl in *; [done|by apply Hh].
Qed.

Lemma preserves_modify P f :
  (forall s, P s -> P (f s)) -> preserves P (modify f).
Proof. intros H s. apply H. Qed.
(** [raises_only Q c]: every exception [c] raises satisfies [Q]. *)
Definition raises_only {A} (Q : E -> Prop) (c : EST S E A) : Prop :=
  forall s e s', c s = (Err e, s') -> Q e.

Lemma raises_only_ret {A} Q (a : A) : raises_only Q (mret a).
Proof. by intros s e s'. Qed.

Lemma raises_only_raise {A} (Q : E -> Prop) e : Q e -> raises_only Q (@raise A e).
Proof. intros He s e' s' [= <- _]. done. Qed.

Lemma raises_only_bind {A B} Q (c : EST S E A) (f : A -> EST S E B) :
  raises_only Q c -> (forall a, raises_only Q (f a)) -> raises_only Q (c ≫= f).
Proof.
  intros Hc Hf s e s'. rewrite est_bind_run.
  destruct (c s) as [[a|e0] s0] eqn:Hcs; [by apply Hf|]. intros [= <- <-]. by eapply Hc.
Qed.

Lemma raises_only_modify Q f : raises_only Q (modify f).
Proof. by intros s e s'. Qed.

Lemma raises_only_lift {A} (Q : E -> Prop) (r : result E A) :
  (forall e, r = Err e -> Q e) -> raises_only Q (lift r).
Proof. intros H s e s' [= -> _]. by apply H. Qed.

Lemma raises_only_weaken {A} (Q Q' : E -> Prop) (c : EST S E A) :
  raises_only Q c -> (forall e, Q e -> Q' e) -> raises_only Q' c.
Proof. intros Hc HQ s e s' Hr. apply HQ. by eapply Hc. Qed.
End EST.

Arguments preserves {S E A} P c.
Arguments raises_only {S E A} Q c.

(** ** The exceptions of the program

    The taxonomy of spec.md section 7, with the exceptions the operating
    system raises for missing or unreadable files.  Each carries the
    offending name, as the specification requires. *)
Inductive error : Type :=
  | ConfigurationError (column : string)   (** missing observation column *)
  | MissingEmbeddingError (key : string)   (** missing [obsm] embedding *)
  | DirectoryExistsError (path : string)   (** staging directory collision *)
  | FileNotFoundError (path : string)      (** missing file or parent *)
  | DecodeError (path : string)            (** file of the wrong format *)
  | WriteError (path : string)             (** [OSError] while writing *)
  | ArchiveError (path : string)           (** tar or gzip failure *)
  | CleanupError (path : string)           (** [rmtree] failure *)
  | UploadError (reason : string).         (** network or authentication *)

(** ** Hints and tactics shared by the components *)

Create HintDb ctw.
Create Rewrite HintDb ctw_run.
#[export] Hint Resolve preserves_ret preserves_raise preserves_lift
  preserves_bind preserves_catch preserves_modify
  raises_only_ret raises_only_modify : ctw.
#[export] Hint Rewrite @est_ret_bind : ctw_run.

(** [est_run H]: rewrite the first bind of the goal with a hypothesis
    [H : c s = (r, s')] that says how its first computation ends. *)
Ltac est_run H :=
  first [ rewrite (est_bind_ok _ _ _ _ _ H)
        | rewrite (est_bind_err _ _ _ _ _ H) ].

(** [preserves_auto]: split a [preserves] goal along the binds of a
    program, closing the operations that have a lemma in [ctw]. *)
Ltac preserves_auto :=
  repeat first [ solve [eauto with ctw]
               | apply preserves_bind; [| intros ?]
               | apply preserves_ret | apply preserves_raise
               | apply preserves_lift
               | apply preserves_catch; [| intros ?]
               | match goal with |- preserves _ (match ?x with _ => _ end) =>
                   destruct x end ].

(** [raises_auto]: split a [raises_only] goal along the binds of a
    program, closing the operations that have a lemma in [ctw]. *)
Ltac raises_auto :=
  repeat first [ solve [eauto with ctw]
               | apply raises_only_bind; [| intros ?]
               | apply raises_only_ret | apply raises_only_modify
               | solve [apply raises_only_raise; done]
               | match goal with |- raises_only _ (match ?x with _ => _ end) =>
                   destruct x end ].

(** ** Generic lemmas on lists *)

(** The elements of a list in the order of their first occurrence
    (pandas' [unique]). *)
Fixpoint uniq_first `{EqDecision A} (seen : list A) (l : list A) : list A :=
  match l with
  | [] => []
  | x :: l' =>
      if decide (x ∈ seen) then uniq_first seen l'
      else x :: uniq_first (x :: seen) l'
  end.

Lemma elem_of_uniq_first `{EqDecision A} (seen l : list A) x :
  x ∈ uniq_first seen l <-> x ∈ l /\ x ∉ seen.
Proof.
  revert seen. induction l as [|y l IH]; intros seen; simpl.
  - set_solver.
  - case_decide.
    + rewrite IH, elem_of_cons.
      split; [tauto|]. intros [[->|?] ?]; [contradiction|tauto].
    + rewrite !elem_of_cons, IH, not_elem_of_cons.
      split; [intros [->|(?&?&?)]; tauto|].
      intros [[->|?] ?]; [by left|].
      destruct (decide (x = y)); [by left|]. right; tauto.
Qed.

Lemma NoDup_uniq_first `{EqDecision A} (seen l : list A) :
  NoDup (uniq_first seen l).
Proof.
  revert seen. induction l as [|y l IH]; intros seen; simpl.
  - constructor.
  - case_decide; [done|]. constructor; [|done].
    rewrite elem_of_uniq_first. set_solver.
Qed.

#[export] Hint Resolve NoDup_uniq_first : ctw.

(** ** Generic lemmas on maps built by successive inserts *)

Section FoldInsert.
Context {A K V : Type} `{Countable K} (f : A -> K) (g : A -> V).

Lemma fold_insert_lookup_out (l : list A) (m : gmap K V) q :
  q ∉ f <$> l -> fold_left (fun acc x => <[f x := g x]> acc) l m !! q = m !! q.
Proof.
  revert m. induction l as [|x l IH]; intros m Hq; simpl; [done|].
  rewrite fmap_cons, not_elem_of_cons in Hq. destruct Hq as [Hx Hl].
  rewrite IH by done. by rewrite lookup_insert_ne.
Qed.

Lemma fold_insert_lookup_in (l : list A) (m : gmap K V) x :
  NoDup (f <$> l) -> x ∈ l -> fold_left (fun acc y => <[f y := g y]> acc) l m !! f x = Some (g x).
Proof.
  revert m. induction l as [|y l IH]; intros m Hnd Hx; simpl; [set_solver|].
  rewrite fmap_cons in Hnd. apply NoDup_cons in Hnd as [Hy Hnd].
  apply elem_of_cons in Hx as [->|Hx]; [|by apply IH].
  rewrite fold_insert_lookup_out by done. by rewrite lookup_insert_eq.
Qed.
End FoldInsert.

Lemma NoDup_omap_inj {A B} (g : A -> option B) (l : list A) :
  NoDup l -> (forall x y z, x ∈ l -> y ∈ l -> g x = Some z -> g y = Some z -> x = y) ->
  NoDup (omap g l).
Proof.
  induction 1 as [|x l Hx Hl IH]; intros Hinj; simpl; [constructor|].
  assert (NoDup (omap g l)) as Hl' by (apply IH; intros; eapply Hinj; eauto; by right).
  destruct (g x) as [z|] eqn:Hg; [|done]. constructor; [|done].
  intros (y & Hy & Hgy)%list_elem_of_omap. apply Hx.
  by rewrite (Hinj x y z ltac:(by left) ltac:(by right) Hg Hgy).
Qed.

Lemma join_fmap_cons {A B} (g : A -> list B) x l : mjoin (g <$> x :: l) = g x ++ mjoin (g <$> l).
Proof. reflexivity. Qed.

Lemma not_prefix_app_ne {A} (l1 l2 rel : list A) : ¬ l1 `prefix_of` l2 -> l1 ++ rel <> l2.
Proof. intros Hn Heq. apply Hn. rewrite <- Heq. by apply prefix_app_r. Qed.
