(* ===== verification/Paths.v ===== *)
(** * Paths: the [os.path] functions that [cli.py] relies on

    [make_tarfile] names the top entry of the archive
    [os.path.basename(source_dir)] (cli.py 62), [from_scanpy] names the
    archive ["%s.ctw.tgz" % worksheet_name] (cli.py 46), and the operating
    system resolves every path string against the working directory.  This
    file models [posixpath.basename], [posixpath.join], [str.split('/')]
    and the lexical resolution of a path string to its list of components
    ([os.path.abspath]; the model has no symbolic links, so lexical and
    physical resolution of [..] agree).  The main lemma, [resolve_suffix],
    says where [p + t] lands relative to [p] when [t] has no slash. *)

From Stdlib Require Import Ascii.
From S2P Require Import Prelude.

Definition slash : ascii := "/"%char.

(** ** Definitions *)

Fixpoint has_slash (s : string) : bool :=
  match s with
  | EmptyString => false
  | String c s' => Ascii.eqb c slash || has_slash s'
  end.

Definition starts_with_slash (s : string) : bool :=
  match s with
  | String c _ => Ascii.eqb c slash
  | EmptyString => false
  end.

Fixpoint ends_with_slash (s : string) : bool :=
  match s with
  | EmptyString => false
  | String c EmptyString => Ascii.eqb c slash
  | String _ s' => ends_with_slash s'
  end.

(** [posixpath.basename(p)]: [p[p.rfind('/') + 1:]], the suffix after the
    last slash (the whole string when there is none). *)
Fixpoint basename (p : string) : string :=
  match p with
  | EmptyString => EmptyString
  | String c p' =>
      if has_slash p' then basename p'
      else if Ascii.eqb c slash then p' else String c p'
  end.

(** [p.split('/')]: the pieces between slashes, empty ones included. *)
Fixpoint split_slash (s : string) : list string :=
  match s with
  | EmptyString => [EmptyString]
  | String c s' =>
      let rest := split_slash s' in
      if Ascii.eqb c slash then EmptyString :: rest
      else match rest with
           | r :: rs => String c r :: rs
           | [] => [String c EmptyString]
           end
  end.

(** [posixpath.join(a, b)] for two arguments. *)
Definition join (a b : string) : string :=
  if starts_with_slash b then b
  else if String.eqb a "" || ends_with_slash a then a +:+ b
  else a +:+ "/" +:+ b.

(** One step of [posixpath.normpath] on an absolute path: empty and [.]
    components vanish, [..] removes the last component (and stays at the
    root), any other component is appended. *)
Definition norm_step (acc : list string) (c : string) : list string :=
  if String.eqb c "" || String.eqb c "." then acc
  else if String.eqb c ".." then removelast acc
  else acc ++ [c].

(** [os.path.abspath(p)] as a list of components, [cwd] being the
    working directory. *)
Definition resolve (cwd : list string) (p : string) : list string :=
  fold_left norm_step (split_slash p) (if starts_with_slash p then [] else cwd).

(** A component that [norm_step] appends as it is. *)
Definition proper_component (c : string) : bool :=
  negb (String.eqb c "" || String.eqb c "." || String.eqb c ".." || has_slash c).

(** ** Lemmas *)

Lemma basename_no_slash p : has_slash p = false -> basename p = p.
Proof.
  induction p as [|c p IH]; simpl; [done|].
  intros [Hc Hp]%orb_false_iff. rewrite Hp, Hc. done.
Qed.

Lemma split_slash_no_slash p : has_slash p = false -> split_slash p = [p].
Proof.
  induction p as [|c p IH]; simpl; [done|].
  intros [Hc Hp]%orb_false_iff. rewrite Hc, IH; done.
Qed.

Lemma has_slash_app p t : has_slash (p +:+ t) = has_slash p || has_slash t.
Proof. induction p as [|c p IH]; simpl; [done|]. by rewrite IH, orb_assoc. Qed.

Lemma basename_has_no_slash p : has_slash (basename p) = false.
Proof.
  induction p as [|c p IH]; simpl; [done|].
  destruct (has_slash p) eqn:Hp; [done|].
  destruct (Ascii.eqb c slash) eqn:Hc; simpl; [done|]. by rewrite Hc, Hp.
Qed.

Lemma basename_cons_slash c p :
  Ascii.eqb c slash = true -> basename (String c p) = basename p.
Proof.
  intros Hc. simpl. rewrite Hc.
  destruct (has_slash p) eqn:Hp; [done|]. by rewrite basename_no_slash.
Qed.

Lemma split_slash_ne p : split_slash p <> [].
Proof.
  destruct p as [|c p]; simpl; [done|].
  destruct (Ascii.eqb c slash); [done|]. by destruct (split_slash p).
Qed.

(** A string with a slash splits into at least two pieces. *)
Lemma split_slash_has_slash p :
  has_slash p = true -> exists r r' rs, split_slash p = r :: r' :: rs.
Proof.
  induction p as [|c p IH]; simpl; [done|].
  destruct (Ascii.eqb c slash) eqn:Hc; simpl.
  - intros _. destruct (split_slash p) as [|r rs] eqn:E; [by apply split_slash_ne in E|].
    by exists EmptyString, r, rs.
  - intros (r & r' & rs & ->)%IH. by exists (String c r), r', rs.
Qed.

(** [p.split('/')] ends with [basename(p)], and appending a slash-free
    suffix to [p] extends exactly that last piece. *)
Lemma split_slash_basename p :
  exists init, split_slash p = init ++ [basename p] /\
    forall t, has_slash t = false ->
      split_slash (p +:+ t) = init ++ [basename p +:+ t].
Proof.
  induction p as [|c p (init & Hsp & Happ)].
  - exists []. split; [done|]. intros t Ht. by rewrite split_slash_no_slash.
  - destruct (Ascii.eqb c slash) eqn:Hc.
    + exists (EmptyString :: init). rewrite basename_cons_slash by done.
      simpl. rewrite Hc, Hsp. split; [done|]. intros t Ht. by rewrite Happ.
    + destruct (has_slash p) eqn:Hp.
      * destruct (split_slash_has_slash p Hp) as (r & r' & rs & E).
        destruct init as [|i init]; [rewrite E in Hsp; simpl in Hsp; congruence|].
        exists (String c i :: init). simpl. rewrite Hc, Hp, Hsp.
        split; [done|]. intros t Ht. by rewrite Happ.
      * exists []. simpl. rewrite Hc, Hp, split_slash_no_slash by done.
        split; [done|]. intros t Ht.
        by rewrite split_slash_no_slash by (by rewrite has_slash_app, Hp).
Qed.

Lemma proper_component_spec c :
  proper_component c = true <->
  c <> "" /\ c <> "." /\ c <> ".." /\ has_slash c = false.
Proof.
  unfold proper_component.
  rewrite negb_true_iff, !orb_false_iff, !String.eqb_neq. tauto.
Qed.

(** Appending a slash-free suffix to a proper component gives a proper
    component. *)
Lemma proper_component_app b t :
  proper_component b = true -> has_slash t = false ->
  proper_component (b +:+ t) = true.
Proof.
  rewrite !proper_component_spec, has_slash_app.
  intros (H1 & H2 & H3 & H4) Ht. rewrite H4, Ht.
  destruct b as [|c1 [|c2 [|c3 b]]], t as [|d1 [|d2 t]];
    rewrite ?string_app_nil_r in *; simpl;
    repeat split; try done; intros [= -> ->]; congruence.
Qed.

Lemma norm_step_proper acc c :
  proper_component c = true -> norm_step acc c = acc ++ [c].
Proof.
  intros (H1 & H2 & H3 & _)%proper_component_spec. unfold norm_step.
  by repeat rewrite (proj2 (String.eqb_neq _ _)) by done.
Qed.

(** Where [p + t] lands: when the last component of [p] is proper and
    [t] has no slash, [p] and [p + t] resolve to siblings, whose names are
    [basename p] and [basename p + t]. *)
Lemma resolve_suffix cwd p t :
  has_slash t = false -> proper_component (basename p) = true ->
  exists P, resolve cwd p = P ++ [basename p] /\
            resolve cwd (p +:+ t) = P ++ [basename p +:+ t].
Proof.
  intros Ht Hb. destruct (split_slash_basename p) as (init & Hs & Happ).
  assert (starts_with_slash (p +:+ t) = starts_with_slash p) as Hst.
  { destruct p; [by compute in Hb|reflexivity]. }
  unfold resolve. rewrite Hst, Hs, Happ by done. rewrite !fold_left_app. simpl.
  rewrite (norm_step_proper _ (basename p)) by done.
  rewrite norm_step_proper by (by apply proper_component_app). by eexists.
Qed.

(** Every piece of [s.split('/')] is free of slashes. *)
Lemma split_slash_pieces s : Forall (fun c => has_slash c = false) (split_slash s).
Proof.
  induction s as [|c s IH]; simpl; [by repeat constructor|].
  destruct (Ascii.eqb c slash) eqn:Hc; [by constructor|].
  destruct (split_slash s) as [|r rs] eqn:E; [by apply split_slash_ne in E|].
  apply Forall_cons in IH as [Hr Hrs]. constructor; [|done]. simpl. by rewrite Hc, Hr.
Qed.

Lemma Forall_removelast {A} (P : A -> Prop) l : Forall P l -> Forall P (removelast l).
Proof.
  induction l as [|x [|y l] IH]; simpl; [done|constructor|].
  intros [Hx Hl]%Forall_cons. constructor; [done|]. by apply IH.
Qed.

(** Resolution from a working directory made of proper components gives
    a path made of proper components. *)
Lemma resolve_proper cwd s :
  Forall (fun c => proper_component c = true) cwd ->
  Forall (fun c => proper_component c = true) (resolve cwd s).
Proof.
  intros Hcwd. unfold resolve.
  assert (Forall (fun c => proper_component c = true)
            (if starts_with_slash s then [] else cwd)) as Hst
    by (by destruct (starts_with_slash s)).
  revert Hst. generalize (if starts_with_slash s then [] else cwd).
  induction (split_slash_pieces s) as [|c cs Hc _ IH]; intros acc Hacc; simpl; [done|].
  apply IH. unfold norm_step.
  destruct (String.eqb_spec c "") as [|H1], (String.eqb_spec c ".") as [|H2]; simpl;
    [done..|].
  destruct (String.eqb_spec c "..") as [|H3]; [by apply Forall_removelast|].
  apply Forall_app. split; [done|]. constructor; [|done].
  by apply proper_component_spec.
Qed.

(** Splitting at an explicit slash. *)
Lemma split_slash_app_slash p t :
  split_slash (p +:+ String slash t) = split_slash p ++ split_slash t.
Proof.
  induction p as [|c p IH]; simpl; [done|].
  rewrite IH. destruct (Ascii.eqb c slash); [done|].
  destruct (split_slash p) eqn:E; [by apply split_slash_ne in E|done].
Qed.

Lemma fold_norm_step_proper acc l :
  Forall (fun c => proper_component c = true) l -> fold_left norm_step l acc = acc ++ l.
Proof.
  revert acc. induction l as [|c l IH]; intros acc Hl; simpl; [by rewrite app_nil_r|].
  apply Forall_cons in Hl as [Hc Hl]. rewrite norm_step_proper by done.
  rewrite IH by done. by rewrite <- app_assoc.
Qed.

Lemma ends_with_slash_inv p : ends_with_slash p = true -> exists q, p = q +:+ "/".
Proof.
  induction p as [|c p IH]; simpl; [done|].
  destruct p as [|c' p].
  - intros Hc. exists "". apply Ascii.eqb_eq in Hc. by subst.
  - intros (q & Hq)%IH. exists (String c q). by rewrite Hq.
Qed.

Lemma basename_trailing_slash q : basename (q +:+ "/") = "".
Proof.
  induction q as [|c q IH]; [done|]. simpl.
  by rewrite has_slash_app, orb_true_r.
Qed.

Lemma basename_ends_with_slash p : ends_with_slash p = true -> basename p = "".
Proof. intros (q & ->)%ends_with_slash_inv. apply basename_trailing_slash. Qed.

Lemma basename_app_slash x f :
  has_slash f = false -> basename (x +:+ String slash f) = f.
Proof.
  intros Hf. induction x as [|c x IH]; simpl.
  - by rewrite Hf.
  - rewrite has_slash_app. simpl. rewrite orb_true_r. exact IH.
Qed.

Lemma proper_component_no_slash c : proper_component c = true -> has_slash c = false.
Proof. by intros (_ & _ & _ & ?)%proper_component_spec. Qed.

(** Joining a proper component to a name whose base name is proper puts
    exactly one slash between them. *)
Lemma join_proper name f :
  proper_component (basename name) = true -> proper_component f = true ->
  join name f = name +:+ String slash f.
Proof.
  intros Hb Hf. pose proof (proper_component_no_slash f Hf) as Hfs.
  assert (starts_with_slash f = false) as Hst.
  { destruct f as [|c f]; simpl in *; [done|]. by apply orb_false_iff in Hfs as [-> _]. }
  assert (name <> "") as Hne by (intros ->; by compute in Hb).
  assert (ends_with_slash name = false) as Hend.
  { destruct (ends_with_slash name) eqn:E; [|done].
    rewrite basename_ends_with_slash in Hb by done. by compute in Hb. }
  unfold join. rewrite Hst, (proj2 (String.eqb_neq _ _) Hne), Hend. simpl.
  reflexivity.
Qed.

Lemma basename_join name f :
  proper_component (basename name) = true -> proper_component f = true ->
  basename (join name f) = f.
Proof.
  intros Hb Hf. rewrite join_proper by done.
  by apply basename_app_slash, proper_component_no_slash.
Qed.

(** A proper component names an entry of the working directory. *)
Lemma resolve_component cwd c :
  proper_component c = true -> resolve cwd c = cwd ++ [c].
Proof.
  intros Hc. pose proof (proper_component_no_slash c Hc) as Hs.
  unfold resolve. rewrite split_slash_no_slash by done.
  replace (starts_with_slash c) with false
    by (destruct c as [|x c]; simpl in *; [done|by apply orb_false_iff in Hs as [-> _]]).
  simpl. by rewrite norm_step_proper.
Qed.

(** [os.path.join(name, f)] for a file name [f] resolves to the entry [f]
    of the directory [name]. *)
Lemma resolve_join cwd name f :
  proper_component (basename name) = true -> proper_component f = true ->
  resolve cwd (join name f) = resolve cwd name ++ [f].
Proof.
  intros Hb Hf. rewrite join_proper by done.
  assert (name <> "") as Hne by (intros ->; by compute in Hb).
  unfold resolve. replace (starts_with_slash (name +:+ String slash f))
    with (starts_with_slash name) by (by destruct name).
  rewrite split_slash_app_slash, (split_slash_no_slash f)
    by (by apply proper_component_no_slash).
  rewrite fold_left_app. simpl. by rewrite norm_step_proper.
Qed.

Lemma string_app_assoc a b c : (a +:+ b) +:+ c = a +:+ (b +:+ c).
Proof.
  induction a as [|x a IH]; [done|].
  change (String x ((a +:+ b) +:+ c) = String x (a +:+ (b +:+ c))). by rewrite IH.
Qed.

Lemma starts_with_slash_app p t : p <> "" -> starts_with_slash (p +:+ t) = starts_with_slash p.
Proof. by destruct p. Qed.

(** A name ending in a slash, followed by a slash-free proper suffix,
    resolves to an entry of the directory the name denotes. *)
Lemma resolve_trailing_slash cwd q t :
  proper_component t = true ->
  resolve cwd ((q +:+ "/") +:+ t) = resolve cwd (q +:+ "/") ++ [t].
Proof.
  intros Ht. pose proof (proper_component_no_slash t Ht) as Hts.
  unfold resolve. rewrite starts_with_slash_app by (by destruct q).
  rewrite string_app_assoc. change ("/" +:+ t) with (String slash t).
  change (q +:+ "/") with (q +:+ String slash "").
  rewrite !split_slash_app_slash, (split_slash_no_slash t) by done. simpl.
  rewrite !fold_left_app. simpl. rewrite norm_step_proper by done.
  unfold norm_step at 2. simpl. done.
Qed.


(** [os.path.join(name, f)] for a file name [f] resolves to the entry [f]
    of whatever directory [name] resolves to, whatever [name] is: empty,
    ending in a slash, or with [.] and [..] components. *)
Lemma resolve_join_any cwd name f :
  proper_component f = true -> resolve cwd (join name f) = resolve cwd name ++ [f].
Proof.
  intros Hf. pose proof (proper_component_no_slash f Hf) as Hfs.
  assert (starts_with_slash f = false) as Hst.
  { destruct f as [|c f]; simpl in *; [done|]. by apply orb_false_iff in Hfs as [-> _]. }
  unfold join. rewrite Hst.
  destruct (String.eqb_spec name "") as [->|Hne]; simpl.
  { rewrite resolve_component by done. reflexivity. }
  destruct (ends_with_slash name) eqn:Hend; simpl.
  - destruct (ends_with_slash_inv name Hend) as (q & ->). by apply resolve_trailing_slash.
  - unfold resolve. change (name +:+ "/" +:+ f) with (name +:+ String slash f).
    rewrite starts_with_slash_app by done.
    rewrite split_slash_app_slash, (split_slash_no_slash f) by done.
    rewrite fold_left_app. simpl. by rewrite norm_step_proper.
Qed.
