(* ===== verification/Dataset.v ===== *)
(** * Dataset: the AnnData object and the [ctwpy.scanpyapi] accessors

    [from_scanpy] reads one AnnData object (cli.py 28) and takes from it the
    cell-type mapping (30), the raw-slot test (32), the UMAP coordinates
    (33), the clustering (38) and the expression matrix (40); [scanpy_obs]
    lists its observation columns (69).  The module [ctwpy.scanpyapi] is not
    under [src/]: its accessors are modelled from spec.md 4.1 and 9.

    An AnnData object is a record with the cell names ([obs_names]), the
    gene names ([var_names]), the observation columns in their order
    ([obs], a list of named per-cell string columns), the embeddings
    ([obsm]), the normalised matrix [X] and the optional [raw] matrix.
    Numbers are integers ([Z]): they are only copied, except by the marker
    pipeline, which works on their exact means ([Markers]).  The invariant
    [anndata_wf] states that every per-cell table has one entry per cell;
    [anndata_wfb] is its executable check.  [demo_ad] is a small concrete
    dataset on which the commands of [Cli] are run. *)

From Stdlib Require Import ZArith.
From S2P Require Import Prelude.

(** ** Association lists (pandas columns, [obsm] keys) *)

Fixpoint assoc {A} (k : string) (l : list (string * A)) : option A :=
  match l with
  | [] => None
  | (k', v) :: l' => if String.eqb k k' then Some v else assoc k l'
  end.

Lemma assoc_elem_of {A} k (l : list (string * A)) v :
  assoc k l = Some v -> (k, v) ∈ l.
Proof.
  induction l as [|[k' v'] l IH]; simpl; [done|].
  destruct (String.eqb_spec k k') as [->|]; [intros [= ->]; left|].
  intros H. right. by apply IH.
Qed.

Lemma assoc_None {A} k (l : list (string * A)) :
  assoc k l = None <-> k ∉ l.*1.
Proof.
  induction l as [|[k' v'] l IH]; simpl; [set_solver|].
  rewrite not_elem_of_cons, <- IH.
  destruct (String.eqb_spec k k'); naive_solver.
Qed.

Record anndata := mk_anndata {
  obs_names : list string;
  var_names : list string;
  obs : list (string * list string);
  obsm : list (string * list (Z * Z));
  X : list (list Z);
  raw : option (list (list Z))
}.

(** A cells-by-genes matrix with one row per cell and one entry per gene. *)
Definition matrix_wf (ncells ngenes : nat) (m : list (list Z)) : Prop :=
  length m = ncells /\ Forall (fun row => length row = ngenes) m.

Definition anndata_wf (ad : anndata) : Prop :=
  let n := length (obs_names ad) in
  (forall k col, (k, col) ∈ obs ad -> length col = n) /\
  (forall k xy, (k, xy) ∈ obsm ad -> length xy = n) /\
  matrix_wf n (length (var_names ad)) (X ad) /\
  (forall r, raw ad = Some r -> matrix_wf n (length (var_names ad)) r).

(** ** Accessors *)

(** [ad.obs[name]], raising the configuration error of spec 4.1 when the
    column is absent. *)
Definition obs_column (ad : anndata) (name : string) : result error (list string) :=
  match assoc name (obs ad) with
  | Some col => Ok col
  | None => Err (ConfigurationError name)
  end.

(** [get_obs(ad, cluster_name)]: the clustering, cell name to label. *)
Definition get_obs (ad : anndata) (name : string) : result error (list (string * string)) :=
  match obs_column ad name with
  | Ok col => Ok (zip (obs_names ad) col)
  | Err e => Err e
  end.

(** [ad.obs_keys()]. *)
Definition obs_keys (ad : anndata) : list string := map fst (obs ad).

(** [has_raw(ad)]: whether the raw slot is filled. *)
Definition has_raw (ad : anndata) : bool :=
  match raw ad with Some _ => true | None => false end.

(** [get_xys(ad, key)]: the coordinates of each cell in embedding [key]. *)
Definition get_xys (ad : anndata) (key : string) : result error (list (string * (Z * Z))) :=
  match assoc key (obsm ad) with
  | Some xy => Ok (zip (obs_names ad) xy)
  | None => Err (MissingEmbeddingError key)
  end.

(** The expression matrix with its row (cell) and column (gene) names. *)
Record expression := mk_expression {
  exp_cells : list string;
  exp_genes : list string;
  exp_values : list (list Z)
}.

(** [get_expression(ad, use_raw)]: the raw slot when asked for and present,
    the normalised one otherwise. *)
Definition get_expression (ad : anndata) (use_raw : bool) : expression :=
  mk_expression (obs_names ad) (var_names ad)
    (match use_raw, raw ad with
     | true, Some r => r
     | _, _ => X ad
     end).

(** ** Cell-type mapping by majority vote *)

Definition count_in (x : string) (l : list string) : nat :=
  count_occ String.string_dec l x.

(** The most frequent element of [l]; on a tie the one met first wins, as
    a later element replaces the current choice only when strictly more
    frequent. *)
Definition mode_step (l : list string) (best x : string) : string :=
  if count_in best l <? count_in x l then x else best.

Definition mode (l : list string) : string :=
  fold_left (mode_step l) l (default "" (head l)).

(** The annotations of the cells of cluster [c], in cell order. *)
Definition members_annot (c : string) (clusters annots : list string) : list string :=
  map snd (filter (fun '(c', _) => c' = c) (zip clusters annots)).

(** [celltype_mapping(ad, cluster_name, celltype_key)]: for each cluster, in
    the order of first appearance, the majority annotation of its cells.  A
    missing column raises [ConfigurationError] naming it (the policy chosen
    for the open question of spec 9). *)
Definition celltype_mapping (ad : anndata) (cluster_name celltype_key : string)
  : result error (list (string * string)) :=
  match obs_column ad cluster_name, obs_column ad celltype_key with
  | Ok cl, Ok ct =>
      Ok (map (fun c => (c, mode (members_annot c cl ct))) (uniq_first [] cl))
  | Err e, _ => Err e
  | Ok _, Err e => Err e
  end.

(** ** Lemmas on the majority vote *)

Section Mode.
Variable l : list string.

(** [b] is the first element of [pre] with the largest count in [l]. *)
Definition first_max (pre : list string) (b : string) : Prop :=
  exists i, pre !! i = Some b /\
    (forall j y, j < i -> pre !! j = Some y -> count_in y l < count_in b l) /\
    (forall y, y ∈ pre -> count_in y l <= count_in b l).

Lemma first_max_snoc pre b x : first_max pre b -> first_max (pre ++ [x]) (mode_step l b x).
Proof.
  intros (i & Hi & Hlt & Hle). unfold mode_step.
  destruct (Nat.ltb_spec (count_in b l) (count_in x l)) as [Hbx|Hxb].
  - exists (length pre). split; [by rewrite lookup_app_r, Nat.sub_diag by lia|]. split.
    + intros j y Hj Hy. rewrite lookup_app_l in Hy by done.
      specialize (Hle y (list_elem_of_lookup_2 _ _ _ Hy)). lia.
    + intros y [Hy| ->%list_elem_of_singleton]%elem_of_app; [specialize (Hle y Hy)|]; lia.
  - exists i. split; [by apply lookup_app_l_Some|]. split.
    + intros j y Hj Hy. apply (Hlt j); [done|].
      rewrite lookup_app_l in Hy; [done|]. apply lookup_lt_Some in Hi. lia.
    + intros y [Hy| ->%list_elem_of_singleton]%elem_of_app; [auto|lia].
Qed.

Lemma fold_first_max pre xs b :
  first_max pre b -> first_max (pre ++ xs) (fold_left (mode_step l) xs b).
Proof.
  revert pre b. induction xs as [|x xs IH]; intros pre b H; simpl.
  - by rewrite app_nil_r.
  - rewrite cons_middle, app_assoc. by apply IH, first_max_snoc.
Qed.

(** Ties are broken by first-encountered order: [mode l] is the first
    element of [l] whose count is maximal. *)
Lemma mode_first : l <> [] -> first_max l (mode l).
Proof.
  intros Hl. assert (exists h t, l = h :: t) as (h & t & E) by (destruct l; [done|eauto]).
  assert (first_max [h] h) as H0.
  { exists 0. split_and!; [done|lia|]. intros y ->%list_elem_of_singleton. lia. }
  pose proof (fold_first_max [h] t h H0) as H. simpl in H.
  unfold mode. rewrite E at 1 3 4. simpl. unfold mode_step at 2.
  by destruct (count_in h l <? count_in h l).
Qed.
End Mode.

(** A cluster label that occurs in the cluster column has at least one
    annotated member when the two columns have the same length. *)
Lemma members_annot_ne c cl ct :
  length cl = length ct -> c ∈ cl -> members_annot c cl ct <> [].
Proof.
  intros Hlen (i & Hi)%list_elem_of_lookup.
  destruct (lookup_lt_is_Some_2 ct i) as [t Ht].
  { rewrite <- Hlen. by eapply lookup_lt_Some. }
  unfold members_annot. intros Hnil.
  assert ((c, t) ∈ filter (fun '(c', _) => c' = c) (zip cl ct)) as Hin.
  { apply list_elem_of_filter. split; [done|].
    apply list_elem_of_lookup. exists i. by apply lookup_zip_Some. }
  apply fmap_nil_inv in Hnil. rewrite Hnil in Hin. set_solver.
Qed.

Lemma obs_column_ok ad name col :
  obs_column ad name = Ok col -> (name, col) ∈ obs ad.
Proof.
  unfold obs_column. destruct (assoc name (obs ad)) eqn:E; [|done].
  intros [= <-]. by apply assoc_elem_of.
Qed.

(** ** Properties of the accessors *)

(** The clustering read from a present column covers exactly the cells
    of the dataset, in order, each with the label of the column. *)
Theorem get_obs_covers_cells ad name cl :
  anndata_wf ad -> get_obs ad name = Ok cl ->
  cl.*1 = obs_names ad /\ (name, cl.*2) ∈ obs ad.
Proof.
  intros (Hobs & _) H. unfold get_obs in H.
  destruct (obs_column ad name) as [col|] eqn:E; [|done]. injection H as <-.
  apply obs_column_ok in E. pose proof (Hobs _ _ E) as Hlen.
  rewrite fst_zip, snd_zip by lia. done.
Qed.

(** Every cluster of the clustering column receives, in the order of
    first appearance, the annotation that is most frequent among its
    cells, the first met in cell order on a tie. *)
Theorem celltype_mapping_majority ad cn ck cl ct m :
  anndata_wf ad -> obs_column ad cn = Ok cl -> obs_column ad ck = Ok ct ->
  celltype_mapping ad cn ck = Ok m ->
  m.*1 = uniq_first [] cl /\
  forall c t, (c, t) ∈ m ->
    first_max (members_annot c cl ct) (members_annot c cl ct) t /\
    forall t', count_in t' (members_annot c cl ct) <= count_in t (members_annot c cl ct).
Proof.
  intros (Hobs & _) Hcl Hct. unfold celltype_mapping. rewrite Hcl, Hct.
  intros [= <-]. split.
  - rewrite <- list_fmap_compose. apply list_fmap_id.
  - intros c t (c' & [= -> ->] & Hc')%list_elem_of_fmap.
    apply elem_of_uniq_first in Hc' as [Hc' _].
    destruct (mode_first (members_annot c' cl ct)) as (i & Hi & Hlt & Hmax).
    { apply members_annot_ne; [|done].
      by rewrite (Hobs _ _ (obs_column_ok _ _ _ Hcl)),
                 (Hobs _ _ (obs_column_ok _ _ _ Hct)). }
    split; [by exists i|]. intros t'.
    destruct (decide (t' ∈ members_annot c' cl ct)) as [Ht'|Ht']; [by apply Hmax|].
    unfold count_in. rewrite (proj1 (count_occ_not_In _ _ _)); [lia|].
    by rewrite <- list_elem_of_In.
Qed.

(** A missing embedding key raises [MissingEmbeddingError] naming it;
    a present one gives one coordinate pair per cell. *)
Theorem get_xys_spec ad key :
  anndata_wf ad ->
  match get_xys ad key with
  | Ok xys => xys.*1 = obs_names ad /\ (key, xys.*2) ∈ obsm ad
  | Err e => e = MissingEmbeddingError key /\ key ∉ (obsm ad).*1
  end.
Proof.
  intros (_ & Hobsm & _). unfold get_xys.
  destruct (assoc key (obsm ad)) as [xy|] eqn:E.
  - apply assoc_elem_of in E. pose proof (Hobsm _ _ E).
    rewrite fst_zip, snd_zip by lia. done.
  - split; [done|]. by apply assoc_None.
Qed.

(** A successful mapping read both columns. *)
Lemma celltype_mapping_columns ad cn ck m :
  celltype_mapping ad cn ck = Ok m ->
  exists cl ct, obs_column ad cn = Ok cl /\ obs_column ad ck = Ok ct.
Proof.
  unfold celltype_mapping.
  destruct (obs_column ad cn), (obs_column ad ck); naive_solver.
Qed.

(** The cluster column is read first: its absence is the error. *)
Lemma celltype_mapping_missing_cluster ad cn ck :
  cn ∉ obs_keys ad -> celltype_mapping ad cn ck = Err (ConfigurationError cn).
Proof.
  intros Hn. unfold celltype_mapping, obs_column.
  by rewrite (proj2 (assoc_None _ _) Hn).
Qed.

Lemma celltype_mapping_err ad cn ck e :
  celltype_mapping ad cn ck = Err e -> exists c, e = ConfigurationError c.
Proof.
  unfold celltype_mapping, obs_column.
  destruct (assoc cn (obs ad)), (assoc ck (obs ad)); intros [= <-]; eauto.
Qed.

Lemma get_xys_err ad key e : get_xys ad key = Err e -> e = MissingEmbeddingError key.
Proof. unfold get_xys. by destruct (assoc key (obsm ad)); intros [= <-]. Qed.

(** ** An executable check of [anndata_wf] *)

Definition matrix_wfb (ncells ngenes : nat) (m : list (list Z)) : bool :=
  (length m =? ncells) && forallb (fun row => length row =? ngenes) m.

Definition anndata_wfb (ad : anndata) : bool :=
  let n := length (obs_names ad) in
  forallb (fun kc => length kc.2 =? n) (obs ad) &&
  forallb (fun kc => length kc.2 =? n) (obsm ad) &&
  matrix_wfb n (length (var_names ad)) (X ad) &&
  match raw ad with Some r => matrix_wfb n (length (var_names ad)) r | None => true end.

Lemma matrix_wfb_sound n g m : matrix_wfb n g m = true -> matrix_wf n g m.
Proof.
  unfold matrix_wfb, matrix_wf. intros [Hl Hr]%andb_prop. split; [by apply Nat.eqb_eq|].
  apply Forall_forall. intros row Hrow. apply forallb_forall with (x := row) in Hr;
    [by apply Nat.eqb_eq|by apply list_elem_of_In].
Qed.

Lemma forallb_length_sound {A} (l : list (string * list A)) n k v :
  forallb (fun kc => length kc.2 =? n) l = true -> (k, v) ∈ l -> length v = n.
Proof.
  intros Hf Hin. apply list_elem_of_In in Hin.
  apply forallb_forall with (x := (k, v)) in Hf; [by apply Nat.eqb_eq|done].
Qed.

Lemma anndata_wfb_sound ad : anndata_wfb ad = true -> anndata_wf ad.
Proof.
  unfold anndata_wfb, anndata_wf. intros H.
  apply andb_prop in H as [H Hraw]. apply andb_prop in H as [H HX].
  apply andb_prop in H as [Hobs Hobsm]. split_and!.
  - intros k col. by apply forallb_length_sound.
  - intros k xy. by apply forallb_length_sound.
  - by apply matrix_wfb_sound.
  - intros r Hr. rewrite Hr in Hraw. by apply matrix_wfb_sound.
Qed.

(** ** A concrete dataset *)

(** Four cells in two clusters, two genes, a UMAP embedding, no raw slot. *)
Definition demo_ad : anndata :=
  mk_anndata ["c1"; "c2"; "c3"; "c4"] ["g1"; "g2"]
    [("louvain", ["A"; "B"; "A"; "A"]); ("scorect", ["T"; "B"; "T"; "N"])]
    [("X_umap", [(0, 1); (2, 3); (4, 5); (6, 7)])%Z]
    [[1; 0]; [0; 3]; [2; 1]; [1; 1]]%Z None.
