(* ===== verification/Markers.v ===== *)
(** * Markers: the marker-gene pipeline [ctwpy.marker_table.run_pipe]

    [from_scanpy] calls [run_pipe(ad, cluster_name)] (cli.py 36).  The
    module is not under [src/]; it is modelled from spec.md 4.2: for every
    cluster, in the order of first appearance, each gene is scored by the
    difference between its mean expression inside the cluster and outside
    it, and the genes are listed by decreasing score.  The matrix used is
    the raw one when present (the spec's policy of 4.1 and 9).  Means are
    exact rationals ([Q]); the mean of no value is [0] ([Q] division by
    zero), which is the documented degenerate case of a cluster holding
    every cell.  Sorting is stdpp's stable [merge_sort].

    The theorems show that the marker table has exactly one group per
    distinct cluster label (spec 8, second property), that each group lists
    every gene once with its score, and that it is sorted by score.  None
    of these uses the formula of the score, which spec 4.2 leaves open
    (it names fold-change and rank-sum as examples). *)

From Stdlib Require Import ZArith QArith.
From S2P Require Import Prelude Dataset.

Record marker_row := mk_marker_row {
  mk_gene : string;
  mk_cluster : string;
  mk_score : Q
}.

(** One group of rows per cluster label. *)
Abbreviation marker_table := (list (string * list marker_row)).

Definition sumZ (xs : list Z) : Z := fold_right Z.add 0%Z xs.

Definition meanQ (xs : list Z) : Q :=
  (inject_Z (sumZ xs) / inject_Z (Z.of_nat (length xs)))%Q.

(** The expression values of gene [j], one per cell. *)
Definition gene_column (m : list (list Z)) (j : nat) : list Z :=
  map (fun row => default 0%Z (row !! j)) m.

(** The values of the cells labelled [c], and of the others. *)
Definition inside (cl : list string) (c : string) (v : list Z) : list Z :=
  (filter (fun '(c', _) => c' = c) (zip cl v)).*2.
Definition outside (cl : list string) (c : string) (v : list Z) : list Z :=
  (filter (fun '(c', _) => c' <> c) (zip cl v)).*2.

Definition gene_score (cl : list string) (c : string) (v : list Z) : Q :=
  (meanQ (inside cl c v) - meanQ (outside cl c v))%Q.

(** The unsorted rows of cluster [c]: one per gene, in gene order. *)
Definition gene_rows (m : list (list Z)) (genes cl : list string) (c : string)
  : list marker_row :=
  imap (fun j g => mk_marker_row g c (gene_score cl c (gene_column m j))) genes.

(** Row [a] may precede row [b]: its score is not smaller. *)
Definition score_desc (a b : marker_row) : Prop :=
  Qle_bool (mk_score b) (mk_score a) = true.

#[export] Instance score_desc_dec : RelDecision score_desc :=
  fun a b => decide (Qle_bool (mk_score b) (mk_score a) = true).

Definition marker_group (m : list (list Z)) (genes cl : list string) (c : string)
  : list marker_row :=
  merge_sort score_desc (gene_rows m genes cl c).

(** The matrix the statistics read: [raw] when present. *)
Definition marker_matrix (ad : anndata) : list (list Z) :=
  default (X ad) (raw ad).

Definition run_pipe (ad : anndata) (cluster_name : string) : result error marker_table :=
  match obs_column ad cluster_name with
  | Ok cl =>
      Ok (map (fun c => (c, marker_group (marker_matrix ad) (var_names ad) cl c))
              (uniq_first [] cl))
  | Err e => Err e
  end.

(** ** Lemmas *)

#[export] Instance score_desc_total : Total score_desc.
Proof.
  intros a b. unfold score_desc. rewrite !Qle_bool_iff.
  destruct (Qlt_le_dec (mk_score a) (mk_score b)); [right|by left].
  by apply Qlt_le_weak.
Qed.

#[export] Instance score_desc_trans : Transitive score_desc.
Proof.
  intros a b c. unfold score_desc. rewrite !Qle_bool_iff.
  intros H1 H2. by eapply Qle_trans.
Qed.

Lemma gene_rows_genes m genes cl c : mk_gene <$> gene_rows m genes cl c = genes.
Proof.
  unfold gene_rows. rewrite fmap_imap.
  rewrite (imap_ext _ (const id)) by done. by rewrite imap_const, list_fmap_id.
Qed.

Lemma gene_rows_cluster m genes cl c : Forall (fun r => mk_cluster r = c) (gene_rows m genes cl c).
Proof.
  apply Forall_forall. intros r (j & g & -> & _)%elem_of_lookup_imap. done.
Qed.

Lemma marker_group_sorted_perm m genes cl c :
  Sorted score_desc (marker_group m genes cl c) /\
  marker_group m genes cl c ≡ₚ gene_rows m genes cl c.
Proof. split; [apply Sorted_merge_sort; apply _|apply merge_sort_Permutation]. Qed.

(** ** Properties of [run_pipe] *)

(** The marker table has one group per distinct cluster label, in the
    order of first appearance; each group is sorted by decreasing score,
    lists every gene exactly once (a permutation of the gene names), and
    holds for each gene its mean difference between the cluster and the
    other cells. *)
Theorem run_pipe_spec ad cn cl t :
  obs_column ad cn = Ok cl -> run_pipe ad cn = Ok t ->
  t.*1 = uniq_first [] cl /\
  forall c rows, (c, rows) ∈ t ->
    Sorted score_desc rows /\
    rows ≡ₚ gene_rows (marker_matrix ad) (var_names ad) cl c /\
    mk_gene <$> rows ≡ₚ var_names ad /\
    Forall (fun r => mk_cluster r = c) rows.
Proof.
  intros Hcl. unfold run_pipe. rewrite Hcl. intros [= <-]. split.
  - rewrite <- list_fmap_compose. apply list_fmap_id.
  - intros c rows (c' & [= -> ->] & _)%list_elem_of_fmap.
    destruct (marker_group_sorted_perm (marker_matrix ad) (var_names ad) cl c')
      as [Hs Hp].
    split_and!; [done|done| |].
    + by rewrite Hp, gene_rows_genes.
    + eapply Permutation_Forall; [symmetry; apply Hp|]. apply gene_rows_cluster.
Qed.

(** [run_pipe] fails exactly when the cluster column is missing, with
    [ConfigurationError] naming it. *)
Theorem run_pipe_error ad cn e :
  run_pipe ad cn = Err e <-> obs_column ad cn = Err e.
Proof. unfold run_pipe. destruct (obs_column ad cn); naive_solver. Qed.
