(* ===== verification/FileSystem.v ===== *)
(** * FileSystem: the world the commands act on, and [ctwpy.io]

    Every command of [cli.py] acts on the file system, standard output or
    the network.  The world is a record:
    - [w_fs]: a flat finite map from resolved paths (lists of components)
      to nodes, a directory or a file with its content;
    - [w_cwd]: the working directory, against which relative path strings
      are resolved ([Paths.resolve]);
    - [w_faults]: the paths where writing or deleting fails (permission
      denied, full disk): I/O failure at any stage is thereby expressible;
    - [w_stdout]: the lines printed so far;
    - [w_online], [w_accounts], [w_uploads]: the network, the credentials
      the catalog service accepts, and the uploads it has received.
    File contents are typed values ([content]) rather than bytes: the
    serialisation of the products (pandas, h5py, gzip) is not modelled,
    only which value is stored where.

    The primitive system calls ([mkdir], [write_file], [read_file],
    [rmtree], [print]) follow the POSIX behaviour Python exposes; the
    helpers of [ctwpy.io], which is not under [src/], are modelled from
    spec.md 4.3 and 4.4: [make_dir_or_complain] refuses an existing path,
    [write_all_worksheet] writes the five products in turn and stops at the
    first failure, [delete_dir] removes a whole tree or nothing.  The
    invariant [world_wf] (the root is a directory, every entry's parent is
    a directory, every component is proper) is preserved by all of them;
    [world_wfb] is its executable check. *)

From Stdlib Require Import ZArith QArith.
From S2P Require Import Prelude Paths Dataset Markers.

(** ** Contents, nodes, the world *)

(** The five products of a worksheet (spec 3, Worksheet Bundle). *)
Inductive product : Type :=
  | PXys (xys : list (string * (Z * Z)))
  | PExp (e : expression)
  | PClustering (cl : list (string * string))
  | PMarkers (t : marker_table)
  | PCelltype (m : list (string * string)).

(** A tar member is a name and, for a regular file, its content ([None]
    for a directory entry). *)
Inductive content : Type :=
  | CH5ad (d : anndata)
  | CJson (kv : list (string * string))
  | CProduct (p : product)
  | CTgz (members : list (string * option content)).

Inductive node : Type :=
  | NDir
  | NFile (c : content).

Inductive line : Type :=
  | LMsg (s : string)
  | LPreview (rows : list (string * string))
  | LKeys (ks : list string).

Record request := mk_request {
  rq_archive : content;
  rq_credentials : list (string * string)
}.

Abbreviation path := (list string).
Abbreviation fsmap := (gmap path node).

Record world := mk_world {
  w_fs : fsmap;
  w_cwd : path;
  w_faults : gset path;
  w_stdout : list line;
  w_online : bool;
  w_accounts : list (list (string * string));
  w_uploads : list request
}.

Definition set_fs (fs : fsmap) (w : world) : world :=
  mk_world fs (w_cwd w) (w_faults w) (w_stdout w) (w_online w) (w_accounts w) (w_uploads w).
Definition set_stdout (o : list line) (w : world) : world :=
  mk_world (w_fs w) (w_cwd w) (w_faults w) o (w_online w) (w_accounts w) (w_uploads w).
Definition set_uploads (u : list request) (w : world) : world :=
  mk_world (w_fs w) (w_cwd w) (w_faults w) (w_stdout w) (w_online w) (w_accounts w) u.

(** Programs of the tool. *)
Abbreviation M := (EST world error).

(** ** Well-formedness *)

Definition proper_path (p : path) : Prop :=
  Forall (fun c => proper_component c = true) p.

Definition fs_wf (fs : fsmap) : Prop :=
  fs !! [] = Some NDir /\
  forall p n, fs !! p = Some n ->
    proper_path p /\ (p <> [] -> fs !! removelast p = Some NDir).

Definition world_wf (w : world) : Prop :=
  fs_wf (w_fs w) /\ proper_path (w_cwd w).

(** ** System calls *)

(** The OS rejects the empty path string ([ENOENT]). *)
Definition path_of (s : string) : M path :=
  w ← get;
  if String.eqb s "" then raise (FileNotFoundError s)
  else mret (resolve (w_cwd w) s).

Definition print (l : line) : M unit :=
  modify (fun w => set_stdout (w_stdout w ++ [l]) w).

(** [os.mkdir(s)]. *)
Definition mkdir (s : string) : M unit :=
  p ← path_of s;
  w ← get;
  if decide (p ∈ w_faults w) then raise (WriteError s)
  else match w_fs w !! p with
       | Some _ => raise (DirectoryExistsError s)
       | None =>
           match w_fs w !! removelast p with
           | Some NDir => put (set_fs (<[p := NDir]> (w_fs w)) w)
           | _ => raise (FileNotFoundError s)
           end
       end.

(** [open(s, "w").write(c)]: creates or truncates a regular file. *)
Definition write_file (s : string) (c : content) : M unit :=
  p ← path_of s;
  w ← get;
  if decide (p ∈ w_faults w) then raise (WriteError s)
  else match w_fs w !! p with
       | Some NDir => raise (WriteError s)
       | _ =>
           match w_fs w !! removelast p with
           | Some NDir => put (set_fs (<[p := NFile c]> (w_fs w)) w)
           | _ => raise (FileNotFoundError s)
           end
       end.

(** [open(s).read()]. *)
Definition read_file (s : string) : M content :=
  p ← path_of s;
  w ← get;
  match w_fs w !! p with
  | Some (NFile c) => mret c
  | Some NDir => raise (DecodeError s)
  | None => raise (FileNotFoundError s)
  end.

(** The entries of [fs] at or below [p]. *)
Definition below (p : path) (fs : fsmap) : fsmap :=
  filter (fun kv => p `prefix_of` kv.1) fs.

(** [fs] without the tree rooted at [p]. *)
Definition remove_tree (p : path) (fs : fsmap) : fsmap :=
  filter (fun kv => ¬ p `prefix_of` kv.1) fs.

(** [shutil.rmtree(s)]: the whole tree, or nothing when some entry of it
    cannot be removed; the root directory is never removed. *)
Definition rmtree (s : string) : M unit :=
  p ← path_of s;
  w ← get;
  match p, w_fs w !! p with
  | _ :: _, Some NDir =>
      if existsb (fun q => bool_decide (p `prefix_of` q)) (elements (w_faults w))
      then raise (CleanupError s)
      else put (set_fs (remove_tree p (w_fs w)) w)
  | _, _ => raise (CleanupError s)
  end.

(** ** [ctwpy.io] *)

(** [make_dir_or_complain(name)] (spec 4.3). *)
Definition make_dir_or_complain (name : string) : M unit := mkdir name.

(** The names of the five files of a worksheet. *)
Definition xys_file : string := "xys.tab".
Definition exp_file : string := "exp.tab".
Definition clustering_file : string := "clustering.tab".
Definition markers_file : string := "markers.tab".
Definition celltype_file : string := "celltype.tab".

(** [write_all_worksheet(name, xys=.., exp=.., clustering=.., markers=..,
    celltype=..)]: one file per product, in this order; the first failure
    aborts, leaving the files already written. *)
Definition write_all_worksheet (name : string) (xys : list (string * (Z * Z)))
    (exp : expression) (clustering : list (string * string))
    (markers : marker_table) (celltype : list (string * string)) : M unit :=
  write_file (join name xys_file) (CProduct (PXys xys));;
  write_file (join name exp_file) (CProduct (PExp exp));;
  write_file (join name clustering_file) (CProduct (PClustering clustering));;
  write_file (join name markers_file) (CProduct (PMarkers markers));;
  write_file (join name celltype_file) (CProduct (PCelltype celltype)).

(** [delete_dir(name)] (spec 4.4). *)
Definition delete_dir (name : string) : M unit := rmtree name.

(** [read_json(path)]. *)
Definition read_json (s : string) : M (list (string * string)) :=
  c ← read_file s;
  match c with CJson kv => mret kv | _ => raise (DecodeError s) end.

(** [scanpyapi.readh5ad(path)]. *)
Definition readh5ad (s : string) : M anndata :=
  c ← read_file s;
  match c with CH5ad d => mret d | _ => raise (DecodeError s) end.

(** ** Well-formedness is preserved *)

Lemma removelast_neq {A} (p : list A) : p <> [] -> removelast p <> p.
Proof.
  intros Hp Heq. destruct (exists_last Hp) as (l & x & ->).
  rewrite removelast_last in Heq. apply (f_equal length) in Heq.
  rewrite length_app in Heq. simpl in Heq. lia.
Qed.

Lemma prefix_removelast {A} (l1 l2 : list A) :
  l1 `prefix_of` removelast l2 -> l1 `prefix_of` l2.
Proof.
  intros H. destruct (decide (l2 = [])) as [->|Hne]; [done|].
  destruct (exists_last Hne) as (l & x & ->). rewrite removelast_last in H.
  by apply prefix_app_r.
Qed.

(** Adding an entry under an existing directory keeps the file system
    well formed, provided an entry that already has children stays a
    directory. *)
Lemma fs_wf_insert fs p n :
  fs_wf fs -> proper_path p -> p <> [] -> fs !! removelast p = Some NDir ->
  (forall q m, fs !! q = Some m -> q <> [] -> removelast q = p -> n = NDir) ->
  fs_wf (<[p := n]> fs).
Proof.
  intros [Hroot Hwf] Hp Hne Hpar Hch. split.
  - by rewrite lookup_insert_ne by done.
  - intros q m. rewrite lookup_insert.
    case_decide as Hq; [intros [= <-]; subst q|intros Hqm].
    + split; [done|]. intros _. by rewrite lookup_insert_ne by (by apply not_eq_sym, removelast_neq).
    + destruct (Hwf q m Hqm) as [Hpq Hpar']. split; [done|]. intros Hq0.
      rewrite lookup_insert. case_decide as He; [|by apply Hpar'].
      f_equal. by eapply Hch.
Qed.

(** Removing a tree other than the root keeps the file system well
    formed. *)
Lemma fs_wf_remove_tree fs p :
  fs_wf fs -> p <> [] -> fs_wf (remove_tree p fs).
Proof.
  intros [Hroot Hwf] Hne. unfold remove_tree. split.
  - apply map_lookup_filter_Some. split; [done|]. simpl.
    by intros ->%prefix_nil_inv.
  - intros q m (Hqm & Hpq)%map_lookup_filter_Some. simpl in Hpq.
    destruct (Hwf q m Hqm) as [Hprop Hpar]. split; [done|]. intros Hq0.
    apply map_lookup_filter_Some. split; [by apply Hpar|]. simpl.
    intros Hpre. by apply Hpq, prefix_removelast.
Qed.

Lemma path_of_run s w :
  path_of s w = if String.eqb s "" then (Err (FileNotFoundError s), w)
                else (Ok (resolve (w_cwd w) s), w).
Proof. unfold path_of. simpl. by destruct (String.eqb s ""). Qed.

Lemma resolve_path_proper w s : world_wf w -> proper_path (resolve (w_cwd w) s).
Proof. intros [_ Hcwd]. by apply resolve_proper. Qed.

Lemma fs_lookup_nonroot fs p n : fs_wf fs -> fs !! p = n -> n <> Some NDir -> p <> [].
Proof. intros [Hroot _] Hp Hn ->. congruence. Qed.

(** The file system of a run of a system call, and what it leaves. *)
Ltac syscall_cases :=
  repeat first
    [ progress (rewrite ?est_bind_run, ?path_of_run; cbn -[resolve])
    | match goal with
      | |- context [if String.eqb ?s "" then _ else _] => destruct (String.eqb_spec s "")
      | |- context [if decide ?P then _ else _] => destruct (decide P)
      | |- context [match ?x with _ => _ end] =>
          first [is_var x; destruct x | destruct x eqn:?]
      end ].

Lemma mkdir_wf s : preserves world_wf (mkdir s).
Proof.
  intros w Hw. pose proof (resolve_path_proper w s Hw) as Hp.
  destruct Hw as [Hfs Hcwd]. unfold mkdir. syscall_cases; try done.
  split; [|done]. simpl. apply fs_wf_insert; try done.
  by eapply fs_lookup_nonroot.
Qed.

(** An entry that is not a directory has no children. *)
Lemma fs_no_children fs p q m :
  fs_wf fs -> fs !! p <> Some NDir -> fs !! q = Some m -> q <> [] -> removelast q <> p.
Proof. intros [_ Hwf] Hp Hq Hq0 <-. apply Hp. by apply (Hwf q m). Qed.

Lemma write_file_wf s c : preserves world_wf (write_file s c).
Proof.
  intros w Hw. pose proof (resolve_path_proper w s Hw) as Hp.
  destruct Hw as [Hfs Hcwd]. unfold write_file. syscall_cases; try done;
    (split; [|done]); simpl; (apply fs_wf_insert; try done).
  all: first [ by eapply fs_lookup_nonroot
             | intros q m Hq Hq0 Heq; exfalso; eapply fs_no_children; eauto; congruence ].
Qed.

Lemma rmtree_wf s : preserves world_wf (rmtree s).
Proof.
  intros w [Hfs Hcwd]. unfold rmtree. syscall_cases; try done.
  split; [|done]. by apply fs_wf_remove_tree.
Qed.

Lemma print_wf l : preserves world_wf (print l).
Proof. by intros w Hw. Qed.

Lemma read_file_state s w : (read_file s w).2 = w.
Proof. unfold read_file. syscall_cases; done. Qed.

Lemma read_file_wf s : preserves world_wf (read_file s).
Proof. intros w Hw. by rewrite read_file_state. Qed.

#[export] Hint Resolve mkdir_wf write_file_wf rmtree_wf print_wf read_file_wf : ctw.

Lemma write_all_worksheet_wf name xys exp cl mk ct :
  preserves world_wf (write_all_worksheet name xys exp cl mk ct).
Proof. unfold write_all_worksheet. preserves_auto. Qed.

Lemma read_json_wf s : preserves world_wf (read_json s).
Proof. unfold read_json. preserves_auto. Qed.

Lemma readh5ad_wf s : preserves world_wf (readh5ad s).
Proof. unfold readh5ad. preserves_auto. Qed.

#[export] Hint Resolve write_all_worksheet_wf read_json_wf readh5ad_wf : ctw.

(** ** Runs of the system calls *)

(** A computation is atomic when raising leaves the world unchanged. *)
Definition atomic {A} (c : M A) : Prop :=
  forall w e w', c w = (Err e, w') -> w' = w.

Lemma path_of_atomic s : atomic (path_of s).
Proof. intros w e w'. rewrite path_of_run. destruct (String.eqb s ""); congruence. Qed.

Lemma mkdir_atomic s : atomic (mkdir s).
Proof. intros w e w'. unfold mkdir. syscall_cases; unfold raise, put; intros ?; congruence. Qed.

Lemma write_file_atomic s c : atomic (write_file s c).
Proof. intros w e w'. unfold write_file. syscall_cases; unfold raise, put; intros ?; congruence. Qed.

Lemma rmtree_atomic s : atomic (rmtree s).
Proof. intros w e w'. unfold rmtree. syscall_cases; unfold raise, put; intros ?; congruence. Qed.

Lemma read_file_atomic s : atomic (read_file s).
Proof. intros w e w' H. rewrite <- (read_file_state s w), H. done. Qed.

Lemma string_neq_eqb s : s <> "" -> String.eqb s "" = false.
Proof. apply String.eqb_neq. Qed.

Lemma mkdir_ok s w :
  s <> "" -> resolve (w_cwd w) s ∉ w_faults w ->
  w_fs w !! resolve (w_cwd w) s = None ->
  w_fs w !! removelast (resolve (w_cwd w) s) = Some NDir ->
  mkdir s w = (Ok tt, set_fs (<[resolve (w_cwd w) s := NDir]> (w_fs w)) w).
Proof.
  intros Hs Hf Hn Hp. unfold mkdir. rewrite est_bind_run, path_of_run, string_neq_eqb by done.
  simpl. rewrite est_bind_run. simpl. case_decide; [done|]. by rewrite Hn, Hp.
Qed.

Lemma mkdir_exists s w n :
  s <> "" -> resolve (w_cwd w) s ∉ w_faults w ->
  w_fs w !! resolve (w_cwd w) s = Some n ->
  mkdir s w = (Err (DirectoryExistsError s), w).
Proof.
  intros Hs Hf Hn. unfold mkdir. rewrite est_bind_run, path_of_run, string_neq_eqb by done.
  simpl. rewrite est_bind_run. simpl. case_decide; [done|]. by rewrite Hn.
Qed.

Lemma write_file_ok s c w :
  s <> "" -> resolve (w_cwd w) s ∉ w_faults w ->
  w_fs w !! resolve (w_cwd w) s <> Some NDir ->
  w_fs w !! removelast (resolve (w_cwd w) s) = Some NDir ->
  write_file s c w = (Ok tt, set_fs (<[resolve (w_cwd w) s := NFile c]> (w_fs w)) w).
Proof.
  intros Hs Hf Hn Hp. unfold write_file.
  rewrite est_bind_run, path_of_run, string_neq_eqb by done. simpl.
  rewrite est_bind_run. simpl.
  case_decide; [done|].
  destruct (w_fs w !! resolve (w_cwd w) s) as [[]|]; [done| |]; by rewrite Hp.
Qed.

Lemma rmtree_ok s w :
  s <> "" -> resolve (w_cwd w) s <> [] ->
  w_fs w !! resolve (w_cwd w) s = Some NDir ->
  (forall q, q ∈ w_faults w -> ¬ resolve (w_cwd w) s `prefix_of` q) ->
  rmtree s w = (Ok tt, set_fs (remove_tree (resolve (w_cwd w) s) (w_fs w)) w).
Proof.
  intros Hs Hne Hd Hf. unfold rmtree.
  rewrite est_bind_run, path_of_run, string_neq_eqb by done. simpl.
  rewrite est_bind_run. simpl.
  destruct (resolve (w_cwd w) s) as [|c p] eqn:E; [done|]. rewrite Hd.
  replace (existsb _ _) with false; [done|]. symmetry.
  apply not_true_iff_false. rewrite existsb_exists.
  intros (q & Hq & Hpre%bool_decide_eq_true). rewrite <- list_elem_of_In in Hq.
  apply elem_of_elements in Hq. by apply (Hf q).
Qed.

(** Unfold the monad and reduce a concrete run. *)
Ltac run_simpl :=
  unfold path_of, get, put, modify, raise, lift, mbind, est_bind, mret, est_ret, catch;
  simpl; rewrite ?string_neq_eqb by done; simpl.

Lemma write_file_ok_inv s c w w' :
  write_file s c w = (Ok tt, w') ->
  s <> "" /\ w' = set_fs (<[resolve (w_cwd w) s := NFile c]> (w_fs w)) w.
Proof.
  unfold write_file. syscall_cases; unfold raise, put; intros ?; simplify_eq.
  all: done.
Qed.

Lemma mkdir_ok_inv s w w' :
  mkdir s w = (Ok tt, w') ->
  s <> "" /\ w_fs w !! resolve (w_cwd w) s = None /\
  w' = set_fs (<[resolve (w_cwd w) s := NDir]> (w_fs w)) w.
Proof. unfold mkdir. syscall_cases; unfold raise, put; intros ?; simplify_eq; done. Qed.

Lemma rmtree_ok_inv s w w' :
  rmtree s w = (Ok tt, w') ->
  w' = set_fs (remove_tree (resolve (w_cwd w) s) (w_fs w)) w.
Proof. unfold rmtree. syscall_cases; unfold raise, put; intros ?; simplify_eq; done. Qed.

(** A write that succeeded was not at a faulty path. *)
Lemma write_file_ok_faults s c w w' :
  write_file s c w = (Ok tt, w') -> resolve (w_cwd w) s ∉ w_faults w.
Proof. unfold write_file. syscall_cases; unfold raise, put; intros ?; simplify_eq; done. Qed.

(** An [rmtree] that succeeded found no faulty path in the tree. *)
Lemma rmtree_ok_faults s w w' :
  rmtree s w = (Ok tt, w') ->
  forall q, q ∈ w_faults w -> ¬ resolve (w_cwd w) s `prefix_of` q.
Proof.
  unfold rmtree. syscall_cases; unfold raise, put; intros ?; simplify_eq.
  match goal with H : existsb _ _ = false |- _ => rename H into Hx end.
  intros q Hq Hpre. apply not_true_iff_false in Hx. apply Hx, existsb_exists.
  exists q. split; [by apply list_elem_of_In, elem_of_elements|by apply bool_decide_eq_true].
Qed.

(** The files of a worksheet, in the order [write_all_worksheet] writes
    them. *)
Definition worksheet_entries (xys : list (string * (Z * Z))) (exp : expression)
    (clustering : list (string * string)) (markers : marker_table)
    (celltype : list (string * string)) : list (string * content) :=
  [(xys_file, CProduct (PXys xys)); (exp_file, CProduct (PExp exp));
   (clustering_file, CProduct (PClustering clustering));
   (markers_file, CProduct (PMarkers markers));
   (celltype_file, CProduct (PCelltype celltype))].

(** The file system after writing [entries] into directory [d]. *)
Definition write_entries (d : path) (entries : list (string * content)) (fs : fsmap) : fsmap :=
  fold_left (fun acc e => <[d ++ [e.1] := NFile e.2]> acc) entries fs.

Lemma worksheet_files_proper xys exp cl mk ct :
  Forall (fun e => proper_component e.1 = true) (worksheet_entries xys exp cl mk ct).
Proof. repeat constructor. Qed.

Lemma write_file_join_ok_inv name f c w w' :
  proper_component f = true ->
  write_file (join name f) c w = (Ok tt, w') ->
  w' = set_fs (<[resolve (w_cwd w) name ++ [f] := NFile c]> (w_fs w)) w.
Proof.
  intros Hf (_ & ->)%write_file_ok_inv. by rewrite resolve_join_any.
Qed.

(** A successful [write_all_worksheet] has written the five files, and
    nothing else, into the staging directory, whatever the name. *)
Lemma write_all_worksheet_ok_inv name xys exp cl mk ct w w' :
  write_all_worksheet name xys exp cl mk ct w = (Ok tt, w') ->
  w' = set_fs (write_entries (resolve (w_cwd w) name)
                 (worksheet_entries xys exp cl mk ct) (w_fs w)) w.
Proof.
  unfold write_all_worksheet.
  repeat match goal with
  | |- (write_file ?s ?c ≫= _) ?w0 = _ -> _ =>
      rewrite est_bind_run;
      let H := fresh in
      destruct (write_file s c w0) as [[[]|?] ?] eqn:H; [|done];
      apply write_file_join_ok_inv in H; [subst|done]
  end.
  intros H. apply write_file_join_ok_inv in H; [|done]. by subst.
Qed.

Lemma write_entries_lookup_below d es fs fs' rel :
  (forall r, fs !! (d ++ r) = fs' !! r) ->
  write_entries d es fs !! (d ++ rel) = write_entries [] es fs' !! rel.
Proof.
  unfold write_entries. revert fs fs'.
  induction es as [|[f c] es IH]; intros fs fs' H; simpl; [done|].
  apply IH. intros r. rewrite !lookup_insert.
  case_decide as H1; case_decide as H2; try done.
  - apply app_inv_head in H1. congruence.
  - exfalso. apply H1. by subst.
Qed.

Lemma write_entries_lookup_outside d es fs q :
  ¬ d `prefix_of` q -> write_entries d es fs !! q = fs !! q.
Proof.
  unfold write_entries. revert fs.
  induction es as [|[f c] es IH]; intros fs Hq; simpl; [done|].
  rewrite IH by done. rewrite lookup_insert_ne; [done|].
  intros <-. apply Hq. by apply prefix_app_r.
Qed.

(** An entry after the writes was there before or is one of the files
    written. *)
Lemma write_entries_lookup_Some d es fs q n :
  write_entries d es fs !! q = Some n ->
  fs !! q = Some n \/ exists e, e ∈ es /\ q = d ++ [e.1].
Proof.
  unfold write_entries. revert fs.
  induction es as [|e es IH]; intros fs; simpl; [by left|].
  intros [Hq|(e' & He' & ->)]%IH; [|right; exists e'; split; [by right|done]].
  rewrite lookup_insert in Hq. case_decide as He; [right; exists e; by split; [left|]|by left].
Qed.

(** In a well-formed file system every prefix of an entry is an entry. *)
Lemma fs_wf_prefix_closed fs p q n :
  fs_wf fs -> fs !! q = Some n -> p `prefix_of` q -> is_Some (fs !! p).
Proof.
  intros [Hroot Hwf]. remember (length q) as k eqn:Hk. revert q n Hk.
  induction k as [k IH] using lt_wf_ind. intros q n -> Hq Hpre.
  destruct (decide (p = q)) as [->|Hne]; [done|].
  assert (q <> []) as Hq0 by (intros ->; by apply Hne, prefix_nil_inv).
  destruct (exists_last Hq0) as (q' & x & ->).
  apply (IH (length q') ltac:(rewrite length_app; simpl; lia) q' NDir); [done| |].
  - rewrite <- (removelast_last q' x). by apply (Hwf _ n).
  - destruct Hpre as [r Hr]. destruct r as [|y r _] using rev_ind.
    + rewrite app_nil_r in Hr. by subst.
    + rewrite app_assoc in Hr. apply app_inj_tail in Hr as [-> _]. by exists r.
Qed.

Lemma fs_wf_below_absent fs p q :
  fs_wf fs -> fs !! p = None -> p `prefix_of` q -> fs !! q = None.
Proof.
  intros Hwf Hp Hpq. destruct (fs !! q) as [n|] eqn:Hq; [|done].
  destruct (fs_wf_prefix_closed fs p q n Hwf Hq Hpq) as [m Hm]. congruence.
Qed.

Lemma remove_tree_lookup_out p fs q :
  ¬ p `prefix_of` q -> remove_tree p fs !! q = fs !! q.
Proof.
  intros Hq. unfold remove_tree. rewrite map_lookup_filter.
  destruct (fs !! q); simpl; [|done]. case_guard; simpl in *; done.
Qed.

Lemma remove_tree_lookup_in p fs q :
  p `prefix_of` q -> remove_tree p fs !! q = None.
Proof.
  intros Hq. unfold remove_tree. apply map_lookup_filter_None. right. simpl. tauto.
Qed.

Lemma read_file_ok s c w :
  s <> "" -> w_fs w !! resolve (w_cwd w) s = Some (NFile c) -> read_file s w = (Ok c, w).
Proof. intros Hs Hc. unfold read_file. run_simpl. by rewrite Hc. Qed.

Lemma readh5ad_ok s ad w :
  s <> "" -> w_fs w !! resolve (w_cwd w) s = Some (NFile (CH5ad ad)) -> readh5ad s w = (Ok ad, w).
Proof. intros Hs Hc. unfold readh5ad. rewrite est_bind_run, (read_file_ok s (CH5ad ad)) by done. done. Qed.

Lemma readh5ad_ok_inv s w ad w' :
  readh5ad s w = (Ok ad, w') ->
  w' = w /\ s <> "" /\ w_fs w !! resolve (w_cwd w) s = Some (NFile (CH5ad ad)).
Proof.
  unfold readh5ad. rewrite est_bind_run.
  pose proof (read_file_state s w) as Hs.
  destruct (read_file s w) as [[c|e] w1] eqn:Hr; simpl in Hs; subst w1; [|done].
  destruct c; try (unfold raise; congruence). intros [= <- <-].
  unfold read_file in Hr. rewrite est_bind_run, path_of_run in Hr.
  destruct (String.eqb_spec s ""); simpl in Hr; [unfold raise in Hr; congruence|].
  rewrite est_bind_run in Hr. simpl in Hr.
  destruct (w_fs w !! _) as [[|c]|]; unfold raise, mret, est_ret in Hr; simplify_eq; auto.
Qed.

(** ** Which exceptions the system calls raise *)

(** The [OSError]s of creating and writing. *)
Definition staging_error (e : error) : Prop :=
  match e with DirectoryExistsError _ | WriteError _ | FileNotFoundError _ => True | _ => False end.

(** The [OSError]s of reading, and a file of the wrong format. *)
Definition read_error (e : error) : Prop :=
  match e with FileNotFoundError _ | DecodeError _ => True | _ => False end.

(** The failures of [shutil.rmtree]. *)
Definition cleanup_error (e : error) : Prop :=
  match e with CleanupError _ | FileNotFoundError _ => True | _ => False end.

Definition not_archive (e : error) : Prop :=
  match e with ArchiveError _ => False | _ => True end.

Ltac syscall_raises :=
  intros ? ? ?; syscall_cases; unfold raise, put; intros ?; simplify_eq; done.

Lemma mkdir_raises s : raises_only staging_error (mkdir s).
Proof. unfold mkdir. syscall_raises. Qed.

Lemma write_file_raises s c : raises_only staging_error (write_file s c).
Proof. unfold write_file. syscall_raises. Qed.

Lemma rmtree_raises s : raises_only cleanup_error (rmtree s).
Proof. unfold rmtree. syscall_raises. Qed.

Lemma read_file_raises s : raises_only read_error (read_file s).
Proof. unfold read_file. syscall_raises. Qed.

#[export] Hint Resolve mkdir_raises write_file_raises rmtree_raises read_file_raises : ctw.

Lemma write_all_worksheet_raises name xys exp cl mk ct :
  raises_only staging_error (write_all_worksheet name xys exp cl mk ct).
Proof. unfold write_all_worksheet. raises_auto. Qed.

Lemma readh5ad_raises s : raises_only read_error (readh5ad s).
Proof. unfold readh5ad. raises_auto. Qed.

#[export] Hint Resolve write_all_worksheet_raises readh5ad_raises : ctw.

Lemma staging_not_archive e : staging_error e -> not_archive e.
Proof. by destruct e. Qed.

Lemma cleanup_not_archive e : cleanup_error e -> not_archive e.
Proof. by destruct e. Qed.

Lemma mkdir_not_archive s : raises_only not_archive (mkdir s).
Proof. eapply raises_only_weaken; [apply mkdir_raises|apply staging_not_archive]. Qed.

Lemma rmtree_not_archive s : raises_only not_archive (rmtree s).
Proof. eapply raises_only_weaken; [apply rmtree_raises|apply cleanup_not_archive]. Qed.

Lemma write_all_worksheet_not_archive name xys exp cl mk ct :
  raises_only not_archive (write_all_worksheet name xys exp cl mk ct).
Proof. eapply raises_only_weaken; [apply write_all_worksheet_raises|apply staging_not_archive]. Qed.

(** ** An executable check of [world_wf] *)

Definition is_dir (o : option node) : bool :=
  match o with Some NDir => true | _ => false end.

Definition proper_pathb (p : path) : bool := forallb proper_component p.

Definition fs_wfb (fs : fsmap) : bool :=
  is_dir (fs !! []) &&
  forallb (fun pn => proper_pathb pn.1 && (bool_decide (pn.1 = []) || is_dir (fs !! removelast pn.1)))
    (map_to_list fs).

Definition world_wfb (w : world) : bool := fs_wfb (w_fs w) && proper_pathb (w_cwd w).

Lemma is_dir_spec o : is_dir o = true <-> o = Some NDir.
Proof. destruct o as [[]|]; naive_solver. Qed.

Lemma proper_pathb_sound p : proper_pathb p = true -> proper_path p.
Proof.
  unfold proper_pathb, proper_path. intros H. apply Forall_forall.
  intros c Hc. apply forallb_forall with (x := c) in H; [done|by apply list_elem_of_In].
Qed.

Lemma world_wfb_sound w : world_wfb w = true -> world_wf w.
Proof.
  unfold world_wfb, fs_wfb, world_wf, fs_wf.
  intros [[Hroot Hall]%andb_prop Hcwd]%andb_prop.
  split_and!; [by apply is_dir_spec| |by apply proper_pathb_sound].
  intros p n Hp. apply forallb_forall with (x := (p, n)) in Hall;
    [|by apply list_elem_of_In, elem_of_map_to_list].
  apply andb_prop in Hall as [Hpp Hpar]. split; [by apply proper_pathb_sound|].
  intros Hne. apply orb_prop in Hpar as [Hnil|Hd].
  - by apply bool_decide_eq_true in Hnil.
  - by apply is_dir_spec.
Qed.
