(* ===== verification/Tar.v ===== *)
(** * Tar: [make_tarfile] and the tarfile behaviour it relies on

    [make_tarfile(output_filename, source_dir)] (cli.py 60-62) opens a
    gzip tar for writing and adds [source_dir] under the name
    [os.path.basename(source_dir)].  The library calls are modelled as the
    CPython [tarfile] module performs them:
    - [tarfile.open(name, "w:gz")] creates or truncates the output file at
      once ([tar_open]); an [OSError] there surfaces as [ArchiveError];
    - [TarFile.add(name, arcname)] stats [name] (a missing source raises,
      after the output file was created), then adds it and, for a
      directory, its entries in [sorted(os.listdir(..))] order, depth
      first, each under [os.path.join(arcname, f)]; the archive file itself
      is skipped when it lies inside the tree ([tar_entries]).  Depth-first
      order with sorted children is the lexicographic order of the
      component lists ([path_leb]);
    - leaving the [with] block writes the members ([tar_close]).
    gzip compression is not modelled (the archive content is the list of
    members); write failures are modelled when the file is opened.

    [extract] models [tarfile.extractall(dest)].  [tar_members_round_trip]
    shows that extracting the members into a fresh place recreates the
    archived tree entry for entry: this is the round trip of spec 8, third
    property.  The file ends with a small concrete file system on which
    [make_tarfile] runs. *)

From S2P Require Import Prelude Paths FileSystem.

(** ** Member names and order *)

(** Lexicographic order of paths, a path before its extensions. *)
Fixpoint path_leb (p q : path) : bool :=
  match p, q with
  | [], _ => true
  | _ :: _, [] => false
  | a :: p', b :: q' => if String.eqb a b then path_leb p' q' else String.ltb a b
  end.

Definition entry_le (x y : path * node) : Prop := path_leb x.1 y.1 = true.

#[export] Instance entry_le_dec : RelDecision entry_le :=
  fun x y => decide (path_leb x.1 y.1 = true).

(** The name of the entry [rel] below the added directory:
    [os.path.join(os.path.join(arcname, f1), f2) ...]. *)
Definition arc_name (arcname : string) (rel : path) : string :=
  fold_left join rel arcname.

Definition node_content (n : node) : option content :=
  match n with NDir => None | NFile c => Some c end.

(** The entries [TarFile.add] visits below [p], in visiting order, the
    archive file [out] excluded. *)
Definition tar_entries (p out : path) (fs : fsmap) : list (path * node) :=
  merge_sort entry_le
    (map_to_list (filter (fun kv => p `prefix_of` kv.1 /\ kv.1 <> out) fs)).

Definition tar_members (arcname : string) (p out : path) (fs : fsmap)
  : list (string * option content) :=
  map (fun kv => (arc_name arcname (drop (length p) kv.1), node_content kv.2))
      (tar_entries p out fs).

(** ** The tarfile calls *)

(** [tarfile.open(name, "w:gz")]: the file is created (empty) at once. *)
Definition tar_open (name : string) : M path :=
  catch (write_file name (CTgz []);; path_of name)
        (fun _ => raise (ArchiveError name)).

(** [tar.add(source_dir, arcname=arcname)] on the archive at [out]. *)
Definition tar_add (out : path) (source_dir arcname : string)
  : M (list (string * option content)) :=
  p ← catch (path_of source_dir) (fun _ => raise (ArchiveError source_dir));
  w ← get;
  match w_fs w !! p with
  | None => raise (ArchiveError source_dir)
  | Some _ => mret (tar_members arcname p out (w_fs w))
  end.

(** Leaving the [with] block: the members are written out. *)
Definition tar_close (out : path) (members : list (string * option content)) : M unit :=
  modify (fun w => set_fs (<[out := NFile (CTgz members)]> (w_fs w)) w).

(** [make_tarfile(output_filename, source_dir)], cli.py 60-62. *)
Definition make_tarfile (output_filename source_dir : string) : M unit :=
  out ← tar_open output_filename;
  members ← tar_add out source_dir (basename source_dir);
  tar_close out members.

(** ** Extraction *)

Definition node_of (oc : option content) : node :=
  match oc with None => NDir | Some c => NFile c end.

(** [tarfile.extractall(dest)]: each member in turn, at [dest/name]. *)
Definition extract (dest : path) (members : list (string * option content))
    (fs : fsmap) : fsmap :=
  fold_left (fun acc m => <[resolve dest m.1 := node_of m.2]> acc) members fs.

(** ** Lemmas *)

(** Unfold [make_tarfile] down to its first system call. *)
Ltac tar_run := unfold make_tarfile, tar_open; rewrite est_bind_run; unfold catch.

Lemma tar_members_insert_out a p o x fs :
  tar_members a p o (<[o := x]> fs) = tar_members a p o fs.
Proof.
  unfold tar_members, tar_entries. f_equal. f_equal. f_equal.
  apply map_filter_insert_not. simpl. tauto.
Qed.

(** The members of an archive depend only on the tree below its source. *)
Lemma tar_members_agree a p o fs1 fs2 :
  (forall q, p `prefix_of` q -> fs1 !! q = fs2 !! q) ->
  tar_members a p o fs1 = tar_members a p o fs2.
Proof.
  intros H. unfold tar_members, tar_entries. do 3 f_equal.
  apply map_eq. intros q. rewrite !map_lookup_filter.
  destruct (decide (p `prefix_of` q)) as [Hq|Hq]; [by rewrite H|].
  destruct (fs1 !! q), (fs2 !! q); simpl; repeat case_guard; naive_solver.
Qed.

Lemma set_fs_cwd fs w : w_cwd (set_fs fs w) = w_cwd w.
Proof. done. Qed.

Lemma set_fs_fs fs w : w_fs (set_fs fs w) = fs.
Proof. done. Qed.

Lemma set_fs_set_fs fs fs' w : set_fs fs (set_fs fs' w) = set_fs fs w.
Proof. done. Qed.

Lemma set_fs_self w : set_fs (w_fs w) w = w.
Proof. by destruct w. Qed.

#[export] Hint Rewrite set_fs_cwd set_fs_fs set_fs_set_fs : ctw_run.

(** A run of [make_tarfile] whose system calls all succeed. *)
Lemma make_tarfile_run out src w :
  out <> "" -> src <> "" ->
  resolve (w_cwd w) out ∉ w_faults w ->
  w_fs w !! resolve (w_cwd w) out <> Some NDir ->
  w_fs w !! removelast (resolve (w_cwd w) out) = Some NDir ->
  is_Some (w_fs w !! resolve (w_cwd w) src) ->
  make_tarfile out src w =
    (Ok tt, set_fs (<[resolve (w_cwd w) out :=
                      NFile (CTgz (tar_members (basename src) (resolve (w_cwd w) src)
                                     (resolve (w_cwd w) out) (w_fs w)))]> (w_fs w)) w).
Proof.
  intros Hout Hsrc Hf Hn Hp [n Hsn]. tar_run.
  rewrite est_bind_run, write_file_ok by done.
  unfold tar_add, tar_close. run_simpl.
  rewrite lookup_insert. case_decide as Heq; simpl.
  - rewrite Heq, insert_insert_eq, tar_members_insert_out. done.
  - rewrite Hsn. simpl. rewrite insert_insert_eq, tar_members_insert_out. done.
Qed.

(** When [make_tarfile] fails, it raises [ArchiveError] naming the
    archive or the source, and the only trace it leaves is the empty
    archive file [tarfile.open] created before [add] failed. *)
Lemma make_tarfile_err_inv out src w e w' :
  make_tarfile out src w = (Err e, w') ->
  (e = ArchiveError out /\ w' = w) \/
  (e = ArchiveError src /\ write_file out (CTgz []) w = (Ok tt, w') /\
   w' = set_fs (<[resolve (w_cwd w) out := NFile (CTgz [])]> (w_fs w)) w).
Proof.
  tar_run.
  rewrite est_bind_run.
  destruct (write_file out (CTgz []) w) as [[[]|e0] w0] eqn:Hw.
  - pose proof Hw as Hw'. apply write_file_ok_inv in Hw' as [Hout ->].
    unfold tar_add, tar_close. run_simpl.
    destruct (String.eqb_spec src ""); simpl; [intros [= <- <-]; by right|].
    destruct (_ !! resolve _ src); simpl; [done|]. intros [= <- <-]. by right.
  - apply write_file_atomic in Hw as ->. simpl. intros [= <- <-]. by left.
Qed.

(** C15: when the source directory does not exist, [make_tarfile] raises
    [ArchiveError] naming the source, and leaves behind the empty archive
    file that [tarfile.open] created before [add] failed. *)
Theorem make_tarfile_missing_source out src w :
  out <> "" -> src <> "" ->
  resolve (w_cwd w) out ∉ w_faults w ->
  w_fs w !! resolve (w_cwd w) out <> Some NDir ->
  w_fs w !! removelast (resolve (w_cwd w) out) = Some NDir ->
  w_fs w !! resolve (w_cwd w) src = None ->
  resolve (w_cwd w) src <> resolve (w_cwd w) out ->
  make_tarfile out src w =
    (Err (ArchiveError src),
     set_fs (<[resolve (w_cwd w) out := NFile (CTgz [])]> (w_fs w)) w).
Proof.
  intros Hout Hsrc Hf Hn Hp Hsn Hne. tar_run.
  rewrite est_bind_run, write_file_ok by done.
  unfold tar_add, tar_close. run_simpl.
  rewrite lookup_insert_ne, Hsn by done. done.
Qed.

Lemma elem_of_tar_entries p o fs k n :
  (k, n) ∈ tar_entries p o fs <-> fs !! k = Some n /\ p `prefix_of` k /\ k <> o.
Proof.
  unfold tar_entries. rewrite merge_sort_Permutation, elem_of_map_to_list.
  rewrite map_lookup_filter_Some. simpl. tauto.
Qed.

(** The members of the archive are exactly the entries of the tree at [p]
    (the archive itself excepted), each under its name below [arcname]. *)
Lemma elem_of_tar_members a p o fs name oc :
  (name, oc) ∈ tar_members a p o fs <->
  exists rel n, fs !! (p ++ rel) = Some n /\ p ++ rel <> o /\
                name = arc_name a rel /\ oc = node_content n.
Proof.
  unfold tar_members. rewrite list_elem_of_fmap. split.
  - intros ([k n] & [= -> ->] & (Hk & [rel ->] & Ho)%elem_of_tar_entries).
    exists rel, n. simpl. by rewrite drop_app_length.
  - intros (rel & n & Hk & Ho & -> & ->). exists (p ++ rel, n).
    simpl. rewrite drop_app_length. split; [done|].
    apply elem_of_tar_entries. split_and!; [done| |done]. by apply prefix_app_r.
Qed.

Lemma make_tarfile_ok_inv out src w w' :
  make_tarfile out src w = (Ok tt, w') ->
  write_file out (CTgz []) w =
    (Ok tt, set_fs (<[resolve (w_cwd w) out := NFile (CTgz [])]> (w_fs w)) w) /\
  w' = set_fs (<[resolve (w_cwd w) out :=
                  NFile (CTgz (tar_members (basename src) (resolve (w_cwd w) src)
                                 (resolve (w_cwd w) out) (w_fs w)))]> (w_fs w)) w.
Proof.
  tar_run.
  rewrite est_bind_run.
  destruct (write_file out (CTgz []) w) as [[[]|e0] w0] eqn:Hw; [|done].
  pose proof Hw as Hw'. apply write_file_ok_inv in Hw' as [Hout ->].
  intros H. split; [done|]. revert H. unfold tar_add, tar_close. run_simpl.
  destruct (String.eqb_spec src ""); simpl; [done|].
  rewrite lookup_insert. case_decide as Heq; simpl.
  - intros [= <-]. rewrite Heq, insert_insert_eq, tar_members_insert_out. done.
  - destruct (w_fs w !! _); simpl; [|done]. intros [= <-].
    by rewrite insert_insert_eq, tar_members_insert_out.
Qed.

(** Replacing the content of a file keeps the file system well formed. *)
Lemma fs_wf_file_swap fs p c c' :
  fs_wf (<[p := NFile c]> fs) -> fs_wf (<[p := NFile c']> fs).
Proof.
  intros [Hroot Hwf].
  assert (p <> []) as Hp by (intros ->; by rewrite lookup_insert_eq in Hroot).
  split; [by rewrite lookup_insert_ne in * by done|].
  intros q n. rewrite lookup_insert. case_decide as Hq.
  - intros [= <-]. subst q. destruct (Hwf p (NFile c)) as [Hpp Hpar]; [by rewrite lookup_insert_eq|].
    split; [done|]. intros _. specialize (Hpar Hp).
    rewrite lookup_insert_ne in * by (by apply not_eq_sym, removelast_neq). done.
  - intros Hqn. destruct (Hwf q n) as [Hpq Hpar]; [by rewrite lookup_insert_ne|].
    split; [done|]. intros Hq0. specialize (Hpar Hq0).
    rewrite lookup_insert in Hpar |- *. case_decide; [congruence|done].
Qed.

Lemma make_tarfile_wf out src : preserves world_wf (make_tarfile out src).
Proof.
  intros w Hw. destruct (make_tarfile out src w) as [[[]|e] w'] eqn:Hm; simpl.
  - apply make_tarfile_ok_inv in Hm as [Hw1 ->].
    pose proof (write_file_wf out (CTgz []) w Hw) as Hw1'. rewrite Hw1 in Hw1'.
    destruct Hw1' as [Hfs Hcwd]. split; [|done]. simpl in *.
    by eapply fs_wf_file_swap.
  - apply make_tarfile_err_inv in Hm as [[_ ->]|(_ & Hw1 & _)]; [done|].
    pose proof (write_file_wf out (CTgz []) w Hw) as Hw1'. by rewrite Hw1 in Hw1'.
Qed.

#[export] Hint Resolve make_tarfile_wf : ctw.

(** ** Extraction reproduces the archived tree *)

Lemma node_of_content n : node_of (node_content n) = n.
Proof. by destruct n. Qed.

(** The name [os.path.join(.., f)] gives to entry [rel] resolves to
    [rel] below the directory its top name denotes. *)
Lemma resolve_arc_name dest a rel :
  proper_component (basename a) = true -> Forall (fun c => proper_component c = true) rel ->
  resolve dest (arc_name a rel) = resolve dest a ++ rel.
Proof.
  revert a. induction rel as [|r rel IH]; intros a Ha Hrel; simpl.
  - by rewrite app_nil_r.
  - apply Forall_cons in Hrel as [Hr Hrel]. unfold arc_name in *. simpl.
    rewrite IH by (by rewrite ?basename_join). rewrite resolve_join by done.
    by rewrite <- app_assoc.
Qed.

Section RoundTrip.
Context (a : string) (p o : path) (fs : fsmap) (dest : path).
Hypothesis Ha : proper_component a = true.
Hypothesis Hprop : forall rel n, fs !! (p ++ rel) = Some n ->
  Forall (fun c => proper_component c = true) rel.

Lemma resolve_member rel n :
  fs !! (p ++ rel) = Some n -> resolve dest (arc_name a rel) = dest ++ a :: rel.
Proof.
  intros Hn. rewrite resolve_arc_name; [|by rewrite basename_no_slash by
    (by apply proper_component_no_slash)|by eapply Hprop].
  rewrite resolve_component by done. by rewrite <- app_assoc.
Qed.

Lemma tar_members_paths x :
  x ∈ tar_members a p o fs ->
  exists rel n, fs !! (p ++ rel) = Some n /\ resolve dest x.1 = dest ++ a :: rel.
Proof.
  destruct x as [name oc]. intros (rel & n & Hn & _ & -> & _)%elem_of_tar_members.
  exists rel, n. split; [done|]. by apply (resolve_member rel n).
Qed.

(** No two members extract to the same place. *)
Lemma tar_members_NoDup : NoDup ((fun x => resolve dest x.1) <$> tar_members a p o fs).
Proof.
  unfold tar_members. rewrite <- list_fmap_compose. apply NoDup_fmap_2_strong.
  - intros [k1 n1] [k2 n2] H1 H2. unfold compose. simpl.
    apply elem_of_tar_entries in H1 as (L1 & [r1 ->] & _), H2 as (L2 & [r2 ->] & _).
    rewrite !drop_app_length, (resolve_member r1 n1), (resolve_member r2 n2) by done.
    intros Heq. apply app_inv_head in Heq. injection Heq as ->. congruence.
  - unfold tar_entries. rewrite merge_sort_Permutation. apply NoDup_map_to_list.
Qed.

(** Extracting the members of [TarFile.add(p, arcname=a)] at [dest], where
    nothing was below [dest/a], recreates at [dest/a] the tree at [p] (the
    archive file excepted) entry for entry, and changes nothing else. *)
Lemma tar_members_round_trip fs0 :
  (forall rel, fs0 !! (dest ++ a :: rel) = None) ->
  (forall rel, p ++ rel <> o ->
     extract dest (tar_members a p o fs) fs0 !! (dest ++ a :: rel) = fs !! (p ++ rel)) /\
  (forall q, ¬ (dest ++ [a]) `prefix_of` q ->
     extract dest (tar_members a p o fs) fs0 !! q = fs0 !! q).
Proof.
  intros Hfresh. unfold extract. split.
  - intros rel Ho. destruct (fs !! (p ++ rel)) as [n|] eqn:Hn.
    + assert ((arc_name a rel, node_content n) ∈ tar_members a p o fs) as Hin
        by (apply elem_of_tar_members; by exists rel, n).
      rewrite <- (resolve_member rel n Hn), <- (node_of_content n).
      exact (fold_insert_lookup_in (fun x => resolve dest x.1) (fun x => node_of x.2)
               _ fs0 _ tar_members_NoDup Hin).
    + rewrite <- (Hfresh rel).
      apply (fold_insert_lookup_out (fun x => resolve dest x.1) (fun x => node_of x.2)).
      intros (x & Hx & (rel' & n' & Hn' & Px)%tar_members_paths)%list_elem_of_fmap.
      rewrite Px in Hx. apply app_inv_head in Hx. injection Hx as ->. congruence.
  - intros q Hq. apply (fold_insert_lookup_out (fun x => resolve dest x.1) (fun x => node_of x.2)).
    intros (x & -> & (rel & n & _ & Px)%tar_members_paths)%list_elem_of_fmap.
    apply Hq. rewrite Px. exists rel. by rewrite <- app_assoc.
Qed.
End RoundTrip.

(** ** On a concrete file system *)

(** A directory [ws] holding one file, in the root. *)
Definition demo_fs : fsmap :=
  {[ [] := NDir; ["ws"] := NDir; ["ws"; "a.tab"] := NFile (CJson []) ]}.

Definition demo_tar_world : world := mk_world demo_fs [] ∅ [] true [] [].

Lemma make_tarfile_missing_source_witness :
  make_tarfile "ws.ctw.tgz" "data" demo_tar_world =
    (Err (ArchiveError "data"),
     set_fs (<[["ws.ctw.tgz"] := NFile (CTgz [])]> demo_fs) demo_tar_world).
Proof.
  refine (make_tarfile_missing_source "ws.ctw.tgz" "data" demo_tar_world _ _ _ _ _ _ _).
  - discriminate.
  - discriminate.
  - apply not_elem_of_empty.
  - vm_compute. congruence.
  - reflexivity.
  - reflexivity.
  - vm_compute. congruence.
Defined.
