(* ===== verification/TarWalk.v ===== *)
(** * TarWalk: the recursive walk of [TarFile.add]

    [Tar.tar_entries] describes what [tar.add(source_dir, arcname=..)]
    (cli.py 62) adds by its result: the entries below the source, in the
    lexicographic order of their component lists.  CPython's [TarFile.add]
    computes them by recursion:
    - it skips the archive file itself;
    - it adds the entry;
    - for a directory, it calls itself on [os.path.join(name, f)] under
      [os.path.join(arcname, f)], for [f] in [sorted(os.listdir(name))].
    [tar_walk] is that recursion, with fuel for the depth of the tree.
    [tar_walk_members] proves it equal to [Tar.tar_members] when the fuel
    exceeds the depth of the tree.  This needs the file system to be well
    formed, the source to exist, and the archive to have nothing below it.
    The proof shows that the walk visits exactly the entries below the
    source, each once, in increasing order; two sorted lists with the same
    entries are equal. *)

From S2P Require Import Prelude Paths FileSystem Tar.

(** ** The walk *)

(** The name of [k] when it is an entry directly below [p]. *)
Definition child_name (p k : path) : option string :=
  match drop (length p) k with
  | [f] => if decide (take (length p) k = p) then Some f else None
  | _ => None
  end.

(** [sorted(os.listdir(p))]. *)
Definition listdir (fs : fsmap) (p : path) : list string :=
  merge_sort String.le (omap (child_name p) (map_to_list fs).*1).

Fixpoint tar_walk (fuel : nat) (fs : fsmap) (out p : path) (arcname : string)
  : list (string * option content) :=
  match fuel with
  | O => []
  | S fuel' =>
      if decide (p = out) then []
      else match fs !! p with
           | Some NDir =>
               (arcname, None) ::
               mjoin ((fun f => tar_walk fuel' fs out (p ++ [f]) (join arcname f))
                        <$> listdir fs p)
           | Some (NFile c) => [(arcname, Some c)]
           | None => []
           end
  end.

(** The entries the walk visits, with their paths. *)
Fixpoint walk_entries (fuel : nat) (fs : fsmap) (out p : path) : list (path * node) :=
  match fuel with
  | O => []
  | S fuel' =>
      if decide (p = out) then []
      else match fs !! p with
           | Some NDir =>
               (p, NDir) :: mjoin ((fun f => walk_entries fuel' fs out (p ++ [f])) <$> listdir fs p)
           | Some (NFile c) => [(p, NFile c)]
           | None => []
           end
  end.

(** ** The order of paths *)

Lemma string_compare_refl s : String.compare s s = Eq.
Proof.
  pose proof (String.compare_antisym s s) as H.
  by destruct (String.compare s s).
Qed.

Lemma string_ltb_spec a b : String.ltb a b = true <-> String.leb a b = true /\ a <> b.
Proof.
  unfold String.ltb, String.leb. split.
  - destruct (String.compare a b) eqn:E; [done| |done].
    intros _. split; [done|]. intros ->. by rewrite string_compare_refl in E.
  - intros [H Hne]. destruct (String.compare a b) eqn:E; [|done|done].
    by apply String.compare_eq_iff in E.
Qed.

Lemma string_leb_trans a b c :
  String.leb a b = true -> String.leb b c = true -> String.leb a c = true.
Proof.
  intros H1 H2. assert (String.le a c) as H.
  { transitivity b; unfold String.le; [rewrite H1|rewrite H2]; done. }
  unfold String.le in H. by destruct (String.leb a c).
Qed.

Lemma string_leb_total a b : String.leb a b = false -> String.leb b a = true.
Proof. destruct (String.leb_total a b); congruence. Qed.

Lemma path_leb_refl p : path_leb p p = true.
Proof. induction p as [|a p IH]; simpl; [done|]. by rewrite String.eqb_refl. Qed.

Lemma string_ltb_trans a b c :
  String.ltb a b = true -> String.ltb b c = true -> String.ltb a c = true.
Proof.
  rewrite !string_ltb_spec. intros [Hab Hne1] [Hbc Hne2].
  split; [by eapply string_leb_trans|]. intros ->.
  apply Hne1. by apply String.leb_antisym.
Qed.

Lemma string_ltb_asym a b : String.ltb a b = true -> String.ltb b a = true -> False.
Proof.
  rewrite !string_ltb_spec. intros [H1 Hne] [H2 _]. apply Hne. by apply String.leb_antisym.
Qed.

Lemma string_ltb_total a b : a <> b -> String.ltb a b = true \/ String.ltb b a = true.
Proof.
  intros Hne. rewrite !string_ltb_spec.
  destruct (String.leb_total a b); [left|right]; auto.
Qed.

(** [path_leb] is a total order. *)
Lemma path_leb_antisym p q : path_leb p q = true -> path_leb q p = true -> p = q.
Proof.
  revert q. induction p as [|a p IH]; intros [|b q]; simpl; try done.
  rewrite (String.eqb_sym b a).
  destruct (String.eqb_spec a b) as [->|Hne]; [intros ??; f_equal; auto|].
  intros H1 H2. exfalso. exact (string_ltb_asym a b H1 H2).
Qed.

Lemma path_leb_trans p q r : path_leb p q = true -> path_leb q r = true -> path_leb p r = true.
Proof.
  revert q r. induction p as [|a p IH]; intros [|b q] [|c r]; simpl; try done.
  destruct (String.eqb_spec a b) as [->|Hab], (String.eqb_spec b c) as [->|Hbc].
  - apply IH.
  - auto.
  - intros H1 _. destruct (String.eqb_spec a c); [congruence|done].
  - intros H1 H2. pose proof (string_ltb_trans _ _ _ H1 H2) as H.
    destruct (String.eqb_spec a c) as [->|]; [|done].
    exfalso. exact (string_ltb_asym _ _ H1 H2).
Qed.

Lemma path_leb_total p q : path_leb p q = true \/ path_leb q p = true.
Proof.
  revert q. induction p as [|a p IH]; intros [|b q]; simpl; auto.
  rewrite (String.eqb_sym b a). destruct (String.eqb_spec a b) as [->|Hne]; [apply IH|].
  by apply string_ltb_total.
Qed.

Lemma path_leb_prefix p q : path_leb p (p ++ q) = true.
Proof. induction p as [|a p IH]; simpl; [done|]. by rewrite String.eqb_refl. Qed.

Lemma path_leb_child p f g q r :
  String.ltb f g = true -> path_leb (p ++ f :: q) (p ++ g :: r) = true.
Proof.
  intros H. induction p as [|a p IH]; simpl; [|by rewrite String.eqb_refl].
  destruct (String.eqb_spec f g) as [->|]; [|done].
  exfalso. exact (string_ltb_asym _ _ H H).
Qed.

#[export] Instance entry_le_trans : Transitive entry_le.
Proof. intros x y z. apply path_leb_trans. Qed.

(** ** [os.listdir] *)

Lemma child_name_spec p k f : child_name p k = Some f <-> k = p ++ [f].
Proof.
  unfold child_name. split.
  - destruct (drop (length p) k) as [|g [|]] eqn:E; try done.
    case_decide as H; [|done]. intros [= <-].
    by rewrite <- (take_drop (length p) k), H, E.
  - intros ->. rewrite drop_app_length, take_app_length. simpl. by rewrite decide_True.
Qed.

Lemma elem_of_listdir fs p f : f ∈ listdir fs p <-> is_Some (fs !! (p ++ [f])).
Proof.
  unfold listdir. rewrite merge_sort_Permutation, list_elem_of_omap. split.
  - intros (k & Hk & ->%child_name_spec).
    apply list_elem_of_fmap in Hk as ([k' n] & -> & Hin).
    apply elem_of_map_to_list in Hin. by eexists.
  - intros [n Hn]. exists (p ++ [f]). split; [|by apply child_name_spec].
    apply list_elem_of_fmap. exists (p ++ [f], n). split; [done|].
    by apply elem_of_map_to_list.
Qed.

Lemma listdir_NoDup fs p : NoDup (listdir fs p).
Proof.
  unfold listdir. rewrite merge_sort_Permutation.
  apply NoDup_omap_inj; [apply NoDup_fst_map_to_list|].
  intros x y z _ _ ->%child_name_spec ->%child_name_spec. done.
Qed.

Lemma listdir_sorted fs p : StronglySorted String.le (listdir fs p).
Proof. apply Sorted_StronglySorted; [apply _|]. apply Sorted_merge_sort. apply _. Qed.

(** ** What the walk visits *)

(** An entry with something below it is a directory. *)
Lemma fs_wf_ancestor_dir fs p f r n :
  fs_wf fs -> fs !! (p ++ f :: r) = Some n -> fs !! p = Some NDir.
Proof.
  intros Hwf Hk.
  destruct (fs_wf_prefix_closed fs (p ++ [f]) _ _ Hwf Hk) as [m Hm].
  { exists r. by rewrite <- app_assoc. }
  destruct Hwf as [_ Hwf]. destruct (Hwf _ _ Hm) as [_ Hpar].
  rewrite removelast_last in Hpar. apply Hpar. by destruct p.
Qed.

(** The strict order of the entries' paths. *)
Definition entry_lt (x y : path * node) : Prop := path_leb x.1 y.1 = true /\ x.1 <> y.1.

#[export] Instance entry_le_total : Total entry_le.
Proof. intros x y. apply path_leb_total. Qed.

Section Walk.
Context (fs : fsmap) (out : path).

Lemma walk_entries_sound fuel p k n :
  (k, n) ∈ walk_entries fuel fs out p -> fs !! k = Some n /\ p `prefix_of` k /\ k <> out.
Proof.
  revert p. induction fuel as [|fuel IH]; intros p; simpl; [set_solver|].
  case_decide as Hpo; [set_solver|].
  destruct (fs !! p) as [[|c]|] eqn:Hp; [| |set_solver].
  - intros [[= -> ->]|(l & Hk & (f & -> & _)%list_elem_of_fmap)%list_elem_of_join]%elem_of_cons;
      [done|].
    destruct (IH _ Hk) as (? & ? & ?). split_and!; [done| |done]. by eapply prefix_app_l.
  - intros [= -> ->]%list_elem_of_singleton. done.
Qed.

Lemma walk_entries_below fuel p k n :
  (k, n) ∈ walk_entries fuel fs out p -> exists r, k = p ++ r.
Proof. intros (_ & [r ->] & _)%walk_entries_sound. by exists r. Qed.

(** Children visited in increasing name order give blocks of entries in
    increasing path order. *)
Lemma walk_blocks_sorted fuel p cs :
  (forall f, StronglySorted entry_lt (walk_entries fuel fs out (p ++ [f]))) ->
  StronglySorted String.le cs -> NoDup cs ->
  StronglySorted entry_lt (mjoin ((fun f => walk_entries fuel fs out (p ++ [f])) <$> cs)).
Proof.
  intros Hblk. induction cs as [|c cs IH]; simpl; [constructor|].
  intros [Hc Hcs]%StronglySorted_cons [Hnc Hnd]%NoDup_cons.
  apply StronglySorted_app_2; [|apply Hblk|by apply IH].
  intros [k1 n1] [k2 n2] (r1 & ->)%walk_entries_below
    (l & H2 & (c' & -> & Hc')%list_elem_of_fmap)%list_elem_of_join.
  destruct (walk_entries_below _ _ _ _ H2) as [r2 ->].
  assert (String.ltb c c' = true) as Hlt.
  { apply string_ltb_spec. split; [|by intros ->].
    rewrite Forall_forall in Hc. specialize (Hc c' Hc'). unfold String.le in Hc.
    by destruct (String.leb c c'). }
  unfold entry_lt; simpl. rewrite <- !app_assoc. simpl. split; [by apply path_leb_child|].
  intros Heq. apply app_inv_head in Heq. injection Heq as ->. done.
Qed.

Lemma walk_entries_sorted fuel p : StronglySorted entry_lt (walk_entries fuel fs out p).
Proof.
  revert p. induction fuel as [|fuel IH]; intros p; simpl; [constructor|].
  case_decide; [constructor|].
  destruct (fs !! p) as [[|c]|]; [|repeat constructor|constructor].
  constructor.
  - apply walk_blocks_sorted; [done|apply listdir_sorted|apply listdir_NoDup].
  - apply Forall_forall.
    intros [k n] (l & Hl & (f & -> & _)%list_elem_of_fmap)%list_elem_of_join.
    destruct (walk_entries_below _ _ _ _ Hl) as [r ->].
    unfold entry_lt; simpl. rewrite <- app_assoc. split; [apply path_leb_prefix|].
    intros Heq. apply (f_equal length) in Heq. rewrite !length_app in Heq. simpl in Heq. lia.
Qed.

(** The member the walk adds for an entry: its name below [arcname]. *)
Definition member_of (arcname : string) (p : path) (kv : path * node) : string * option content :=
  (arc_name arcname (drop (length p) kv.1), node_content kv.2).

Lemma tar_walk_entries fuel p a :
  tar_walk fuel fs out p a = member_of a p <$> walk_entries fuel fs out p.
Proof.
  revert p a. induction fuel as [|fuel IH]; intros p a; simpl; [done|].
  case_decide; [done|].
  destruct (fs !! p) as [[|c]|]; simpl; [|by unfold member_of; rewrite drop_all|done].
  f_equal; [by unfold member_of; rewrite drop_all|].
  induction (listdir fs p) as [|f fs' IHf]; [done|].
  rewrite !join_fmap_cons, fmap_app, IHf, IH. f_equal. apply list_fmap_ext.
  intros i [k n] Hi. apply list_elem_of_lookup_2, walk_entries_below in Hi as [r ->].
  unfold member_of. simpl. rewrite drop_app_length, <- app_assoc, drop_app_length. done.
Qed.

Hypothesis Hwf : fs_wf fs.
(** Nothing lies below the archive file. *)
Hypothesis Hout : forall k n, fs !! k = Some n -> out `prefix_of` k -> k = out.

Lemma walk_entries_complete fuel p k n :
  fs !! k = Some n -> p `prefix_of` k -> k <> out -> length k < length p + fuel ->
  (k, n) ∈ walk_entries fuel fs out p.
Proof.
  revert p. induction fuel as [|fuel IH]; intros p Hk Hpre Hko Hlen.
  { apply prefix_length in Hpre. lia. }
  simpl. case_decide as Hpo; [subst p; exfalso; by apply Hko, (Hout k n)|].
  destruct Hpre as [[|f r] ->].
  - rewrite app_nil_r in Hk |- *. rewrite Hk. destruct n; by left.
  - assert (p ++ [f] `prefix_of` p ++ f :: r) as Hpf by (exists r; by rewrite <- app_assoc).
    rewrite (fs_wf_ancestor_dir fs p f r n Hwf Hk). right.
    apply list_elem_of_join. eexists. split.
    + apply (IH (p ++ [f])); [done|done|done|]. rewrite !length_app in *. simpl in *. clear -Hlen. lia.
    + apply list_elem_of_fmap. exists f. split; [done|].
      apply elem_of_listdir. exact (fs_wf_prefix_closed fs _ _ _ Hwf Hk Hpf).
Qed.

Lemma entry_lt_NoDup l : StronglySorted entry_lt l -> NoDup l.
Proof.
  induction 1 as [|x l _ IH Hx]; constructor; [|done].
  intros Hin. rewrite Forall_forall in Hx. by destruct (Hx x Hin).
Qed.

Lemma entry_lt_le l : StronglySorted entry_lt l -> StronglySorted entry_le l.
Proof.
  induction 1 as [|x l _ IH Hx]; constructor; [done|].
  eapply Forall_impl; [done|]. by intros y [].
Qed.

(** With enough fuel the walk visits exactly [tar_entries], in order. *)
Lemma walk_entries_eq fuel p :
  (forall k n, fs !! k = Some n -> length k < length p + fuel) ->
  walk_entries fuel fs out p = tar_entries p out fs.
Proof.
  intros Hfuel. apply (Sorted_unique_strong entry_le).
  - intros [k1 n1] [k2 n2] (H1 & _)%walk_entries_sound (H2 & _)%elem_of_tar_entries Hle1 Hle2.
    pose proof (path_leb_antisym _ _ Hle1 Hle2) as Hk. simpl in Hk. subst k2. congruence.
  - apply StronglySorted_Sorted, entry_lt_le, walk_entries_sorted.
  - apply Sorted_merge_sort. apply _.
  - apply NoDup_Permutation.
    + apply entry_lt_NoDup, walk_entries_sorted.
    + unfold tar_entries. rewrite merge_sort_Permutation. apply NoDup_map_to_list.
    + intros [k n]. rewrite elem_of_tar_entries. split; [apply walk_entries_sound|].
      intros (Hk & Hpre & Hko). apply walk_entries_complete; [done..|]. by apply (Hfuel k n).
Qed.

(** [TarFile.add]'s recursion adds exactly [tar_members]: the same members,
    with the same names, in the same order. *)
Lemma tar_walk_members fuel p a :
  (forall k n, fs !! k = Some n -> length k < length p + fuel) ->
  tar_walk fuel fs out p a = tar_members a p out fs.
Proof. intros Hfuel. by rewrite tar_walk_entries, walk_entries_eq. Qed.
End Walk.

(** One more than the longest path of the file system: enough fuel for
    a walk from anywhere. *)
Definition fs_depth (fs : fsmap) : nat := max_list (length <$> (map_to_list fs).*1).

Lemma fs_depth_bound fs k n : fs !! k = Some n -> length k <= fs_depth fs.
Proof.
  intros Hk. apply max_list_elem_of_le, list_elem_of_fmap. exists k. split; [done|].
  apply list_elem_of_fmap. exists (k, n). split; [done|]. by apply elem_of_map_to_list.
Qed.

(** C14: the archive [make_tarfile] writes holds exactly the members that
    CPython's recursive [TarFile.add] produces on the file system it runs
    on (where [tarfile.open] has already created the empty archive): the
    source entry, then for a directory the entries of [sorted(os.listdir)]
    in turn, each under [os.path.join(arcname, f)], the archive itself
    skipped. *)
Theorem make_tarfile_recursive_walk out src w w' :
  world_wf w -> make_tarfile out src w = (Ok tt, w') ->
  let O := resolve (w_cwd w) out in
  let fs1 := <[O := NFile (CTgz [])]> (w_fs w) in
  w_fs w' !! O =
    Some (NFile (CTgz (tar_walk (S (fs_depth fs1)) fs1 O (resolve (w_cwd w) src) (basename src)))).
Proof.
  intros Hw (Hw1 & ->)%make_tarfile_ok_inv. cbv zeta. rewrite set_fs_fs, lookup_insert_eq.
  pose proof (write_file_wf out (CTgz []) w Hw) as [Hwf1 _]. rewrite Hw1 in Hwf1. simpl in Hwf1.
  rewrite tar_walk_members; [by rewrite tar_members_insert_out|done| |].
  - intros k n Hk [r ->]. destruct r as [|f r]; [by rewrite app_nil_r|].
    pose proof (fs_wf_ancestor_dir _ _ _ _ _ Hwf1 Hk) as HO.
    by rewrite lookup_insert_eq in HO.
  - intros k n Hk. pose proof (fs_depth_bound _ _ _ Hk). lia.
Qed.

(** ** On a concrete file system *)

Lemma make_tarfile_recursive_walk_witness :
  w_fs (make_tarfile "ws.ctw.tgz" "ws" demo_tar_world).2 !! ["ws.ctw.tgz"] =
    Some (NFile (CTgz [("ws", None); ("ws/a.tab", Some (CJson []))])).
Proof.
  assert (make_tarfile "ws.ctw.tgz" "ws" demo_tar_world =
            (Ok tt, (make_tarfile "ws.ctw.tgz" "ws" demo_tar_world).2))
    as Hrun by (vm_compute; reflexivity).
  etrans; [exact (make_tarfile_recursive_walk "ws.ctw.tgz" "ws" demo_tar_world _
                    (world_wfb_sound demo_tar_world eq_refl) Hrun)|].
  vm_compute. reflexivity.
Defined.
