(* ===== verification/Webapi.v ===== *)
(** * Webapi: [ctwpy.webapi.upload]

    [upload_worksheet] calls [upload(None, credentials)] (cli.py 57).  The
    module is not under [src/]; [upload] is modelled from spec.md 4.5: it
    reads the archive at the given path, and sends it with the credentials
    to the catalog service in a single request; a missing path, a network
    failure or credentials the service refuses raise [UploadError]; nothing
    is retried, and the local file system is never modified.  The service
    is the [w_online], [w_accounts] and [w_uploads] part of the world. *)

From S2P Require Import Prelude Paths FileSystem.

Definition upload (ctw_path : option string) (credentials : list (string * string)) : M unit :=
  match ctw_path with
  | None => raise (UploadError "no archive path")
  | Some p =>
      archive ← catch (read_file p) (fun _ => raise (UploadError p));
      w ← get;
      if negb (w_online w) then raise (UploadError "network unreachable")
      else if decide (credentials ∈ w_accounts w) then
        put (set_uploads (w_uploads w ++ [mk_request archive credentials]) w)
      else raise (UploadError "authentication refused")
  end.

(** ** Lemmas *)

(** [upload] only reads the local file system. *)
Lemma upload_fs p creds w : w_fs (upload p creds w).2 = w_fs w.
Proof.
  destruct p as [p|]; [|done]. unfold upload. rewrite est_bind_run. unfold catch.
  pose proof (read_file_state p w) as Hs.
  destruct (read_file p w) as [[c|e] w1]; simpl in Hs; subst w1; [|done].
  run_simpl. destruct (w_online w); simpl; [|done]. by case_decide.
Qed.

(** ** Properties *)

(** [upload] never modifies the local file system (in particular the
    archive it sends); with credentials the service does not accept it
    raises [UploadError] and sends nothing; with accepted credentials and
    the network up, it sends exactly one request carrying the archive read
    at the path. *)
Theorem upload_spec p creds w :
  let r := upload (Some p) creds w in
  w_fs r.2 = w_fs w /\
  (creds ∉ w_accounts w -> (exists m, r.1 = Err (UploadError m)) /\ w_uploads r.2 = w_uploads w) /\
  (forall c, p <> "" -> w_fs w !! resolve (w_cwd w) p = Some (NFile c) ->
     w_online w = true -> creds ∈ w_accounts w ->
     r = (Ok tt, set_uploads (w_uploads w ++ [mk_request c creds]) w)).
Proof.
  split; [apply upload_fs|].
  unfold upload. rewrite est_bind_run. unfold catch.
  destruct (read_file p w) as [[c|e] w1] eqn:Hr.
  - pose proof (read_file_state p w) as Hs. rewrite Hr in Hs. simpl in Hs. subst w1.
    run_simpl. destruct (w_online w) eqn:Hon; simpl.
    + case_decide; simpl.
      * split; [done|]. intros c' Hp Hc' _ _.
        rewrite (read_file_ok p c' w) in Hr by done. by injection Hr as ->.
      * split; [eauto|]. intros; done.
    + split; [eauto|]. intros; congruence.
  - pose proof Hr as Hr'. apply read_file_atomic in Hr' as ->. simpl. split; [eauto|].
    intros c Hp Hc. rewrite (read_file_ok p c w) in Hr by done. done.
Qed.

Lemma upload_wf p creds : preserves world_wf (upload p creds).
Proof.
  intros w Hw. destruct p as [p|]; [|done].
  split; [rewrite upload_fs; apply Hw|].
  unfold upload. rewrite est_bind_run. unfold catch.
  pose proof (read_file_state p w) as Hs.
  destruct (read_file p w) as [[c|e] w1]; simpl in Hs; subst w1; simpl; [|apply Hw].
  run_simpl. destruct (w_online w); simpl; [|apply Hw]. case_decide; simpl; apply Hw.
Qed.

#[export] Hint Resolve upload_wf : ctw.
