(* ===== verification/Cli.v ===== *)
(** * Cli: the commands of [src/ctwpy/cli.py]

    - [from_scanpy] (cli.py 19-48) is [gather] (lines 27-40: read the
      AnnData file, compute the mapping, the coordinates, the markers, the
      clustering and the expression matrix, printing progress) followed by
      [export_worksheet] (lines 42-48: create the staging directory, write
      the products, tar it into [ctw_filename worksheet_name], delete it).
      The click options give the defaults of [from_scanpy_defaults].
    - [upload_worksheet] (50-57) reads the credentials and calls
      [upload None credentials]: the archive path it receives is unused.
    - [scanpy_obs] (65-69) prints the observation column names.
    - [bye] (72-74) prints a greeting.

    The theorems state the contract of spec.md 4 and 8 for these commands:
    - what a successful export leaves, and that its archive extracts to
      the staged worksheet;
    - that an extraction failure writes nothing;
    - that an existing staging directory is refused and kept;
    - that the staging directory is deleted only after the archive was
      written;
    - what [gather] computes from the dataset.
    They also state the defect modelling exposed: a worksheet name ending
    in a slash makes a successful export leave no archive, and in fact
    leave the disk as it was.  The last section runs the commands on
    concrete worlds built from [Dataset.demo_ad]. *)

From Stdlib Require Import ZArith.
From S2P Require Import Prelude Paths Dataset Markers FileSystem Tar Webapi.

(** ** [from_scanpy] *)

(** The arguments and options of the click command. *)
Record from_scanpy_args := mk_from_scanpy_args {
  worksheet_name : string;
  scanpy_path : string;
  cluster_name : string;
  celltype_key : string
}.

(** [@click.option('--cluster_name', default="louvain")] and
    [@click.option('--celltype_key', default="scorect")]. *)
Definition from_scanpy_defaults (worksheet_name scanpy_path : string) : from_scanpy_args :=
  mk_from_scanpy_args worksheet_name scanpy_path "louvain" "scorect".

(** The products gathered from the dataset. *)
Record products := mk_products {
  pr_mapping : list (string * string);
  pr_xys : list (string * (Z * Z));
  pr_markers : marker_table;
  pr_clustering : list (string * string);
  pr_exp : expression
}.

(** The embedding the command reads: [get_xys(ad, key="X_umap")]. *)
Definition umap_key : string := "X_umap".

(** cli.py 27-40. *)
Definition gather (scanpy_path cluster_name celltype_key : string) : M products :=
  print (LMsg "reading in data...");;
  ad ← readh5ad scanpy_path;
  print (LMsg "Attempt to gather cell type mapping");;
  mapping ← lift (celltype_mapping ad cluster_name celltype_key);
  print (LPreview (take 5 mapping));;
  let use_raw := has_raw ad in
  xys ← lift (get_xys ad umap_key);
  print (LMsg "Running marker generation");;
  markers_df ← lift (run_pipe ad cluster_name);
  clustering ← lift (get_obs ad cluster_name);
  let exp := get_expression ad use_raw in
  mret (mk_products mapping xys markers_df clustering exp).

(** ["%s.ctw.tgz" % worksheet_name], cli.py 46. *)
Definition ctw_filename (worksheet_name : string) : string :=
  worksheet_name +:+ ".ctw.tgz".

(** cli.py 42-48. *)
Definition export_worksheet (worksheet_name : string) (pr : products) : M unit :=
  make_dir_or_complain worksheet_name;;
  write_all_worksheet worksheet_name (pr_xys pr) (pr_exp pr) (pr_clustering pr)
    (pr_markers pr) (pr_mapping pr);;
  make_tarfile (ctw_filename worksheet_name) worksheet_name;;
  delete_dir worksheet_name.

(** cli.py 19-48. *)
Definition from_scanpy (args : from_scanpy_args) : M unit :=
  pr ← gather (scanpy_path args) (cluster_name args) (celltype_key args);
  export_worksheet (worksheet_name args) pr.

(** ** The other commands *)

(** cli.py 50-57: [upload(None, credentials)]. *)
Definition upload_worksheet (ctw_path credentials_path : string) : M unit :=
  credentials ← read_json credentials_path;
  upload None credentials.

(** cli.py 65-69. *)
Definition scanpy_obs (scanpy_path : string) : M unit :=
  ad ← readh5ad scanpy_path;
  print (LKeys (obs_keys ad)).

(** cli.py 72-74. *)
Definition bye : M unit := print (LMsg "Bye World!").

(** ** The staged worksheet *)

(** The tree the staging directory holds once the products are written:
    the directory itself and its five files, as paths relative to it. *)
Definition staged_tree (pr : products) : fsmap :=
  write_entries []
    (worksheet_entries (pr_xys pr) (pr_exp pr) (pr_clustering pr)
       (pr_markers pr) (pr_mapping pr))
    {[ [] := NDir ]}.

(** The file system once the staging directory [S] was created in [fs]
    and the five products were written into it. *)
Definition staged_fs (S : path) (pr : products) (fs : fsmap) : fsmap :=
  write_entries S
    (worksheet_entries (pr_xys pr) (pr_exp pr) (pr_clustering pr) (pr_markers pr) (pr_mapping pr))
    (<[S := NDir]> fs).

(** ** Lemmas *)

(** [gather] only reads and prints: the file system, the working directory
    and the faults are those it started from. *)
Definition disk (w : world) : fsmap * path * gset path := (w_fs w, w_cwd w, w_faults w).

Lemma print_disk l D : preserves (fun w => disk w = D) (print l).
Proof. by intros w. Qed.

Lemma read_file_preserves P s : preserves P (read_file s).
Proof. intros w Hw. by rewrite read_file_state. Qed.

#[local] Hint Resolve print_disk read_file_preserves : ctw.

Lemma gather_disk sp cn ck w : disk (gather sp cn ck w).2 = disk w.
Proof.
  assert (preserves (fun w' => disk w' = disk w) (gather sp cn ck)) as H.
  { unfold gather, readh5ad. preserves_auto. }
  by apply H.
Qed.

Lemma app_string_self b t : b +:+ t = b -> t = "".
Proof. induction b as [|c b IH]; simpl; [done|]. intros [= H]. by apply IH. Qed.

(** The archive and the staging directory are siblings, the archive not
    below the staging directory. *)
Lemma staging_archive_paths cwd name :
  proper_component (basename name) = true ->
  exists P, resolve cwd name = P ++ [basename name] /\
            resolve cwd (ctw_filename name) = P ++ [basename name +:+ ".ctw.tgz"] /\
            ¬ (P ++ [basename name]) `prefix_of` (P ++ [basename name +:+ ".ctw.tgz"]).
Proof.
  intros Hb. destruct (resolve_suffix cwd name ".ctw.tgz") as (P & H1 & H2); [done|done|].
  exists P. split_and!; [done|done|].
  intros Hpre%prefix_app_inv. destruct Hpre as [r Hr]. simpl in Hr.
  injection Hr as Hr _. by apply app_string_self in Hr.
Qed.

(** The first two steps of the export: either creating or filling the
    staging directory raised an [OSError], or the staging directory was
    absent and now holds the products, and the archive and the cleanup
    run from there. *)
Lemma export_worksheet_staging name pr w r w' :
  proper_component (basename name) = true ->
  export_worksheet name pr w = (r, w') ->
  (exists e, r = Err e /\ staging_error e) \/
  (w_fs w !! resolve (w_cwd w) name = None /\
   (make_tarfile (ctw_filename name) name;; delete_dir name)
     (set_fs (staged_fs (resolve (w_cwd w) name) pr (w_fs w)) w) = (r, w')).
Proof.
  intros Hb. unfold export_worksheet, make_dir_or_complain.
  rewrite est_bind_run. destruct (mkdir name w) as [[[]|e] w1] eqn:H1.
  2: { intros [= <- _]. left. exists e. split; [done|]. by eapply mkdir_raises. }
  apply mkdir_ok_inv in H1 as (_ & HS & ->).
  rewrite est_bind_run. destruct (write_all_worksheet _ _ _ _ _ _ _) as [[[]|e] w2] eqn:H2.
  2: { intros [= <- _]. left. exists e. split; [done|]. by eapply write_all_worksheet_raises. }
  apply write_all_worksheet_ok_inv in H2 as ->. by right.
Qed.

(** A successful export, step by step: the staging directory was absent,
    it is created and filled, archived, and removed. *)
Lemma export_worksheet_ok_inv name pr w w' :
  proper_component (basename name) = true ->
  export_worksheet name pr w = (Ok tt, w') ->
  let S := resolve (w_cwd w) name in
  let O := resolve (w_cwd w) (ctw_filename name) in
  w_fs w !! S = None /\
  w' = set_fs (remove_tree S (<[O := NFile (CTgz (tar_members (basename name) S O
                                                   (staged_fs S pr (w_fs w))))]>
                               (staged_fs S pr (w_fs w)))) w.
Proof.
  intros Hb [(e & [=] & _)|[HS H]]%export_worksheet_staging; [|done].
  split; [done|]. revert H. rewrite est_bind_run.
  destruct (make_tarfile _ _ _) as [[[]|?] w3] eqn:H3; [|done].
  apply make_tarfile_ok_inv in H3 as [_ ->].
  intros H4%rmtree_ok_inv. subst w'. done.
Qed.

(** After the writes, the tree at the staging directory is the staged
    worksheet, when nothing was below it before. *)
Lemma staged_lookup S pr fs rel :
  fs_wf fs -> fs !! S = None -> staged_fs S pr fs !! (S ++ rel) = staged_tree pr !! rel.
Proof.
  intros Hwf HS. apply write_entries_lookup_below. intros r.
  destruct r as [|x r].
  - by rewrite app_nil_r, lookup_insert_eq, lookup_singleton_eq.
  - rewrite lookup_insert_ne, lookup_singleton_ne by
      (try intros ?%(f_equal length); rewrite ?length_app in *; simpl in *; lia).
    eapply fs_wf_below_absent; [done|done|]. by apply prefix_app_r.
Qed.

(** Outside the staging directory the file system is unchanged. *)
Lemma staged_fs_outside S pr fs q :
  ¬ S `prefix_of` q -> staged_fs S pr fs !! q = fs !! q.
Proof.
  intros Hq. unfold staged_fs. rewrite write_entries_lookup_outside by done.
  rewrite lookup_insert_ne; [done|]. intros ->. apply Hq. done.
Qed.

(** A run of [from_scanpy]: either [gather] raised and the disk is as
    before, or [gather] succeeded without touching the disk and the export
    ran from there. *)
Lemma from_scanpy_split args w r w' :
  from_scanpy args w = (r, w') ->
  (exists e, r = Err e /\
     gather (scanpy_path args) (cluster_name args) (celltype_key args) w = (Err e, w') /\
     disk w' = disk w) \/
  (exists pr w1,
     gather (scanpy_path args) (cluster_name args) (celltype_key args) w = (Ok pr, w1) /\
     disk w1 = disk w /\ export_worksheet (worksheet_name args) pr w1 = (r, w')).
Proof.
  unfold from_scanpy. rewrite est_bind_run.
  pose proof (gather_disk (scanpy_path args) (cluster_name args) (celltype_key args) w) as Hd.
  destruct (gather _ _ _ w) as [[pr|e] w1]; simpl in Hd; intros H; [right|left]; [by eauto|].
  injection H as <- <-. by eauto.
Qed.

(** A successful run, in terms of the directory [P] that receives both
    the staging directory [P/b] and the archive [P/b.ctw.tgz]. *)
Lemma from_scanpy_ok_inv args w w' :
  world_wf w -> proper_component (basename (worksheet_name args)) = true ->
  from_scanpy args w = (Ok tt, w') ->
  let b := basename (worksheet_name args) in
  exists pr P,
    (gather (scanpy_path args) (cluster_name args) (celltype_key args) w).1 = Ok pr /\
    resolve (w_cwd w) (worksheet_name args) = P ++ [b] /\
    resolve (w_cwd w) (ctw_filename (worksheet_name args)) = P ++ [b +:+ ".ctw.tgz"] /\
    ¬ (P ++ [b]) `prefix_of` (P ++ [b +:+ ".ctw.tgz"]) /\
    w_fs w !! (P ++ [b]) = None /\
    w_fs w' = remove_tree (P ++ [b])
      (<[P ++ [b +:+ ".ctw.tgz"] :=
         NFile (CTgz (tar_members b (P ++ [b]) (P ++ [b +:+ ".ctw.tgz"])
                        (staged_fs (P ++ [b]) pr (w_fs w))))]>
       (staged_fs (P ++ [b]) pr (w_fs w))).
Proof.
  intros _ Hb [(e & [=] & _)|(pr & w1 & Hg & Hd & Hexp)]%from_scanpy_split.
  injection Hd as Hfs1 Hcwd1 _.
  destruct (export_worksheet_ok_inv _ _ _ _ Hb Hexp) as [HS ->].
  rewrite Hcwd1, Hfs1 in *.
  destruct (staging_archive_paths (w_cwd w) (worksheet_name args) Hb) as (P & HSP & HOP & Hnp).
  exists pr, P. rewrite HSP, HOP in *. rewrite Hg, set_fs_fs. by split_and!.
Qed.

(** C1: a successful [from_scanpy] leaves the archive
    [<worksheet_name>.ctw.tgz] beside the place of the staging directory,
    holding exactly the staged worksheet (the directory and its five
    product files) under the directory's base name; the staging directory
    and everything below it are gone; every other entry of the file
    system is as before.  This needs the base name of the worksheet to be
    a proper component (not empty, [.] or [..]). *)
Theorem from_scanpy_ok args w w' :
  world_wf w -> proper_component (basename (worksheet_name args)) = true ->
  from_scanpy args w = (Ok tt, w') ->
  let S := resolve (w_cwd w) (worksheet_name args) in
  let O := resolve (w_cwd w) (ctw_filename (worksheet_name args)) in
  exists pr ms,
    (gather (scanpy_path args) (cluster_name args) (celltype_key args) w).1 = Ok pr /\
    w_fs w' !! O = Some (NFile (CTgz ms)) /\
    (forall name oc, (name, oc) ∈ ms <->
       exists rel n, staged_tree pr !! rel = Some n /\
         name = arc_name (basename (worksheet_name args)) rel /\ oc = node_content n) /\
    (forall q, S `prefix_of` q -> w_fs w' !! q = None) /\
    (forall q, q <> O -> ¬ S `prefix_of` q -> w_fs w' !! q = w_fs w !! q).
Proof.
  intros Hw Hb H. pose proof (proj1 Hw) as Hwf.
  destruct (from_scanpy_ok_inv args w w' Hw Hb H) as (pr & P & Hg & HSP & HOP & Hnp & HS & ->).
  cbv zeta. rewrite HSP, HOP.
  eexists pr, _. split_and!; [done| | | |].
  - rewrite remove_tree_lookup_out by done. by rewrite lookup_insert_eq.
  - intros name oc. rewrite elem_of_tar_members. f_equiv. intros rel. f_equiv. intros n.
    rewrite staged_lookup by done. split; [naive_solver|].
    intros (? & ? & ?). split_and!; [done| |done..].
    by apply not_prefix_app_ne.
  - intros q Hq. by apply remove_tree_lookup_in.
  - intros q Hq Hpre. rewrite remove_tree_lookup_out, lookup_insert_ne by done.
    by apply staged_fs_outside.
Qed.

(** An error of [gather] is the error of the command. *)
Lemma from_scanpy_gather_err args w e w1 :
  gather (scanpy_path args) (cluster_name args) (celltype_key args) w = (Err e, w1) ->
  from_scanpy args w = (Err e, w1) /\ disk w1 = disk w.
Proof.
  intros Hg. unfold from_scanpy. rewrite (est_bind_err _ _ _ _ _ Hg). split; [done|].
  pose proof (gather_disk (scanpy_path args) (cluster_name args) (celltype_key args) w) as Hd.
  by rewrite Hg in Hd.
Qed.

(** Every path of the staged worksheet is made of proper components. *)
Lemma staged_tree_proper pr rel n :
  staged_tree pr !! rel = Some n -> Forall (fun c => proper_component c = true) rel.
Proof.
  unfold staged_tree. intros [Hr|(e & He & ->)]%write_entries_lookup_Some.
  - apply lookup_singleton_Some in Hr as [<- _]. constructor.
  - constructor; [|constructor].
    exact (proj1 (Forall_forall _ _) (worksheet_files_proper _ _ _ _ _) e He).
Qed.

(** C4: round-trip fidelity (spec 8).  After a successful [from_scanpy],
    extracting the archive [<worksheet_name>.ctw.tgz] into any directory
    [dest] with nothing at [dest/<basename>] recreates there exactly the
    staged worksheet: the same entries, directories and files, with the
    same contents. *)
Theorem from_scanpy_archive_round_trip args w w' dest fs0 :
  world_wf w -> proper_component (basename (worksheet_name args)) = true ->
  from_scanpy args w = (Ok tt, w') ->
  (forall rel, fs0 !! (dest ++ basename (worksheet_name args) :: rel) = None) ->
  exists pr ms,
    (gather (scanpy_path args) (cluster_name args) (celltype_key args) w).1 = Ok pr /\
    w_fs w' !! resolve (w_cwd w) (ctw_filename (worksheet_name args)) = Some (NFile (CTgz ms)) /\
    forall rel, extract dest ms fs0 !! (dest ++ basename (worksheet_name args) :: rel)
                = staged_tree pr !! rel.
Proof.
  intros Hw Hb H Hfresh. pose proof (proj1 Hw) as Hwf.
  destruct (from_scanpy_ok_inv args w w' Hw Hb H) as (pr & P & Hg & HSP & HOP & Hnp & HS & ->).
  rewrite HOP. eexists pr, _. split_and!; [done| |].
  - rewrite remove_tree_lookup_out by done. by rewrite lookup_insert_eq.
  - intros rel. erewrite (proj1 (tar_members_round_trip _ _ _ _ dest Hb _ fs0 Hfresh)).
    + by rewrite staged_lookup.
    + by apply not_prefix_app_ne.
    Unshelve. intros r n. rewrite staged_lookup by done. apply staged_tree_proper.
Qed.

(** C8: when gathering the products fails (unreadable dataset, missing
    column, missing embedding), [from_scanpy] raises that error and the
    file system is exactly as before: no staging directory, no partial
    file, no archive. *)
Theorem from_scanpy_gather_fail args w e w1 :
  gather (scanpy_path args) (cluster_name args) (celltype_key args) w = (Err e, w1) ->
  from_scanpy args w = (Err e, w1) /\ w_fs w1 = w_fs w.
Proof.
  intros [H Hd]%from_scanpy_gather_err. split; [done|]. by injection Hd.
Qed.

(** C25: on a dataset without the ["X_umap"] embedding (the other inputs
    being fine), [from_scanpy] raises [MissingEmbeddingError "X_umap"] and
    writes nothing. *)
Theorem from_scanpy_missing_umap args w ad m :
  scanpy_path args <> "" ->
  w_fs w !! resolve (w_cwd w) (scanpy_path args) = Some (NFile (CH5ad ad)) ->
  celltype_mapping ad (cluster_name args) (celltype_key args) = Ok m ->
  umap_key ∉ (obsm ad).*1 ->
  exists w', from_scanpy args w = (Err (MissingEmbeddingError umap_key), w') /\
             w_fs w' = w_fs w.
Proof.
  intros Hs Hread Hm Hu.
  assert (exists w1, gather (scanpy_path args) (cluster_name args) (celltype_key args) w
                     = (Err (MissingEmbeddingError umap_key), w1)) as [w1 Hg].
  { unfold gather. rewrite est_bind_run. unfold print at 1, modify.
    rewrite est_bind_run, (readh5ad_ok _ ad) by done.
    unfold get_xys. run_simpl. rewrite Hm. simpl.
    rewrite (proj2 (assoc_None _ _) Hu). by eexists. }
  exists w1. destruct (from_scanpy_gather_err args w _ w1 Hg) as [H Hd].
  split; [done|]. by injection Hd.
Qed.

(** C7: when the staging directory (or any entry of that name) already
    exists, [from_scanpy] fails without touching the file system: the
    error is [DirectoryExistsError] naming it, unless gathering failed
    first. *)
Theorem from_scanpy_dir_exists args w n :
  worksheet_name args <> "" ->
  resolve (w_cwd w) (worksheet_name args) ∉ w_faults w ->
  w_fs w !! resolve (w_cwd w) (worksheet_name args) = Some n ->
  exists e w', from_scanpy args w = (Err e, w') /\ w_fs w' = w_fs w /\
    (e = DirectoryExistsError (worksheet_name args) \/
     (gather (scanpy_path args) (cluster_name args) (celltype_key args) w).1 = Err e).
Proof.
  intros Hs Hf Hn. pose proof (gather_disk (scanpy_path args) (cluster_name args) (celltype_key args) w) as Hd.
  destruct (gather _ _ _ w) as [[pr|e] w1] eqn:Hg.
  - injection Hd as Hfs1 Hcwd1 Hf1. simpl in *.
    exists (DirectoryExistsError (worksheet_name args)), w1.
    unfold from_scanpy. rewrite (est_bind_ok _ _ _ _ _ Hg).
    unfold export_worksheet, make_dir_or_complain.
    rewrite (est_bind_err _ _ _ _ _ (mkdir_exists _ _ n Hs ltac:(by rewrite Hcwd1, Hf1)
                                       ltac:(by rewrite Hcwd1, Hfs1))).
    split_and!; [done|done|by left].
  - exists e, w1. destruct (from_scanpy_gather_err args w e w1 Hg) as [H Hd'].
    injection Hd'. naive_solver.
Qed.

(** ** The other commands *)

(** ** What [gather] computes *)

(** Every dataset file of the world is a well-formed AnnData object. *)
Definition datasets_wf (w : world) : Prop :=
  forall p ad, w_fs w !! p = Some (NFile (CH5ad ad)) -> anndata_wf ad.

Definition datasets_wfb (w : world) : bool :=
  forallb (fun pn => match pn.2 with NFile (CH5ad ad) => anndata_wfb ad | _ => true end)
    (map_to_list (w_fs w)).

Lemma datasets_wfb_sound w : datasets_wfb w = true -> datasets_wf w.
Proof.
  intros H p ad Hp. apply forallb_forall with (x := (p, NFile (CH5ad ad))) in H;
    [by apply anndata_wfb_sound|by apply list_elem_of_In, elem_of_map_to_list].
Qed.

(** A successful [gather] read one dataset and took each product from the
    accessor the code calls (cli.py 28-40). *)
Lemma gather_ok_inv sp cn ck w pr w' :
  gather sp cn ck w = (Ok pr, w') ->
  exists ad, w_fs w !! resolve (w_cwd w) sp = Some (NFile (CH5ad ad)) /\
    celltype_mapping ad cn ck = Ok (pr_mapping pr) /\
    get_xys ad umap_key = Ok (pr_xys pr) /\
    run_pipe ad cn = Ok (pr_markers pr) /\
    get_obs ad cn = Ok (pr_clustering pr) /\
    pr_exp pr = get_expression ad (has_raw ad).
Proof.
  unfold gather. rewrite est_bind_run. unfold print at 1, modify.
  rewrite est_bind_run.
  destruct (readh5ad sp _) as [[ad|e] w1] eqn:Hr; [|done].
  apply readh5ad_ok_inv in Hr as (-> & _ & Hr). simpl in Hr.
  unfold lift, print, modify. simpl.
  destruct (celltype_mapping ad cn ck) eqn:Hm; [|done]. simpl.
  destruct (get_xys ad umap_key) eqn:Hx; [|done]. simpl.
  destruct (run_pipe ad cn) eqn:Hp; [|done]. simpl.
  destruct (get_obs ad cn) eqn:Ho; [|done]. simpl.
  intros [= <- _]. exists ad. by split_and!.
Qed.

(** C20: the marker table [from_scanpy] gathers has one group per distinct
    cluster label of the dataset it read, in the order of first
    appearance; each group is sorted by decreasing score and is a
    permutation of the per-gene rows of that cluster. *)
Theorem gather_markers_ranked sp cn ck w pr w' :
  gather sp cn ck w = (Ok pr, w') ->
  exists ad cl, w_fs w !! resolve (w_cwd w) sp = Some (NFile (CH5ad ad)) /\
    obs_column ad cn = Ok cl /\
    (pr_markers pr).*1 = uniq_first [] cl /\
    forall c rows, (c, rows) ∈ pr_markers pr ->
      Sorted score_desc rows /\ rows ≡ₚ gene_rows (marker_matrix ad) (var_names ad) cl c.
Proof.
  intros (ad & Hr & _ & _ & Hp & _ & _)%gather_ok_inv.
  destruct (obs_column ad cn) as [cl|e] eqn:Hcl;
    [|by apply run_pipe_error in Hcl; rewrite Hcl in Hp].
  destruct (run_pipe_spec ad cn cl _ Hcl Hp) as [H1 H2].
  exists ad, cl. split_and!; [done..|]. intros c rows Hin.
  by destruct (H2 c rows Hin) as (? & ? & _).
Qed.

(** C21: the cell-type mapping [from_scanpy] gathers gives every
    cluster of the dataset, in the order of first appearance, the
    annotation most frequent among its cells (the majority vote of spec
    4.1), ties broken by first-encountered order: every annotation met
    earlier among the cluster's cells is strictly less frequent. *)
Theorem gather_mapping_majority sp cn ck w pr w' :
  datasets_wf w -> gather sp cn ck w = (Ok pr, w') ->
  exists ad cl ct, w_fs w !! resolve (w_cwd w) sp = Some (NFile (CH5ad ad)) /\
    obs_column ad cn = Ok cl /\ obs_column ad ck = Ok ct /\
    (pr_mapping pr).*1 = uniq_first [] cl /\
    forall c t, (c, t) ∈ pr_mapping pr ->
      exists i, members_annot c cl ct !! i = Some t /\
        (forall t', count_in t' (members_annot c cl ct) <= count_in t (members_annot c cl ct)) /\
        (forall j t', j < i -> members_annot c cl ct !! j = Some t' ->
           count_in t' (members_annot c cl ct) < count_in t (members_annot c cl ct)).
Proof.
  intros Hds (ad & Hr & Hm & _)%gather_ok_inv.
  destruct (celltype_mapping_columns _ _ _ _ Hm) as (cl & ct & Hcl & Hct).
  destruct (celltype_mapping_majority ad cn ck cl ct _ (Hds _ _ Hr) Hcl Hct Hm) as [H1 H2].
  exists ad, cl, ct. split_and!; [done..|]. intros c t Hin.
  destruct (H2 c t Hin) as [(i & Hi & Hlt & _) Hmax]. by exists i.
Qed.

(** C22: the clustering, the UMAP coordinates and the expression matrix
    [from_scanpy] gathers are indexed by exactly the cells of the dataset,
    in order; the clustering carries the labels of the [cluster_name]
    column and the coordinates those of the ["X_umap"] embedding. *)
Theorem gather_cells_covered sp cn ck w pr w' :
  datasets_wf w -> gather sp cn ck w = (Ok pr, w') ->
  exists ad, w_fs w !! resolve (w_cwd w) sp = Some (NFile (CH5ad ad)) /\
    (pr_clustering pr).*1 = obs_names ad /\ (cn, (pr_clustering pr).*2) ∈ obs ad /\
    (pr_xys pr).*1 = obs_names ad /\ (umap_key, (pr_xys pr).*2) ∈ obsm ad /\
    exp_cells (pr_exp pr) = obs_names ad.
Proof.
  intros Hds (ad & Hr & _ & Hx & _ & Ho & He)%gather_ok_inv.
  pose proof (Hds _ _ Hr) as Hwf.
  destruct (get_obs_covers_cells ad cn _ Hwf Ho) as [Ho1 Ho2].
  pose proof (get_xys_spec ad umap_key Hwf) as Hxs. rewrite Hx in Hxs.
  exists ad. rewrite He. by destruct Hxs.
Qed.

(** C23: the expression matrix [from_scanpy] exports is the raw matrix when
    the dataset has one ([use_raw = has_raw(ad)], cli.py 32 and 40), and
    the normalised one otherwise, with the dataset's cell and gene
    names. *)
Theorem gather_expression_raw sp cn ck w pr w' :
  gather sp cn ck w = (Ok pr, w') ->
  exists ad, w_fs w !! resolve (w_cwd w) sp = Some (NFile (CH5ad ad)) /\
    pr_exp pr = mk_expression (obs_names ad) (var_names ad) (default (X ad) (raw ad)).
Proof.
  intros (ad & Hr & _ & _ & _ & _ & He)%gather_ok_inv.
  exists ad. rewrite He. unfold get_expression, has_raw. by destruct (raw ad).
Qed.

(** C26: on a dataset without the [cluster_name] column, [from_scanpy]
    raises [ConfigurationError] naming the column and writes nothing. *)
Theorem from_scanpy_missing_cluster args w ad :
  scanpy_path args <> "" ->
  w_fs w !! resolve (w_cwd w) (scanpy_path args) = Some (NFile (CH5ad ad)) ->
  cluster_name args ∉ obs_keys ad ->
  exists w', from_scanpy args w = (Err (ConfigurationError (cluster_name args)), w') /\
             w_fs w' = w_fs w.
Proof.
  intros Hs Hread Hn.
  assert (exists w1, gather (scanpy_path args) (cluster_name args) (celltype_key args) w
                     = (Err (ConfigurationError (cluster_name args)), w1)) as [w1 Hg].
  { unfold gather. rewrite est_bind_run. unfold print at 1, modify.
    rewrite est_bind_run, (readh5ad_ok _ ad) by done.
    unfold lift. simpl. rewrite celltype_mapping_missing_cluster by done. by eexists. }
  exists w1. destruct (from_scanpy_gather_err args w _ w1 Hg) as [H Hd].
  split; [done|]. by injection Hd.
Qed.

Lemma write_all_worksheet_cwd name xys exp cl mk ct w w' :
  write_all_worksheet name xys exp cl mk ct w = (Ok tt, w') -> w_cwd w' = w_cwd w.
Proof.
  unfold write_all_worksheet.
  repeat match goal with
  | |- (write_file ?s ?c ≫= _) ?w0 = _ -> _ =>
      rewrite est_bind_run;
      let H := fresh in
      destruct (write_file s c w0) as [[[]|?] ?] eqn:H; [|done];
      apply write_file_ok_inv in H as [_ ->]
  end.
  by intros [_ ->]%write_file_ok_inv.
Qed.

(** C10 (defect): when the worksheet name ends in a slash (["ws/"]), a run
    of [from_scanpy] that reports success leaves no archive at
    [<worksheet_name>.ctw.tgz]: that path (["ws/.ctw.tgz"]) lies inside the
    staging directory, so [delete_dir] removes the archive with it. *)
Theorem from_scanpy_trailing_slash_no_archive args w w' :
  ends_with_slash (worksheet_name args) = true ->
  from_scanpy args w = (Ok tt, w') ->
  w_fs w' !! resolve (w_cwd w) (ctw_filename (worksheet_name args)) = None.
Proof.
  intros Hend. destruct (ends_with_slash_inv _ Hend) as [q Hq].
  intros [(e & [=] & _)|(pr & w1 & _ & Hd & Hexp)]%from_scanpy_split.
  injection Hd as _ Hc1 _. revert Hexp.
  unfold export_worksheet, make_dir_or_complain, delete_dir.
  rewrite est_bind_run. destruct (mkdir _ w1) as [[[]|?] w2] eqn:H2; [|done].
  apply mkdir_ok_inv in H2 as (_ & _ & ->).
  rewrite est_bind_run. destruct (write_all_worksheet _ _ _ _ _ _ _) as [[[]|?] w3] eqn:H3; [|done].
  apply write_all_worksheet_cwd in H3.
  rewrite est_bind_run. destruct (make_tarfile _ _ _) as [[[]|?] w4] eqn:H4; [|done].
  apply make_tarfile_ok_inv in H4 as [_ ->].
  intros ->%rmtree_ok_inv. simpl. simpl in H3. rewrite H3, Hc1.
  apply remove_tree_lookup_in. unfold ctw_filename. rewrite Hq.
  rewrite resolve_trailing_slash by done. by apply prefix_app_r.
Qed.

(** Each command preserves [world_wf], on success and on error. *)
(** C11 (defect): a run with a worksheet name ending in a slash that
    reports success leaves the disk exactly as it found it: the file
    system, the working directory and the fault set are those it started
    from.  The staging directory and the archive written inside it are
    both removed by [delete_dir], so the command succeeds and produces
    nothing. *)
Theorem from_scanpy_slash_run_changes_nothing args w w' :
  world_wf w -> ends_with_slash (worksheet_name args) = true ->
  from_scanpy args w = (Ok tt, w') -> disk w' = disk w.
Proof.
  intros [Hwf _] Hend. destruct (ends_with_slash_inv _ Hend) as [q Hq].
  intros [(e & [=] & _)|(pr & w1 & _ & Hd & Hexp)]%from_scanpy_split.
  injection Hd as Hfs1 Hc1 Hf1. revert Hexp.
  unfold export_worksheet, make_dir_or_complain, delete_dir.
  rewrite est_bind_run. destruct (mkdir _ w1) as [[[]|?] w2] eqn:H2; [|done].
  apply mkdir_ok_inv in H2 as (_ & HS & ->).
  rewrite est_bind_run. destruct (write_all_worksheet _ _ _ _ _ _ _) as [[[]|?] w3] eqn:H3; [|done].
  apply write_all_worksheet_ok_inv in H3 as ->.
  rewrite est_bind_run. destruct (make_tarfile _ _ _) as [[[]|?] w4] eqn:H4; [|done].
  apply make_tarfile_ok_inv in H4 as [_ ->].
  intros ->%rmtree_ok_inv. unfold disk, set_fs. cbn [w_fs w_cwd w_faults]. rewrite Hc1, Hf1.
  apply (f_equal (fun fs => (fs, w_cwd w, w_faults w))).
  rewrite <- Hfs1. rewrite Hc1 in HS.
  set (S := resolve (w_cwd w) (worksheet_name args)) in *.
  assert (resolve (w_cwd w) (ctw_filename (worksheet_name args)) = S ++ [".ctw.tgz"]) as HO.
  { unfold ctw_filename, S. rewrite Hq. by apply resolve_trailing_slash. }
  rewrite HO. apply map_eq. intros p.
  destruct (decide (S `prefix_of` p)) as [Hp|Hp].
  - rewrite remove_tree_lookup_in by done. symmetry.
    eapply fs_wf_below_absent; [rewrite Hfs1; exact Hwf|exact HS|exact Hp].
  - rewrite remove_tree_lookup_out by done.
    rewrite lookup_insert_ne by (intros Heq; apply Hp; rewrite <- Heq; by apply prefix_app_r).
    rewrite write_entries_lookup_outside by done.
    rewrite lookup_insert_ne; [done|]. intros ->. by apply Hp.
Qed.

Lemma from_scanpy_wf args : preserves world_wf (from_scanpy args).
Proof. unfold from_scanpy, gather, export_worksheet, make_dir_or_complain, delete_dir. preserves_auto. Qed.

(** C5: the staging directory is deleted only after the archive was
    written.  When the export fails in [make_tarfile] (an [ArchiveError],
    which no other step of the export raises), the staging directory is
    left in place holding the whole staged worksheet. *)
Theorem from_scanpy_archive_fail_keeps_staging args w pr w1 x w' :
  world_wf w -> proper_component (basename (worksheet_name args)) = true ->
  gather (scanpy_path args) (cluster_name args) (celltype_key args) w = (Ok pr, w1) ->
  from_scanpy args w = (Err (ArchiveError x), w') ->
  forall rel, w_fs w' !! (resolve (w_cwd w) (worksheet_name args) ++ rel) = staged_tree pr !! rel.
Proof.
  intros [Hwf _] Hb Hg. unfold from_scanpy. rewrite (est_bind_ok _ _ _ _ _ Hg).
  pose proof (gather_disk (scanpy_path args) (cluster_name args) (celltype_key args) w) as Hd.
  rewrite Hg in Hd. injection Hd as Hfs1 Hcwd1 _.
  intros [(e & [= <-] & He)|[HS H]]%export_worksheet_staging; [destruct He| |done].
  revert H. rewrite Hcwd1, Hfs1 in *. rewrite est_bind_run.
  destruct (make_tarfile _ _ _) as [[[]|e] w4] eqn:H4.
  - intros Hr. exfalso. exact (rmtree_not_archive _ _ _ _ Hr).
  - intros [= -> ->] rel. apply make_tarfile_err_inv in H4 as [[_ ->]|(_ & _ & ->)]; simpl.
    + by apply staged_lookup.
    + destruct (staging_archive_paths (w_cwd w) (worksheet_name args) Hb)
        as (P & HSP & HOP & Hnp).
      rewrite lookup_insert_ne; [by apply staged_lookup|].
      simpl. rewrite Hcwd1, HSP, HOP. apply not_eq_sym. by apply not_prefix_app_ne.
Qed.

(** ** Runs on concrete worlds *)

(** The dataset [data.h5ad] of [Dataset.demo_ad] in an otherwise empty root. *)
Definition demo_world : world :=
  mk_world {[ [] := NDir; ["data.h5ad"] := NFile (CH5ad demo_ad) ]} [] ∅ [] true [] [].

Definition demo_args : from_scanpy_args := from_scanpy_defaults "ws" "data.h5ad".

Lemma demo_world_wf : world_wf demo_world.
Proof. apply world_wfb_sound. reflexivity. Qed.

Lemma from_scanpy_ok_witness :
  (from_scanpy demo_args demo_world).1 = Ok tt /\
  (exists ms, w_fs (from_scanpy demo_args demo_world).2 !! ["ws.ctw.tgz"] = Some (NFile (CTgz ms))) /\
  (forall q, ["ws"] `prefix_of` q -> w_fs (from_scanpy demo_args demo_world).2 !! q = None).
Proof.
  assert (from_scanpy demo_args demo_world = (Ok tt, (from_scanpy demo_args demo_world).2))
    as Hrun by (vm_compute; reflexivity).
  destruct (from_scanpy_ok demo_args demo_world _ demo_world_wf eq_refl Hrun)
    as (pr & ms & _ & HO & _ & HS & _).
  split_and!; [by rewrite Hrun|by exists ms|exact HS].
Defined.

(** The same run with the worksheet name ["ws/"]. *)
Definition demo_args_slash : from_scanpy_args := from_scanpy_defaults "ws/" "data.h5ad".

Lemma from_scanpy_trailing_slash_no_archive_witness :
  from_scanpy demo_args_slash demo_world =
    (Ok tt, (from_scanpy demo_args_slash demo_world).2) /\
  w_fs (from_scanpy demo_args_slash demo_world).2 !! ["ws"; ".ctw.tgz"] = None.
Proof.
  assert (from_scanpy demo_args_slash demo_world =
            (Ok tt, (from_scanpy demo_args_slash demo_world).2))
    as Hrun by (vm_compute; reflexivity).
  split; [exact Hrun|].
  exact (from_scanpy_trailing_slash_no_archive demo_args_slash demo_world _ eq_refl Hrun).
Defined.

Lemma from_scanpy_slash_run_changes_nothing_witness :
  (from_scanpy demo_args_slash demo_world).1 = Ok tt /\
  disk (from_scanpy demo_args_slash demo_world).2 = disk demo_world.
Proof.
  assert (from_scanpy demo_args_slash demo_world =
            (Ok tt, (from_scanpy demo_args_slash demo_world).2))
    as Hrun by (vm_compute; reflexivity).
  split; [by rewrite Hrun|].
  exact (from_scanpy_slash_run_changes_nothing demo_args_slash demo_world _ demo_world_wf eq_refl Hrun).
Defined.

(** The archive path is a place where writing fails. *)
Definition demo_world_fault : world :=
  mk_world (w_fs demo_world) [] {[ ["ws.ctw.tgz"] ]} [] true [] [].

Lemma from_scanpy_archive_fail_keeps_staging_witness :
  (from_scanpy demo_args demo_world_fault).1 = Err (ArchiveError "ws.ctw.tgz") /\
  exists pr, (gather "data.h5ad" "louvain" "scorect" demo_world_fault).1 = Ok pr /\
    forall rel, w_fs (from_scanpy demo_args demo_world_fault).2 !! (["ws"] ++ rel)
                = staged_tree pr !! rel.
Proof.
  split; [vm_compute; reflexivity|].
  destruct (gather "data.h5ad" "louvain" "scorect" demo_world_fault) as [[pr|e] w1] eqn:Hg;
    [|vm_compute in Hg; discriminate].
  exists pr. split; [done|]. intros rel.
  refine (from_scanpy_archive_fail_keeps_staging demo_args demo_world_fault pr w1
            "ws.ctw.tgz" (from_scanpy demo_args demo_world_fault).2 _ eq_refl Hg _ rel).
  - apply world_wfb_sound. reflexivity.
  - vm_compute. reflexivity.
Defined.

(** A world where the staging directory [ws] already exists. *)
Definition demo_world_dir : world :=
  mk_world (<[["ws"] := NDir]> (w_fs demo_world)) [] ∅ [] true [] [].

Lemma from_scanpy_dir_exists_witness :
  (from_scanpy demo_args demo_world_dir).1 = Err (DirectoryExistsError "ws") /\
  w_fs (from_scanpy demo_args demo_world_dir).2 = w_fs demo_world_dir.
Proof.
  split; [vm_compute; reflexivity|].
  destruct (from_scanpy_dir_exists demo_args demo_world_dir NDir ltac:(discriminate)
              (not_elem_of_empty _) eq_refl) as (e & w' & Hr & Hfs & _).
  by rewrite Hr.
Defined.

(** A cluster column the dataset does not have. *)
Definition demo_args_leiden : from_scanpy_args :=
  mk_from_scanpy_args "ws" "data.h5ad" "leiden" "scorect".

Lemma from_scanpy_gather_fail_witness :
  (from_scanpy demo_args_leiden demo_world).1 = Err (ConfigurationError "leiden") /\
  w_fs (from_scanpy demo_args_leiden demo_world).2 = w_fs demo_world.
Proof.
  destruct (from_scanpy_gather_fail demo_args_leiden demo_world (ConfigurationError "leiden")
              (gather "data.h5ad" "leiden" "scorect" demo_world).2
              ltac:(vm_compute; reflexivity)) as [Hr Hfs].
  by rewrite Hr.
Defined.

(** The dataset without its embedding. *)
Definition demo_ad_no_umap : anndata :=
  mk_anndata (obs_names demo_ad) (var_names demo_ad) (obs demo_ad) [] (X demo_ad) (raw demo_ad).

Definition demo_world_no_umap : world :=
  mk_world {[ [] := NDir; ["data.h5ad"] := NFile (CH5ad demo_ad_no_umap) ]} [] ∅ [] true [] [].

Lemma from_scanpy_missing_umap_witness :
  exists w', from_scanpy demo_args demo_world_no_umap = (Err (MissingEmbeddingError "X_umap"), w') /\
             w_fs w' = w_fs demo_world_no_umap.
Proof.
  exact (from_scanpy_missing_umap demo_args demo_world_no_umap demo_ad_no_umap
           [("A", "T"); ("B", "B")] ltac:(discriminate) eq_refl eq_refl (not_elem_of_nil _)).
Defined.

Lemma demo_datasets_wf : datasets_wf demo_world.
Proof. apply datasets_wfb_sound. reflexivity. Qed.

Lemma gather_markers_ranked_witness :
  exists pr, (gather "data.h5ad" "louvain" "scorect" demo_world).1 = Ok pr /\
             (pr_markers pr).*1 = ["A"; "B"].
Proof.
  destruct (gather "data.h5ad" "louvain" "scorect" demo_world) as [[pr|e] w1] eqn:Hg;
    [|vm_compute in Hg; discriminate].
  exists pr. split; [done|].
  destruct (gather_markers_ranked _ _ _ _ _ _ Hg) as (ad & cl & Hr & Hcl & H1 & _).
  vm_compute in Hr. injection Hr as <-. vm_compute in Hcl. injection Hcl as <-.
  rewrite H1. vm_compute. reflexivity.
Defined.

Lemma gather_mapping_majority_witness :
  exists pr, (gather "data.h5ad" "louvain" "scorect" demo_world).1 = Ok pr /\
             (pr_mapping pr).*1 = ["A"; "B"].
Proof.
  destruct (gather "data.h5ad" "louvain" "scorect" demo_world) as [[pr|e] w1] eqn:Hg;
    [|vm_compute in Hg; discriminate].
  exists pr. split; [done|].
  destruct (gather_mapping_majority _ _ _ _ _ _ demo_datasets_wf Hg)
    as (ad & cl & ct & Hr & Hcl & _ & H1 & _).
  vm_compute in Hr. injection Hr as <-. vm_compute in Hcl. injection Hcl as <-.
  rewrite H1. vm_compute. reflexivity.
Defined.

Lemma gather_cells_covered_witness :
  exists pr, (gather "data.h5ad" "louvain" "scorect" demo_world).1 = Ok pr /\
             (pr_clustering pr).*1 = ["c1"; "c2"; "c3"; "c4"] /\
             (pr_xys pr).*1 = ["c1"; "c2"; "c3"; "c4"].
Proof.
  destruct (gather "data.h5ad" "louvain" "scorect" demo_world) as [[pr|e] w1] eqn:Hg;
    [|vm_compute in Hg; discriminate].
  exists pr. split; [done|].
  destruct (gather_cells_covered _ _ _ _ _ _ demo_datasets_wf Hg)
    as (ad & Hr & H1 & _ & H2 & _).
  vm_compute in Hr. injection Hr as <-. by rewrite H1, H2.
Defined.

Lemma gather_expression_raw_witness :
  exists pr, (gather "data.h5ad" "louvain" "scorect" demo_world).1 = Ok pr /\
             exp_values (pr_exp pr) = X demo_ad.
Proof.
  destruct (gather "data.h5ad" "louvain" "scorect" demo_world) as [[pr|e] w1] eqn:Hg;
    [|vm_compute in Hg; discriminate].
  exists pr. split; [done|].
  destruct (gather_expression_raw _ _ _ _ _ _ Hg) as (ad & Hr & H1).
  vm_compute in Hr. injection Hr as <-. rewrite H1. reflexivity.
Defined.

Lemma from_scanpy_missing_cluster_witness :
  exists w', from_scanpy demo_args_leiden demo_world = (Err (ConfigurationError "leiden"), w') /\
             w_fs w' = w_fs demo_world.
Proof.
  exact (from_scanpy_missing_cluster demo_args_leiden demo_world demo_ad
           ltac:(discriminate) eq_refl (proj1 (assoc_None "leiden" (obs demo_ad)) eq_refl)).
Defined.

Lemma from_scanpy_archive_round_trip_witness :
  exists ms, w_fs (from_scanpy demo_args demo_world).2 !! ["ws.ctw.tgz"] = Some (NFile (CTgz ms)) /\
    extract [] ms ∅ !! ["ws"; "clustering.tab"] =
      Some (NFile (CProduct (PClustering [("c1", "A"); ("c2", "B"); ("c3", "A"); ("c4", "A")]))).
Proof.
  assert (from_scanpy demo_args demo_world = (Ok tt, (from_scanpy demo_args demo_world).2))
    as Hrun by (vm_compute; reflexivity).
  destruct (from_scanpy_archive_round_trip demo_args demo_world _ [] ∅ demo_world_wf eq_refl Hrun
              (fun rel => lookup_empty _)) as (pr & ms & Hg & Hms & Hx).
  exists ms. split; [exact Hms|].
  etrans; [exact (Hx ["clustering.tab"])|].
  vm_compute in Hg. injection Hg as <-. vm_compute. reflexivity.
Defined.
