(* ===== verification/Pipeline.v ===== *)
(** * Pipeline: the two halves of [gather] and the cleanup failure

    [gather] (cli.py 27-40) is an extraction, lines 27-33 ([extract_part]:
    read the dataset, compute the cell-type mapping, read the UMAP
    embedding), followed by the marker computation, lines 35-40
    ([markers_part]).  The lemmas here show that only the extraction can
    raise, and only the exceptions spec 7 lists for it ([extract_error]):
    once the mapping was computed the cluster column exists, so
    [run_pipe] and [get_obs] cannot fail.

    With this, the theorem [from_scanpy_cleanup_fail_keeps_archive]
    reads the order of cli.py 47-48 off a [CleanupError]: the archive was
    written before [delete_dir] ran.

    Spec 4.5 describes a run as a walk through the stages [START ->
    EXTRACT -> COMPUTE_MARKERS -> STAGE_WRITE -> ARCHIVE -> CLEANUP ->
    DONE].  The code has no such machine: [from_scanpy] runs its calls in
    sequence.  The development states instead what each outcome leaves
    on the disk ([Cli] and [Progress]). *)

From Stdlib Require Import ZArith.
From S2P Require Import Prelude Paths Dataset Markers FileSystem Tar Cli.

(** ** The two halves of [gather] *)

(** cli.py 27-33. *)
Definition extract_part (sp cn ck : string)
  : M (anndata * list (string * string) * list (string * (Z * Z))) :=
  print (LMsg "reading in data...");;
  ad ← readh5ad sp;
  print (LMsg "Attempt to gather cell type mapping");;
  mapping ← lift (celltype_mapping ad cn ck);
  print (LPreview (take 5 mapping));;
  xys ← lift (get_xys ad umap_key);
  mret (ad, mapping, xys).

(** cli.py 35-40. *)
Definition markers_part (ad : anndata) (cn : string) (mapping : list (string * string))
    (xys : list (string * (Z * Z))) : M products :=
  print (LMsg "Running marker generation");;
  markers_df ← lift (run_pipe ad cn);
  clustering ← lift (get_obs ad cn);
  mret (mk_products mapping xys markers_df clustering (get_expression ad (has_raw ad))).

(** The exceptions of the extraction (spec 7): reading the dataset, a
    missing column, the missing embedding. *)
Definition extract_error (e : error) : Prop :=
  read_error e \/ (exists c, e = ConfigurationError c) \/ e = MissingEmbeddingError umap_key.

(** ** Lemmas *)

(** [gather] is the extraction followed by the marker stage. *)
Lemma gather_split sp cn ck w :
  gather sp cn ck w =
    ('(ad, mapping, xys) ← extract_part sp cn ck; markers_part ad cn mapping xys) w.
Proof.
  unfold gather, extract_part, markers_part, print, modify, lift, mbind, est_bind, mret, est_ret.
  simpl. repeat (case_match; simplify_eq/=); done.
Qed.

Lemma extract_part_raises sp cn ck : raises_only extract_error (extract_part sp cn ck).
Proof.
  unfold extract_part, print.
  apply raises_only_bind; [apply raises_only_modify|intros _].
  apply raises_only_bind; [|intros ad].
  { eapply raises_only_weaken; [apply readh5ad_raises|]. unfold extract_error. tauto. }
  apply raises_only_bind; [apply raises_only_modify|intros _].
  apply raises_only_bind; [|intros mapping].
  { apply raises_only_lift. intros e (c & ->)%celltype_mapping_err. unfold extract_error. eauto. }
  apply raises_only_bind; [apply raises_only_modify|intros _].
  apply raises_only_bind; [|intros xys]; [|apply raises_only_ret].
  apply raises_only_lift. intros e ->%get_xys_err. unfold extract_error. auto.
Qed.

(** Once the mapping was computed, the cluster column exists: the marker
    stage cannot fail. *)
Lemma extract_part_markers_ok sp cn ck w ad mapping xys w1 :
  extract_part sp cn ck w = (Ok (ad, mapping, xys), w1) ->
  exists pr w2, markers_part ad cn mapping xys w1 = (Ok pr, w2).
Proof.
  unfold extract_part, print, modify, lift, mbind, est_bind, mret, est_ret. simpl.
  repeat (case_match; simplify_eq/=); try done.
  intros [= -> -> -> <-].
  match goal with
  | H : celltype_mapping _ _ _ = Ok _ |- _ =>
      destruct (celltype_mapping_columns _ _ _ _ H) as (cl & ct & Hcl & _)
  end.
  unfold markers_part, print, modify, lift, mbind, est_bind, mret, est_ret. simpl.
  destruct (run_pipe ad cn) eqn:Hp; [|apply run_pipe_error in Hp; congruence].
  unfold get_obs. rewrite Hcl. simpl. eauto.
Qed.

(** [gather] raises only the exceptions of the extraction stage. *)
Lemma gather_raises sp cn ck : raises_only (extract_error) (gather sp cn ck).
Proof.
  intros w e w'. rewrite gather_split, est_bind_run.
  destruct (extract_part sp cn ck w) as [[[[ad m] x]|e1] w1] eqn:H1.
  - destruct (extract_part_markers_ok _ _ _ _ _ _ _ _ H1) as (pr & w2 & ->). done.
  - intros [= <- _]. by eapply extract_part_raises.
Qed.

(** ** The property *)

(** C6: [CleanupError] is raised only after the archive was written (spec
    4.4 and 7): when [from_scanpy] fails with [CleanupError], the archive
    [<worksheet_name>.ctw.tgz] is in place and the staging directory still
    holds the whole staged worksheet.  The second part rests on
    [delete_dir] removing all or nothing, as spec 4.4 requires of it. *)
Theorem from_scanpy_cleanup_fail_keeps_archive args w x w' :
  world_wf w -> proper_component (basename (worksheet_name args)) = true ->
  from_scanpy args w = (Err (CleanupError x), w') ->
  exists pr ms,
    (gather (scanpy_path args) (cluster_name args) (celltype_key args) w).1 = Ok pr /\
    w_fs w' !! resolve (w_cwd w) (ctw_filename (worksheet_name args)) = Some (NFile (CTgz ms)) /\
    forall rel, w_fs w' !! (resolve (w_cwd w) (worksheet_name args) ++ rel) = staged_tree pr !! rel.
Proof.
  intros [Hwf _] Hb.
  intros [(e & [= <-] & Hg & _)|(pr & w1 & Hg & Hd & Hexp)]%from_scanpy_split.
  { destruct (gather_raises _ _ _ _ _ _ Hg) as [[]|[[c [=]]|[=]]]. }
  injection Hd as Hfs1 Hcwd1 _. rewrite Hg.
  apply export_worksheet_staging in Hexp as [(e & [= <-] & [])|[HS H]]; [|done].
  revert H. rewrite Hcwd1, Hfs1 in *. rewrite est_bind_run.
  destruct (make_tarfile _ _ _) as [[[]|e] w4] eqn:H4;
    [|intros [= -> _]; by apply make_tarfile_err_inv in H4 as [[[=] _]|([=] & _)]].
  apply make_tarfile_ok_inv in H4 as [_ ->].
  intros Hr. pose proof (rmtree_atomic _ _ _ _ Hr) as ->. simpl. rewrite !Hcwd1.
  destruct (staging_archive_paths (w_cwd w) (worksheet_name args) Hb) as (P & HSP & HOP & Hnp).
  eexists pr, _. split_and!; [done|by rewrite lookup_insert_eq|].
  intros rel. rewrite lookup_insert_ne; [by apply staged_lookup|].
  rewrite HSP, HOP. apply not_eq_sym. by apply not_prefix_app_ne.
Qed.

(** ** On a concrete world *)

(** A path below the staging directory cannot be removed: [rmtree] fails. *)
Definition demo_world_cleanup : world :=
  mk_world (w_fs demo_world) [] {[ ["ws"; "lock"] ]} [] true [] [].

Lemma from_scanpy_cleanup_fail_keeps_archive_witness :
  (from_scanpy demo_args demo_world_cleanup).1 = Err (CleanupError "ws") /\
  exists ms, w_fs (from_scanpy demo_args demo_world_cleanup).2 !! ["ws.ctw.tgz"]
             = Some (NFile (CTgz ms)).
Proof.
  assert (from_scanpy demo_args demo_world_cleanup =
            (Err (CleanupError "ws"), (from_scanpy demo_args demo_world_cleanup).2))
    as Hrun by (vm_compute; reflexivity).
  split; [by rewrite Hrun|].
  destruct (from_scanpy_cleanup_fail_keeps_archive demo_args demo_world_cleanup "ws" _
              (world_wfb_sound demo_world_cleanup eq_refl) eq_refl Hrun) as (pr & ms & _ & Hms & _).
  by exists ms.
Defined.
