(* ===== verification/Progress.v ===== *)
(** * Progress: when [from_scanpy] succeeds, what it prints, what a failure leaves

    The theorems of [Cli] describe a run that has ended, successfully or
    not.  This file states the converse: conditions on the world under
    which [from_scanpy] (cli.py 19-48) does succeed.  These are a readable
    dataset with the two observation columns and the UMAP embedding, a
    fresh staging directory in an existing directory, an archive path
    that is not a directory, and no I/O fault at these places.  It also
    states:
    - what [gather] (cli.py 27-40) prints on success: three progress
      messages and the preview [mapping.head()] (cli.py 31), the first
      five rows of the mapping;
    - what a failure while staging (cli.py 43-44) leaves: the files
      written before the failing one, and no archive.

    The proofs run the program forward, one system call at a time, with
    the success lemmas of [FileSystem] and [Tar]. *)

From Stdlib Require Import ZArith.
From S2P Require Import Prelude Paths Dataset Markers FileSystem Tar Cli.

(** ** [gather], forward *)

(** [gather] on a dataset where every accessor succeeds: the products, and
    the four lines printed. *)
Lemma gather_run sp cn ck w ad mapping xys markers clustering :
  sp <> "" -> w_fs w !! resolve (w_cwd w) sp = Some (NFile (CH5ad ad)) ->
  celltype_mapping ad cn ck = Ok mapping -> get_xys ad umap_key = Ok xys ->
  run_pipe ad cn = Ok markers -> get_obs ad cn = Ok clustering ->
  gather sp cn ck w =
    (Ok (mk_products mapping xys markers clustering (get_expression ad (has_raw ad))),
     set_stdout (w_stdout w ++ [LMsg "reading in data..."; LMsg "Attempt to gather cell type mapping";
                               LPreview (take 5 mapping); LMsg "Running marker generation"]) w).
Proof.
  intros Hs Hd Hm Hx Hp Ho. unfold gather. rewrite est_bind_run. unfold print at 1, modify.
  rewrite est_bind_run, (readh5ad_ok sp ad) by done.
  unfold lift, print, modify. simpl. rewrite Hm, Hx, Hp, Ho.
  unfold mbind, est_bind, mret, est_ret. simpl. by rewrite <- !app_assoc.
Qed.

(** Each accessor [gather] calls succeeds when the columns it reads are
    present. *)
Lemma gather_ok sp cn ck w ad :
  sp <> "" -> w_fs w !! resolve (w_cwd w) sp = Some (NFile (CH5ad ad)) ->
  is_Some (assoc cn (obs ad)) -> is_Some (assoc ck (obs ad)) -> is_Some (assoc umap_key (obsm ad)) ->
  exists pr, gather sp cn ck w = (Ok pr, set_stdout (w_stdout w ++
    [LMsg "reading in data..."; LMsg "Attempt to gather cell type mapping";
     LPreview (take 5 (pr_mapping pr)); LMsg "Running marker generation"]) w).
Proof.
  intros Hs Hd [cl Hcl] [ct Hct] [xy Hxy].
  eexists (mk_products _ _ _ _ _). simpl. apply (gather_run sp cn ck w ad); [done|done|..];
    unfold celltype_mapping, get_xys, run_pipe, get_obs, obs_column; by rewrite ?Hcl, ?Hct, ?Hxy.
Qed.

(** ** The export, forward *)

Lemma insert_file_not_dir (fs : fsmap) p q c :
  fs !! q <> Some NDir -> <[p := NFile c]> fs !! q <> Some NDir.
Proof. destruct (decide (p = q)) as [->|]; [by rewrite lookup_insert_eq|by rewrite lookup_insert_ne]. Qed.

Lemma insert_child_keeps (fs : fsmap) S f n o :
  fs !! S = o -> <[S ++ [f] := n]> fs !! S = o.
Proof.
  intros H. rewrite lookup_insert_ne; [done|].
  intros Heq. apply (f_equal length) in Heq. rewrite length_app in Heq. simpl in Heq. lia.
Qed.

(** Writing [name/f] into an existing directory [name]. *)
Lemma write_file_join_ok name f c w :
  proper_component (basename name) = true -> proper_component f = true ->
  w_fs w !! resolve (w_cwd w) name = Some NDir ->
  resolve (w_cwd w) name ++ [f] ∉ w_faults w ->
  w_fs w !! (resolve (w_cwd w) name ++ [f]) <> Some NDir ->
  write_file (join name f) c w =
    (Ok tt, set_fs (<[resolve (w_cwd w) name ++ [f] := NFile c]> (w_fs w)) w).
Proof.
  intros Hb Hf Hd Hq Hn. rewrite <- (resolve_join (w_cwd w) name f Hb Hf).
  apply write_file_ok; [|by rewrite resolve_join|by rewrite resolve_join|].
  - rewrite join_proper by done. by destruct name.
  - by rewrite resolve_join, removelast_last.
Qed.

(** [write_all_worksheet] into an existing directory with no fault below
    it and no subdirectory in the way writes its five files. *)
Lemma write_all_worksheet_ok name xys exp cl mk ct w :
  proper_component (basename name) = true ->
  w_fs w !! resolve (w_cwd w) name = Some NDir ->
  (forall q, q ∈ w_faults w -> ¬ resolve (w_cwd w) name `prefix_of` q) ->
  (forall f, w_fs w !! (resolve (w_cwd w) name ++ [f]) <> Some NDir) ->
  write_all_worksheet name xys exp cl mk ct w =
    (Ok tt, set_fs (write_entries (resolve (w_cwd w) name)
                      (worksheet_entries xys exp cl mk ct) (w_fs w)) w).
Proof.
  intros Hb Hd Hf Hn. unfold write_all_worksheet.
  assert (forall f, resolve (w_cwd w) name ++ [f] ∉ w_faults w) as Hq
    by (intros f Hin; by apply (Hf _ Hin), prefix_app_r).
  repeat (rewrite est_bind_run, write_file_join_ok by
            (simpl; auto using insert_child_keeps, insert_file_not_dir); simpl).
  rewrite write_file_join_ok by (simpl; auto using insert_child_keeps, insert_file_not_dir).
  done.
Qed.

(** The staging directory itself, once staged. *)
Lemma staged_fs_root S pr fs : fs_wf fs -> fs !! S = None -> staged_fs S pr fs !! S = Some NDir.
Proof. intros Hwf HS. pose proof (staged_lookup S pr fs [] Hwf HS) as H. by rewrite app_nil_r in H. Qed.

Lemma set_fs_faults fs w : w_faults (set_fs fs w) = w_faults w.
Proof. done. Qed.

#[local] Hint Rewrite set_fs_faults : ctw_run.

(** [export_worksheet] from a world where the staging directory is fresh,
    its parent exists, nothing at or below it is faulty, and the archive
    path is writable. *)
Lemma export_worksheet_ok name pr w :
  world_wf w -> proper_component (basename name) = true ->
  w_fs w !! resolve (w_cwd w) name = None ->
  w_fs w !! removelast (resolve (w_cwd w) name) = Some NDir ->
  (forall q, q ∈ w_faults w -> ¬ resolve (w_cwd w) name `prefix_of` q) ->
  resolve (w_cwd w) (ctw_filename name) ∉ w_faults w ->
  w_fs w !! resolve (w_cwd w) (ctw_filename name) <> Some NDir ->
  exists w', export_worksheet name pr w = (Ok tt, w').
Proof.
  intros [Hwf _] Hb HS Hp Hf HOf HOd.
  destruct (staging_archive_paths (w_cwd w) name Hb) as (P & HSP & HOP & Hnp).
  assert (name <> "") as Hne by (intros ->; by compute in Hb).
  assert (P ++ [basename name] <> P ++ [basename name +:+ ".ctw.tgz"]) as HSO
    by (intros Heq; apply Hnp; by rewrite Heq).
  assert (¬ (P ++ [basename name]) `prefix_of` P) as HnP
    by (intros Hpre%prefix_length; rewrite length_app in Hpre; simpl in Hpre; lia).
  rewrite HSP, removelast_last in Hp. rewrite HOP in HOf, HOd. rewrite HSP in HS, Hf.
  unfold export_worksheet, make_dir_or_complain.
  rewrite est_bind_run, mkdir_ok; [|done|rewrite HSP; intros Hin; by apply (Hf _ Hin)
                                   |by rewrite HSP|by rewrite HSP, removelast_last].
  rewrite est_bind_run, write_all_worksheet_ok; autorewrite with ctw_run; rewrite ?HSP.
  2: done.
  2: by rewrite lookup_insert_eq.
  2: done.
  2: { intros f. rewrite lookup_insert_ne by (intros Heq%(f_equal length); rewrite !length_app in Heq; simpl in Heq; lia).
       erewrite fs_wf_below_absent; [done|done|done|by apply prefix_app_r]. }
  fold (staged_fs (P ++ [basename name]) pr (w_fs w)).
  rewrite est_bind_run, make_tarfile_run; autorewrite with ctw_run; rewrite ?HOP, ?HSP.
  2: by unfold ctw_filename; destruct name.
  2: done.
  2: done.
  2: by rewrite staged_fs_outside.
  2: by rewrite removelast_last, staged_fs_outside.
  2: { rewrite staged_fs_root by done. by eexists. }
  unfold delete_dir. rewrite rmtree_ok; autorewrite with ctw_run; rewrite ?HSP.
  - by eexists.
  - done.
  - by destruct P.
  - rewrite lookup_insert_ne by done. by rewrite staged_fs_root.
  - done.
Qed.

(** ** What a failed staging leaves *)

(** When [write_all_worksheet] raises, the files before the failing one
    are written and nothing else changed. *)
Lemma write_all_worksheet_err_inv name xys exp cl mk ct w e w' :
  write_all_worksheet name xys exp cl mk ct w = (Err e, w') ->
  exists k, k < 5 /\
    w' = set_fs (write_entries (resolve (w_cwd w) name)
                   (take k (worksheet_entries xys exp cl mk ct)) (w_fs w)) w.
Proof.
  unfold write_all_worksheet.
  rewrite est_bind_run. destruct (write_file (join name xys_file) _ w) as [[[]|e1] w1] eqn:H1.
  2: { intros [= <- <-]. apply write_file_atomic in H1 as ->. exists 0. split; [lia|].
       change (write_entries _ (take 0 _) (w_fs w)) with (w_fs w). by rewrite set_fs_self. }
  apply write_file_join_ok_inv in H1 as ->; [|done].
  rewrite est_bind_run. destruct (write_file (join name exp_file) _ _) as [[[]|e2] w2] eqn:H2.
  2: { intros [= <- <-]. apply write_file_atomic in H2 as ->. exists 1. split; [lia|reflexivity]. }
  apply write_file_join_ok_inv in H2 as ->; [|done].
  rewrite est_bind_run. destruct (write_file (join name clustering_file) _ _) as [[[]|e3] w3] eqn:H3.
  2: { intros [= <- <-]. apply write_file_atomic in H3 as ->. exists 2. split; [lia|reflexivity]. }
  apply write_file_join_ok_inv in H3 as ->; [|done].
  rewrite est_bind_run. destruct (write_file (join name markers_file) _ _) as [[[]|e4] w4] eqn:H4.
  2: { intros [= <- <-]. apply write_file_atomic in H4 as ->. exists 3. split; [lia|reflexivity]. }
  apply write_file_join_ok_inv in H4 as ->; [|done].
  intros H5. apply write_file_atomic in H5 as ->. exists 4. split; [lia|reflexivity].
Qed.

(** The tree below a fresh directory [S] into which [es] were written. *)
Lemma write_entries_fresh_lookup S es fs rel :
  fs_wf fs -> fs !! S = None ->
  write_entries S es (<[S := NDir]> fs) !! (S ++ rel) = write_entries [] es {[ [] := NDir ]} !! rel.
Proof.
  intros Hwf HS. apply write_entries_lookup_below. intros [|x r].
  - by rewrite app_nil_r, lookup_insert_eq, lookup_singleton_eq.
  - rewrite lookup_insert_ne, lookup_singleton_ne by
      (try intros ?%(f_equal length); rewrite ?length_app in *; simpl in *; lia).
    eapply fs_wf_below_absent; [done|done|]. by apply prefix_app_r.
Qed.

Lemma rmtree_err_inv s w e w' : s <> "" -> rmtree s w = (Err e, w') -> e = CleanupError s.
Proof. intros Hs. unfold rmtree. syscall_cases; unfold raise, put; intros ?; simplify_eq; done. Qed.

Lemma gather_path_nonempty sp cn ck w pr w' : gather sp cn ck w = (Ok pr, w') -> sp <> "".
Proof. intros H ->. vm_compute in H. discriminate. Qed.

(** ** Running the export again *)

(** The file system a successful export leaves (cli.py 43-48): the
    staging tree [S] written into [fs], archived at [O] under the name
    [b], then removed. *)
Definition export_fs (S O : path) (b : string) (pr : products) (fs : fsmap) : fsmap :=
  remove_tree S (<[O := NFile (CTgz (tar_members b S O (staged_fs S pr fs)))]> (staged_fs S pr fs)).

(** The archive the export leaves. *)
Lemma export_fs_archive S O b pr fs :
  ¬ S `prefix_of` O ->
  export_fs S O b pr fs !! O = Some (NFile (CTgz (tar_members b S O (staged_fs S pr fs)))).
Proof. intros HSO. unfold export_fs. rewrite remove_tree_lookup_out by done. apply lookup_insert_eq. Qed.

(** Anywhere but at the archive, the export leaves what was there, when
    the staging directory was fresh. *)
Lemma export_fs_outside S O b pr fs q :
  fs_wf fs -> fs !! S = None -> q <> O -> export_fs S O b pr fs !! q = fs !! q.
Proof.
  intros Hwf HS HqO. unfold export_fs. destruct (decide (S `prefix_of` q)) as [Hq|Hq].
  - rewrite remove_tree_lookup_in by done. symmetry. by eapply fs_wf_below_absent.
  - rewrite remove_tree_lookup_out, lookup_insert_ne by congruence. by apply staged_fs_outside.
Qed.

(** The export's effect on the file system is idempotent: the archive
    depends only on the staged tree, which is the same whatever was at
    the archive path before. *)
Lemma export_fs_idempotent S O b pr fs :
  fs_wf fs -> fs !! S = None -> ¬ S `prefix_of` O -> fs_wf (export_fs S O b pr fs) ->
  export_fs S O b pr (export_fs S O b pr fs) = export_fs S O b pr fs.
Proof.
  intros Hwf HS HSO Hwf'. set (fs' := export_fs S O b pr fs) in *.
  assert (fs' !! S = None) as HS' by (unfold fs', export_fs; by apply remove_tree_lookup_in).
  apply map_eq. intros q. destruct (decide (q = O)) as [->|HqO]; [|by apply export_fs_outside].
  rewrite export_fs_archive by done. unfold fs' at 2. rewrite export_fs_archive by done.
  do 3 f_equal. apply tar_members_agree. intros ? [rel ->]. by rewrite !staged_lookup.
Qed.

(** A successful export met no fault in the staging tree or at the
    archive. *)
Lemma export_worksheet_ok_faults name pr w w' :
  export_worksheet name pr w = (Ok tt, w') ->
  (forall q, q ∈ w_faults w -> ¬ resolve (w_cwd w) name `prefix_of` q) /\
  resolve (w_cwd w) (ctw_filename name) ∉ w_faults w.
Proof.
  unfold export_worksheet, make_dir_or_complain, delete_dir.
  rewrite est_bind_run. destruct (mkdir name w) as [[[]|e] w1] eqn:H1; [|done].
  apply mkdir_ok_inv in H1 as (_ & _ & ->).
  rewrite est_bind_run. destruct (write_all_worksheet _ _ _ _ _ _ _) as [[[]|e] w2] eqn:H2; [|done].
  apply write_all_worksheet_ok_inv in H2 as ->.
  rewrite est_bind_run. destruct (make_tarfile _ _ _) as [[[]|e] w3] eqn:H3; [|done].
  apply make_tarfile_ok_inv in H3 as [H3%write_file_ok_faults ->].
  intros H4. pose proof (rmtree_ok_faults _ _ _ H4) as Hf4. autorewrite with ctw_run in *. by split.
Qed.

(** [gather] reads the file system only at the dataset: a world with the
    same working directory and the same dataset gives the same products. *)
Lemma gather_same_dataset sp cn ck w pr w1 w' :
  gather sp cn ck w = (Ok pr, w1) -> w_cwd w' = w_cwd w ->
  w_fs w' !! resolve (w_cwd w) sp = w_fs w !! resolve (w_cwd w) sp ->
  exists w1', gather sp cn ck w' = (Ok pr, w1') /\ disk w1' = disk w'.
Proof.
  intros H Hc Hd. pose proof (gather_path_nonempty _ _ _ _ _ _ H) as Hs.
  destruct (gather_ok_inv _ _ _ _ _ _ H) as (ad & Had & Hm & Hx & Hp & Ho & He).
  rewrite <- Hd, <- Hc in Had.
  rewrite (gather_run sp cn ck w' ad _ _ _ _ Hs Had Hm Hx Hp Ho).
  rewrite <- He. destruct pr. by eexists.
Qed.

Lemma world_wf_disk w1 w2 : disk w1 = disk w2 -> world_wf w1 -> world_wf w2.
Proof. unfold disk, world_wf. by intros [= <- <- _]. Qed.

(** ** Properties *)

(** C2: [from_scanpy] succeeds on every well-formed world where the
    dataset file is an AnnData object with the cluster column, the
    cell-type column and the ["X_umap"] embedding; the staging directory
    does not exist yet but its parent directory does; no I/O fault lies at
    or below the staging directory; and the archive path is neither
    faulty nor a directory.  (An archive file already there is
    overwritten.) *)
Theorem from_scanpy_succeeds args w ad :
  world_wf w -> proper_component (basename (worksheet_name args)) = true ->
  scanpy_path args <> "" ->
  w_fs w !! resolve (w_cwd w) (scanpy_path args) = Some (NFile (CH5ad ad)) ->
  is_Some (assoc (cluster_name args) (obs ad)) -> is_Some (assoc (celltype_key args) (obs ad)) ->
  is_Some (assoc umap_key (obsm ad)) ->
  w_fs w !! resolve (w_cwd w) (worksheet_name args) = None ->
  w_fs w !! removelast (resolve (w_cwd w) (worksheet_name args)) = Some NDir ->
  (forall q, q ∈ w_faults w -> ¬ resolve (w_cwd w) (worksheet_name args) `prefix_of` q) ->
  resolve (w_cwd w) (ctw_filename (worksheet_name args)) ∉ w_faults w ->
  w_fs w !! resolve (w_cwd w) (ctw_filename (worksheet_name args)) <> Some NDir ->
  exists w', from_scanpy args w = (Ok tt, w').
Proof.
  intros Hw Hb Hs Hd Hc Hk Hu HS Hp Hf HOf HOd.
  destruct (gather_ok _ _ _ w ad Hs Hd Hc Hk Hu) as [pr Hg].
  unfold from_scanpy. rewrite (est_bind_ok _ _ _ _ _ Hg).
  by apply export_worksheet_ok.
Qed.

(** C3: running [from_scanpy] again after it succeeded, with the same
    arguments, succeeds again and leaves the disk exactly as the first
    run left it.  The first run removed the staging directory, so the
    second [mkdir] is not refused; [tarfile.open] in mode ["w:gz"]
    truncates the archive it finds, and the archive it writes depends
    only on the staged worksheet.  This needs the dataset not to be the
    archive path itself: otherwise the first run overwrote its own
    input. *)
Theorem from_scanpy_rerun args w w' :
  world_wf w -> proper_component (basename (worksheet_name args)) = true ->
  resolve (w_cwd w) (scanpy_path args) <> resolve (w_cwd w) (ctw_filename (worksheet_name args)) ->
  from_scanpy args w = (Ok tt, w') ->
  exists w'', from_scanpy args w' = (Ok tt, w'') /\ disk w'' = disk w'.
Proof.
  intros Hw Hb HD H. pose proof (from_scanpy_wf args w Hw) as Hw'. rewrite H in Hw'.
  apply from_scanpy_split in H as [(e & [=] & _)|(pr & w1 & Hg & Hd1 & Hexp)].
  destruct (export_worksheet_ok_faults _ _ _ _ Hexp) as [Hf HOf].
  destruct (export_worksheet_ok_inv _ _ _ _ Hb Hexp) as [HS ->].
  injection Hd1 as Hfs1 Hc1 Hf1. rewrite Hfs1, Hc1, Hf1 in *.
  destruct (staging_archive_paths (w_cwd w) (worksheet_name args) Hb) as (P & HSP & HOP & Hnp).
  set (S := resolve (w_cwd w) (worksheet_name args)) in *.
  set (O := resolve (w_cwd w) (ctw_filename (worksheet_name args))) in *.
  fold (export_fs S O (basename (worksheet_name args)) pr (w_fs w)) in *.
  set (fs' := export_fs S O (basename (worksheet_name args)) pr (w_fs w)) in *.
  assert (¬ S `prefix_of` O) as HSO by (rewrite HSP, HOP; done).
  assert (exists c, fs' !! O = Some (NFile c)) as [c HO] by (eexists; by apply export_fs_archive).
  destruct (gather_same_dataset _ _ _ w pr w1 (set_fs fs' w1) Hg) as (w2 & Hg2 & Hd2).
  { by rewrite set_fs_cwd, Hc1. }
  { rewrite set_fs_fs. apply export_fs_outside; [apply Hw|done|done]. }
  pose proof (world_wf_disk _ _ (eq_sym Hd2) Hw') as Hw2.
  injection Hd2 as Hfs2 Hc2 Hf2. rewrite Hc1 in Hc2. rewrite Hf1 in Hf2.
  destruct (export_worksheet_ok (worksheet_name args) pr w2) as [w3 H3];
    rewrite ?Hfs2, ?Hc2, ?Hf2; [done|done|..].
  { by apply remove_tree_lookup_in. }
  { change (fs' !! removelast S = Some NDir).
    rewrite HSP, removelast_last, <- (removelast_last P (basename (worksheet_name args) +:+ ".ctw.tgz")), <- HOP.
    apply (proj2 (proj1 Hw') O _ HO). by rewrite HOP; destruct P. }
  { exact Hf. }
  { exact HOf. }
  { change (fs' !! O <> Some NDir). by rewrite HO. }
  exists w3. split; [by unfold from_scanpy; rewrite (est_bind_ok _ _ _ _ _ Hg2)|].
  destruct (export_worksheet_ok_inv _ _ _ _ Hb H3) as [_ ->].
  unfold disk. cbn [w_fs w_cwd w_faults set_fs]. rewrite Hfs2, Hc2, Hf2.
  fold S O. fold (export_fs S O (basename (worksheet_name args)) pr fs').
  rewrite Hc1, Hf1. unfold fs'. rewrite export_fs_idempotent; [done|apply Hw|done|done|apply (proj1 Hw')].
Qed.

(** C24: on success [gather] prints exactly four lines, in the order of
    cli.py 27, 29, 31 and 35; the third is the preview [mapping.head()]:
    the first rows of the cell-type mapping, at most five of them, and
    fewer only when the dataset has fewer than five clusters. *)
Theorem gather_prints_preview sp cn ck w pr w' :
  gather sp cn ck w = (Ok pr, w') ->
  exists rows,
    w_stdout w' = w_stdout w ++ [LMsg "reading in data..."; LMsg "Attempt to gather cell type mapping";
                                 LPreview rows; LMsg "Running marker generation"] /\
    rows `prefix_of` pr_mapping pr /\ length rows = Nat.min 5 (length (pr_mapping pr)).
Proof.
  intros H. pose proof (gather_path_nonempty _ _ _ _ _ _ H) as Hs.
  destruct (gather_ok_inv _ _ _ _ _ _ H) as (ad & Hd & Hm & Hx & Hp & Ho & _).
  rewrite (gather_run sp cn ck w ad _ _ _ _ Hs Hd Hm Hx Hp Ho) in H.
  injection H as <- <-. exists (take 5 (pr_mapping pr)). split_and!.
  - done.
  - apply prefix_take.
  - by rewrite length_take.
Qed.

(** C9: when [from_scanpy] fails while staging (an [OSError] of [mkdir] or
    of a write, spec 4.3), no archive is created: either the disk is as
    before (the [mkdir] failed), or the staging directory is left for
    inspection holding exactly the files written before the failing one,
    in the order of [write_all_worksheet], and nothing outside it
    changed. *)
Theorem from_scanpy_staging_fail_partial args w pr w1 e w' :
  world_wf w -> proper_component (basename (worksheet_name args)) = true ->
  gather (scanpy_path args) (cluster_name args) (celltype_key args) w = (Ok pr, w1) ->
  from_scanpy args w = (Err e, w') -> staging_error e ->
  disk w' = disk w \/
  exists k, k < 5 /\
    (forall rel, w_fs w' !! (resolve (w_cwd w) (worksheet_name args) ++ rel) =
       write_entries [] (take k (worksheet_entries (pr_xys pr) (pr_exp pr) (pr_clustering pr)
                                   (pr_markers pr) (pr_mapping pr))) {[ [] := NDir ]} !! rel) /\
    (forall q, ¬ resolve (w_cwd w) (worksheet_name args) `prefix_of` q -> w_fs w' !! q = w_fs w !! q).
Proof.
  intros [Hwf _] Hb Hg. unfold from_scanpy. rewrite (est_bind_ok _ _ _ _ _ Hg).
  pose proof (gather_disk (scanpy_path args) (cluster_name args) (celltype_key args) w) as Hd.
  rewrite Hg in Hd. simpl in Hd. unfold export_worksheet, make_dir_or_complain.
  rewrite est_bind_run. destruct (mkdir _ w1) as [[[]|e1] w2] eqn:H1.
  2: { intros [= <- <-] _. left. apply mkdir_atomic in H1 as ->. done. }
  apply mkdir_ok_inv in H1 as (Hne & HS & ->).
  injection Hd as Hfs1 Hcwd1 _. rewrite Hfs1, Hcwd1 in *.
  rewrite est_bind_run. destruct (write_all_worksheet _ _ _ _ _ _ _) as [[[]|e2] w3] eqn:H2.
  2: { intros [= <- <-] _. right. apply write_all_worksheet_err_inv in H2 as (k & Hk & ->).
       exists k. autorewrite with ctw_run. rewrite ?Hcwd1, ?Hfs1. split_and!; [done| |].
       - intros rel. by apply write_entries_fresh_lookup.
       - intros q Hq. rewrite write_entries_lookup_outside by done.
         rewrite lookup_insert_ne; [done|]. intros <-. by apply Hq. }
  rewrite est_bind_run. destruct (make_tarfile _ _ w3) as [[[]|e3] w4] eqn:H3.
  2: { intros [= <- <-]. by apply make_tarfile_err_inv in H3 as [[-> _]|(-> & _)]. }
  unfold delete_dir. intros H4. by apply rmtree_err_inv in H4 as ->.
Qed.

(** ** On a concrete world *)

Lemma from_scanpy_succeeds_witness : exists w', from_scanpy demo_args demo_world = (Ok tt, w').
Proof.
  apply (from_scanpy_succeeds demo_args demo_world demo_ad demo_world_wf); try reflexivity.
  - discriminate.
  - by eexists.
  - by eexists.
  - by eexists.
  - intros q Hq. by apply not_elem_of_empty in Hq.
  - apply not_elem_of_empty.
  - discriminate.
Defined.

(** Run twice on the demo world, the export ends where it ended the first
    time. *)
Lemma from_scanpy_rerun_witness :
  (from_scanpy demo_args demo_world).1 = Ok tt /\
  exists w'', from_scanpy demo_args (from_scanpy demo_args demo_world).2 = (Ok tt, w'') /\
              disk w'' = disk (from_scanpy demo_args demo_world).2.
Proof.
  assert (from_scanpy demo_args demo_world = (Ok tt, (from_scanpy demo_args demo_world).2))
    as Hrun by (vm_compute; reflexivity).
  split; [by rewrite Hrun|].
  exact (from_scanpy_rerun demo_args demo_world _ demo_world_wf eq_refl
           ltac:(vm_compute; discriminate) Hrun).
Defined.

(** The hypothesis on the dataset path is needed: a dataset stored as
    ["ws.ctw.tgz"] and exported under the name ["ws"] is overwritten by
    the archive, and the second run cannot read it. *)
Example from_scanpy_overwrites_own_input :
  let args := from_scanpy_defaults "ws" "ws.ctw.tgz" in
  let w := mk_world {[ [] := NDir; ["ws.ctw.tgz"] := NFile (CH5ad demo_ad) ]} [] ∅ [] true [] [] in
  (from_scanpy args w).1 = Ok tt /\
  (from_scanpy args (from_scanpy args w).2).1 = Err (DecodeError "ws.ctw.tgz").
Proof. vm_compute. split; reflexivity. Qed.

Lemma gather_prints_preview_witness :
  exists pr w', gather "data.h5ad" "louvain" "scorect" demo_world = (Ok pr, w') /\
    exists rows, w_stdout w' = [LMsg "reading in data..."; LMsg "Attempt to gather cell type mapping";
                                LPreview rows; LMsg "Running marker generation"] /\
                 rows `prefix_of` pr_mapping pr /\ length rows = Nat.min 5 (length (pr_mapping pr)).
Proof.
  remember (gather "data.h5ad" "louvain" "scorect" demo_world) as g eqn:Hg.
  destruct g as [[pr|e] w']; [|vm_compute in Hg; discriminate].
  exists pr, w'. split; [done|].
  exact (gather_prints_preview "data.h5ad" "louvain" "scorect" demo_world pr w' (eq_sym Hg)).
Defined.

(** The third file of the worksheet cannot be written. *)
Definition demo_world_write_fault : world :=
  mk_world (w_fs demo_world) [] {[ ["ws"; "clustering.tab"] ]} [] true [] [].

Lemma from_scanpy_staging_fail_partial_witness :
  exists pr w1 e w',
    gather "data.h5ad" "louvain" "scorect" demo_world_write_fault = (Ok pr, w1) /\
    from_scanpy demo_args demo_world_write_fault = (Err e, w') /\
    (disk w' = disk demo_world_write_fault \/
     exists k, k < 5 /\
       (forall rel, w_fs w' !! (["ws"] ++ rel) =
          write_entries [] (take k (worksheet_entries (pr_xys pr) (pr_exp pr) (pr_clustering pr)
                                      (pr_markers pr) (pr_mapping pr))) {[ [] := NDir ]} !! rel) /\
       (forall q, ¬ ["ws"] `prefix_of` q -> w_fs w' !! q = w_fs demo_world_write_fault !! q)).
Proof.
  remember (gather "data.h5ad" "louvain" "scorect" demo_world_write_fault) as g eqn:Hg.
  destruct g as [[pr|e0] w1]; [|vm_compute in Hg; discriminate].
  remember (from_scanpy demo_args demo_world_write_fault) as r eqn:Hr.
  destruct r as [[[]|e] w']; [vm_compute in Hr; discriminate|].
  exists pr, w1, e, w'. split_and!; [done|done|].
  apply (from_scanpy_staging_fail_partial demo_args demo_world_write_fault pr w1 e w');
    [apply world_wfb_sound; reflexivity|reflexivity|by symmetry|by symmetry|].
  vm_compute in Hr. injection Hr as He _. subst e. exact I.
Defined.

