(* ===== verification/Click.v ===== *)
(** * Click: the command line of the four commands

    Each [@click.command] of [cli.py] turns a function into a command that
    parses [sys.argv] before it calls the function.  This file models what
    the decorators declare ([command_decl]: the [@click.argument]s in
    order, the [@click.option]s with their defaults), click's parser for
    such a declaration ([scan] and [click_parse], following
    [click.parser.OptionParser] and [click.core.Command.parse_args]), and
    the invocation ([invoke]): a usage error or [--help] ends the command
    before the function runs, otherwise the function is called with the
    parsed parameters by name (click passes [ctx.params] as keyword arguments).

    The interface between click and a command is the class
    [ClickCommand]: its declaration, how the parameters bind to the
    function's arguments, and the function.  The four instances are
    the four commands of [cli.py].  [exit_status] is the status the process
    ends with, which ties what the shell sees to what the command did. *)

From Stdlib Require Import Ascii.
From S2P Require Import Prelude Paths Dataset FileSystem Cli.

(** ** What the decorators declare *)

(** [@click.option(flag, default=...)]. *)
Record option_decl := mk_option_decl {
  opt_flag : string;
  opt_default : string
}.

(** The parameters of a command: its arguments in the order of the
    decorators, then its options.  click adds [--help] to every command. *)
Record command_decl := mk_command_decl {
  cmd_arguments : list string;
  cmd_options : list option_decl
}.

(** The usage errors click reports (exit status 2) before the function
    runs. *)
Inductive usage_error : Type :=
  | NoSuchOption (opt : string)
  | OptionRequiresArgument (opt : string)
  | OptionTakesNoValue (opt : string)
  | MissingArgument (name : string)
  | UnexpectedExtraArguments (extra : list string).

(** How an invocation ends when the function raises nothing: it ran, or
    click printed the help or a usage error instead.  The help text and
    the usage message themselves are not modelled. *)
Inductive outcome : Type :=
  | Ran
  | Help
  | Usage (e : usage_error).

(** ** click's parser *)

(** [arg[:1] in self._opt_prefixes and len(arg) > 1]. *)
Definition is_option_like (arg : string) : bool :=
  String.prefix "-" arg && (1 <? String.length arg)%nat.

(** [arg.split("=", 1)]: the text before the first ['='], and the text
    after it when there is one. *)
Fixpoint split_eq (s : string) : string * option string :=
  match s with
  | EmptyString => (EmptyString, None)
  | String c s' =>
      if Ascii.eqb c "="%char then (EmptyString, Some s')
      else let '(o, v) := split_eq s' in (String c o, v)
  end.

(** The option an unknown [arg] is reported as: the long option before
    ['='] ([_match_long_opt]), or for a single dash the prefix and the
    first letter ([_match_short_opt]). *)
Definition no_such_option (arg : string) : string :=
  if String.prefix "--" arg then (split_eq arg).1 else String.substring 0 2 arg.

Definition cons_opt (o v : string)
    (r : result usage_error (list (string * string) * list string * bool))
    : result usage_error (list (string * string) * list string * bool) :=
  match r with
  | Ok (opts, pos, help) => Ok ((o, v) :: opts, pos, help)
  | Err e => Err e
  end.

Definition cons_pos (arg : string)
    (r : result usage_error (list (string * string) * list string * bool))
    : result usage_error (list (string * string) * list string * bool) :=
  match r with
  | Ok (opts, pos, help) => Ok (opts, arg :: pos, help)
  | Err e => Err e
  end.

Definition set_help
    (r : result usage_error (list (string * string) * list string * bool))
    : result usage_error (list (string * string) * list string * bool) :=
  match r with
  | Ok (opts, pos, _) => Ok (opts, pos, true)
  | Err e => Err e
  end.

(** [OptionParser._process_args_for_options]: the options given, in
    order, the positional arguments, and whether [--help] was given.
    [--] ends the options; an option that takes a value takes the text
    after ['='] or else the next argument, whatever it looks like. *)
Fixpoint scan (flags : list string) (argv : list string)
    : result usage_error (list (string * string) * list string * bool) :=
  match argv with
  | [] => Ok ([], [], false)
  | arg :: rest =>
      if String.eqb arg "--" then Ok ([], rest, false)
      else if is_option_like arg then
        let '(o, explicit) := split_eq arg in
        if String.eqb o "--help" then
          match explicit with
          | Some _ => Err (OptionTakesNoValue o)
          | None => set_help (scan flags rest)
          end
        else if bool_decide (o ∈ flags) then
          match explicit, rest with
          | Some v, _ => cons_opt o v (scan flags rest)
          | None, v :: rest' => cons_opt o v (scan flags rest')
          | None, [] => Err (OptionRequiresArgument o)
          end
        else Err (NoSuchOption (no_such_option arg))
      else cons_pos arg (scan flags rest)
  end.

(** The value of an option: the last one given ([opts[dest] = value]),
    or its default. *)
Definition last_value (flag : string) (opts : list (string * string)) (dflt : string) : string :=
  fold_left (fun acc '(o, v) => if String.eqb o flag then v else acc) opts dflt.

Fixpoint map_chars (f : Ascii.ascii -> Ascii.ascii) (s : string) : string :=
  match s with
  | EmptyString => EmptyString
  | String c s' => String (f c) (map_chars f s')
  end.

Definition lower_ascii (c : Ascii.ascii) : Ascii.ascii :=
  let n := Ascii.nat_of_ascii c in
  if (65 <=? n)%nat && (n <=? 90)%nat then Ascii.ascii_of_nat (n + 32) else c.

(** [Option._parse_decls]: the parameter name of a long option, the
    flag without its [--], dashes replaced by underscores, lower case. *)
Definition option_dest (flag : string) : string :=
  map_chars (fun c => if Ascii.eqb c "-"%char then "_"%char else lower_ascii c)
    (if String.prefix "--" flag then String.substring 2 (String.length flag - 2) flag else flag).

(** [Command.parse_args]: the parameters by name, [None] for [--help]
    (which is eager: it wins over missing and extra arguments, not over a
    parse error), or the usage error. *)
Definition click_parse (d : command_decl) (argv : list string)
    : result usage_error (option (list (string * string))) :=
  match scan (opt_flag <$> cmd_options d) argv with
  | Err e => Err e
  | Ok (_, _, true) => Ok None
  | Ok (opts, pos, false) =>
      let n := length (cmd_arguments d) in
      if (length pos <? n)%nat then Err (MissingArgument (default "" (cmd_arguments d !! length pos)))
      else if (n <? length pos)%nat then Err (UnexpectedExtraArguments (drop n pos))
      else Ok (Some (zip (cmd_arguments d) pos ++
                     ((fun o => (option_dest (opt_flag o), last_value (opt_flag o) opts (opt_default o)))
                        <$> cmd_options d)))
  end.

(** A parameter by name ([ctx.params[name]]). *)
Definition param (ps : list (string * string)) (name : string) : string :=
  default "" (assoc name ps).

(** [Command.main] in standalone mode: parse, then call the function.
    An exception the function raises propagates. *)
Definition invoke (d : command_decl) (callback : list (string * string) -> M unit)
    (argv : list string) : M outcome :=
  match click_parse d argv with
  | Err e => mret (Usage e)
  | Ok None => mret Help
  | Ok (Some ps) => callback ps;; mret Ran
  end.

(** ** The commands of [cli.py] *)

(** cli.py 19-23. *)
Definition from_scanpy_decl : command_decl :=
  mk_command_decl ["worksheet_name"; "scanpy_path"]
    [mk_option_decl "--cluster_name" "louvain"; mk_option_decl "--celltype_key" "scorect"].

(** cli.py 24-26: the parameters bound to the function's arguments. *)
Definition from_scanpy_bind (ps : list (string * string)) : from_scanpy_args :=
  mk_from_scanpy_args (param ps "worksheet_name") (param ps "scanpy_path")
    (param ps "cluster_name") (param ps "celltype_key").

(** cli.py 50-52. *)
Definition upload_worksheet_decl : command_decl :=
  mk_command_decl ["ctw_path"; "credentials_path"] [].

(** The arguments of [upload_worksheet(ctw_path, credentials_path)]. *)
Record upload_worksheet_args := mk_upload_worksheet_args {
  ctw_path : string;
  credentials_path : string
}.

(** cli.py 53. *)
Definition upload_worksheet_bind (ps : list (string * string)) : upload_worksheet_args :=
  mk_upload_worksheet_args (param ps "ctw_path") (param ps "credentials_path").

(** cli.py 65-66. *)
Definition scanpy_obs_decl : command_decl := mk_command_decl ["scanpy_path"] [].

(** The argument of [scanpy_obs(scanpy_path)]. *)
Record scanpy_obs_args := mk_scanpy_obs_args { obs_scanpy_path : string }.

(** cli.py 67. *)
Definition scanpy_obs_bind (ps : list (string * string)) : scanpy_obs_args :=
  mk_scanpy_obs_args (param ps "scanpy_path").

(** cli.py 72: [@click.command()] with no parameter. *)
Definition bye_decl : command_decl := mk_command_decl [] [].

(** ** The interface between click and a command *)

(** What a click command is made of: its declaration, the binding of the
    parsed parameters to the function's arguments, and the function. *)
Class ClickCommand (A : Type) := {
  command_decl_of : command_decl;
  command_bind : list (string * string) -> A;
  command_run : A -> M unit
}.
Arguments command_decl_of A {_}.

(** Running the command on an argument vector. *)
Definition command_main (A : Type) `{ClickCommand A} (argv : list string) : M outcome :=
  invoke (command_decl_of A) (fun ps => command_run (command_bind ps)) argv.

(** The process exit status of a standalone click invocation: [ctx.exit()]
    after the function or the help text is 0, a [UsageError] is shown and
    exits with its [exit_code] 2, and an exception of spec 7 that the
    command does not catch ends the interpreter with status 1. *)
Definition exit_status (r : result error outcome) : nat :=
  match r with
  | Ok Ran | Ok Help => 0
  | Ok (Usage _) => 2
  | Err _ => 1
  end.

#[export] Instance from_scanpy_command : ClickCommand from_scanpy_args :=
  {| command_decl_of := from_scanpy_decl; command_bind := from_scanpy_bind;
     command_run := from_scanpy |}.

#[export] Instance upload_worksheet_command : ClickCommand upload_worksheet_args :=
  {| command_decl_of := upload_worksheet_decl; command_bind := upload_worksheet_bind;
     command_run := fun a => upload_worksheet (ctw_path a) (credentials_path a) |}.

#[export] Instance scanpy_obs_command : ClickCommand scanpy_obs_args :=
  {| command_decl_of := scanpy_obs_decl; command_bind := scanpy_obs_bind;
     command_run := fun a => scanpy_obs (obs_scanpy_path a) |}.

#[export] Instance bye_command : ClickCommand unit :=
  {| command_decl_of := bye_decl; command_bind := fun _ => tt; command_run := fun _ => bye |}.

(** ** Lemmas *)

(** A plain argument: one click does not read as an option. *)
Definition plain (arg : string) : Prop := is_option_like arg = false.

Lemma plain_not_dashdash a : plain a -> String.eqb a "--" = false.
Proof. unfold plain. by destruct (String.eqb_spec a "--") as [->|]. Qed.

(** Plain arguments in front are positional, whatever follows them. *)
Lemma scan_app_plain flags argv rest :
  Forall plain argv -> scan flags (argv ++ rest) = foldr cons_pos (scan flags rest) argv.
Proof.
  induction 1 as [|a argv Ha _ IH]; [done|]. simpl.
  rewrite (plain_not_dashdash a Ha). unfold plain in Ha. rewrite Ha. by rewrite IH.
Qed.

Lemma foldr_cons_pos_ok argv opts pos help :
  foldr cons_pos (Ok (opts, pos, help)) argv = Ok (opts, argv ++ pos, help).
Proof. induction argv as [|a argv IH]; simpl; [done|]. by rewrite IH. Qed.

Lemma foldr_cons_pos_err argv e : foldr cons_pos (Err e) argv = Err e.
Proof. induction argv as [|a argv IH]; simpl; [done|]. by rewrite IH. Qed.

Lemma scan_plain flags argv : Forall plain argv -> scan flags argv = Ok ([], argv, false).
Proof.
  intros H. pose proof (scan_app_plain flags argv [] H) as Hs.
  rewrite app_nil_r in Hs. rewrite Hs. simpl. by rewrite foldr_cons_pos_ok, app_nil_r.
Qed.

Lemma invoke_usage d cb argv e w : click_parse d argv = Err e -> invoke d cb argv w = (Ok (Usage e), w).
Proof. unfold invoke. by intros ->. Qed.

Lemma invoke_help d cb argv w : click_parse d argv = Ok None -> invoke d cb argv w = (Ok Help, w).
Proof. unfold invoke. by intros ->. Qed.

Lemma invoke_run d cb argv ps w :
  click_parse d argv = Ok (Some ps) -> invoke d cb argv w = (cb ps;; mret Ran) w.
Proof. unfold invoke. by intros ->. Qed.

Lemma prefix_dashdash_option_like o : String.prefix "--" o = true -> is_option_like o = true.
Proof.
  unfold is_option_like. destruct o as [|c [|c' o]]; cbn -[Ascii.ascii_dec]; [done|..];
    destruct (Ascii.ascii_dec "-"%char c); done.
Qed.

(** ** Properties of the command line of [from_scanpy] *)

(** C17: invoked with plain arguments only (none starting with a dash),
    [from_scanpy] runs with the defaults of its options ([louvain] and
    [scorect]) when there are exactly two, and otherwise click reports the
    first missing argument or the extra ones without running anything. *)
Theorem from_scanpy_cli_positional argv w :
  Forall plain argv ->
  command_main from_scanpy_args argv w =
    match argv with
    | [ws; sp] => (from_scanpy (from_scanpy_defaults ws sp);; mret Ran) w
    | [] => (Ok (Usage (MissingArgument "worksheet_name")), w)
    | [_] => (Ok (Usage (MissingArgument "scanpy_path")), w)
    | _ :: _ :: extra => (Ok (Usage (UnexpectedExtraArguments extra)), w)
    end.
Proof.
  intros H. unfold command_main, invoke, click_parse. simpl command_decl_of.
  rewrite scan_plain by done. destruct argv as [|ws [|sp [|x extra]]]; reflexivity.
Qed.

(** C18: [--help] anywhere among plain arguments shows the help and runs
    nothing, even when arguments are missing or in excess: the help option
    is eager. *)
Theorem from_scanpy_cli_help argv1 argv2 w :
  Forall plain argv1 -> Forall plain argv2 ->
  command_main from_scanpy_args (argv1 ++ "--help" :: argv2) w = (Ok Help, w).
Proof.
  intros H1 H2. apply invoke_help. unfold click_parse. simpl command_decl_of.
  rewrite scan_app_plain by done. simpl. rewrite scan_plain by done. simpl.
  by rewrite foldr_cons_pos_ok.
Qed.

(** C19: a long option [from_scanpy] does not declare, such as
    [--cluster-name] with a dash where the decorator has an underscore, is
    refused with the option's name, before any argument is checked and
    without running anything. *)
Theorem from_scanpy_cli_unknown_option argv1 o rest w :
  Forall plain argv1 -> String.prefix "--" o = true -> o <> "--" ->
  (split_eq o).1 ∉ ["--cluster_name"; "--celltype_key"; "--help"] ->
  command_main from_scanpy_args (argv1 ++ o :: rest) w =
    (Ok (Usage (NoSuchOption (split_eq o).1)), w).
Proof.
  intros H1 Hp Hne Hno. apply invoke_usage. unfold click_parse. simpl command_decl_of.
  rewrite scan_app_plain by done. simpl.
  destruct (String.eqb_spec o "--") as [|_]; [done|].
  rewrite (prefix_dashdash_option_like o Hp).
  unfold no_such_option. rewrite Hp. destruct (split_eq o) as [o' ex]. simpl in *.
  destruct (String.eqb_spec o' "--help") as [->|_]; [set_solver|].
  rewrite bool_decide_false by set_solver. by rewrite foldr_cons_pos_err.
Qed.

(** ** On concrete argument vectors *)

(** C16: an exit status of zero from [ctwpy from-scanpy ...] means that
    either the help was printed and nothing changed, or the command line
    parsed and the whole of [from_scanpy] ran without an exception; then,
    when the worksheet name has a proper basename, the archive
    [<name>.ctw.tgz] is a file of the resulting world and nothing is left
    under the staging directory. *)
Theorem from_scanpy_cli_exit_zero argv w r w' :
  world_wf w ->
  command_main from_scanpy_args argv w = (r, w') -> exit_status r = 0 ->
  (r = Ok Help /\ w' = w) \/
  exists ps, click_parse from_scanpy_decl argv = Ok (Some ps) /\ r = Ok Ran /\
    let a := from_scanpy_bind ps in
    from_scanpy a w = (Ok tt, w') /\
    (proper_component (basename (worksheet_name a)) = true ->
      (exists ms, w_fs w' !! resolve (w_cwd w) (ctw_filename (worksheet_name a))
                    = Some (NFile (CTgz ms))) /\
      forall q, resolve (w_cwd w) (worksheet_name a) `prefix_of` q -> w_fs w' !! q = None).
Proof.
  intros Hw Hm Hx. unfold command_main in Hm. simpl command_decl_of in Hm.
  destruct (click_parse from_scanpy_decl argv) as [[ps|]|e] eqn:Hp.
  - rewrite (invoke_run _ _ _ _ _ Hp), est_bind_run in Hm. simpl command_run in Hm.
    destruct (from_scanpy (from_scanpy_bind ps) w) as [[[]|e] w1] eqn:Hr;
      simplify_eq/=.
    injection Hm as <- <-. right. exists ps. cbv zeta. split_and!; [done..|]. intros Hb.
    destruct (from_scanpy_ok_inv (from_scanpy_bind ps) _ _ Hw Hb Hr) as (pr & P & _ & HSP & HOP & Hnp & _ & ->).
    simpl in HSP, HOP. rewrite HSP, HOP. split.
    + eexists. rewrite remove_tree_lookup_out by done. by rewrite lookup_insert_eq.
    + intros q Hq. by apply remove_tree_lookup_in.
  - rewrite invoke_help in Hm by done. simplify_eq. by left.
  - rewrite (invoke_usage _ _ _ e) in Hm by done. by simplify_eq/=.
Qed.

Lemma from_scanpy_cli_positional_witness :
  command_main from_scanpy_args ["ws"; "data.h5ad"] demo_world =
    (from_scanpy (from_scanpy_defaults "ws" "data.h5ad");; mret Ran) demo_world.
Proof. apply (from_scanpy_cli_positional ["ws"; "data.h5ad"] demo_world). repeat constructor. Defined.

Lemma from_scanpy_cli_help_witness :
  command_main from_scanpy_args ["ws"; "--help"; "a"; "b"] demo_world = (Ok Help, demo_world).
Proof. apply (from_scanpy_cli_help ["ws"] ["a"; "b"] demo_world); repeat constructor. Defined.

Lemma from_scanpy_cli_unknown_option_witness :
  command_main from_scanpy_args ["ws"; "--cluster-name=leiden"; "data.h5ad"] demo_world =
    (Ok (Usage (NoSuchOption "--cluster-name")), demo_world).
Proof.
  apply (from_scanpy_cli_unknown_option ["ws"] "--cluster-name=leiden" ["data.h5ad"] demo_world).
  - repeat constructor.
  - reflexivity.
  - discriminate.
  - vm_compute. intros H. repeat (apply elem_of_cons in H as [H|H]; [discriminate|]). by apply not_elem_of_nil in H.
Defined.

Lemma from_scanpy_cli_exit_zero_witness :
  exit_status (command_main from_scanpy_args ["ws"; "data.h5ad"] demo_world).1 = 0 /\
  exists ms, w_fs (command_main from_scanpy_args ["ws"; "data.h5ad"] demo_world).2
               !! ["ws.ctw.tgz"] = Some (NFile (CTgz ms)).
Proof.
  assert (command_main from_scanpy_args ["ws"; "data.h5ad"] demo_world =
            (Ok Ran, (command_main from_scanpy_args ["ws"; "data.h5ad"] demo_world).2))
    as Hrun by (vm_compute; reflexivity).
  split; [by rewrite Hrun|].
  destruct (from_scanpy_cli_exit_zero _ _ _ _ demo_world_wf Hrun eq_refl)
    as [[? _]|(ps & Hp & _ & _ & Hok)]; [discriminate|].
  vm_compute in Hp. injection Hp as <-.
  destruct (Hok ltac:(vm_compute; reflexivity)) as [[ms HO] _]. revert HO.
  assert (resolve (w_cwd demo_world) (ctw_filename (worksheet_name (from_scanpy_bind
            [("worksheet_name", "ws"); ("scanpy_path", "data.h5ad");
             ("cluster_name", "louvain"); ("celltype_key", "scorect")])))
          = ["ws.ctw.tgz"]) as -> by (vm_compute; reflexivity).
  intros HO. by exists ms.
Defined.
