(* ===== verification/Concurrency.v ===== *)
(** * Concurrency: two exports with the same worksheet name

    Spec 5 leaves two invocations of [from_scanpy] with the same worksheet
    name unsupported, and asks that such a run be "documented as
    unsupported, not silently corrupting".  This file models two such
    invocations as two processes whose export steps (the calls of cli.py
    43, 44, 47 and 48: [export_steps]) the scheduler interleaves in any
    order ([interleave]).  The [gather] part only reads and prints, so it
    is left out.  An exception stops a process; the other one goes on.

    The theorem [same_name_exports_serializable] shows that every
    interleaving has the effect of the two processes run one after the
    other.  Each process runs the steps it really executed, except that a
    process whose first step (the [mkdir] of the staging directory)
    failed contributes nothing.  The reason is that [os.mkdir] is
    exclusive: from the moment one process has created the staging
    directory until it has deleted it, the directory exists, so the other
    process's [mkdir] fails and it stops before writing anything.  Each
    step is one Python call.  This granularity is enough: the staging
    directory exists at every system call inside those calls too, and the
    only other step of the second process is that failing [mkdir]. *)

From S2P Require Import Prelude Paths Dataset FileSystem Tar Cli.

(** ** The two processes *)

(** The export of one invocation as the sequence of the calls of cli.py
    43, 44, 47 and 48. *)
Definition export_steps (name : string) (pr : products) : list (M unit) :=
  [make_dir_or_complain name;
   write_all_worksheet name (pr_xys pr) (pr_exp pr) (pr_clustering pr) (pr_markers pr) (pr_mapping pr);
   make_tarfile (ctw_filename name) name;
   delete_dir name].

(** The first [n] steps run in order; an exception stops the sequence. *)
Fixpoint run_steps (n : nat) (steps : list (M unit)) : M unit :=
  match n, steps with
  | S n', c :: rest => c;; run_steps n' rest
  | _, _ => mret tt
  end.

(** A process: how many of its steps it has run, and the exception that
    stopped it, if any. *)
Record thread := mk_thread {
  th_pc : nat;
  th_err : option error
}.

Definition thread_start : thread := mk_thread 0 None.

(** The process runs its next step, unless it has stopped. *)
Definition step_thread (steps : list (M unit)) (t : thread) (w : world) : thread * world :=
  match th_err t, steps !! th_pc t with
  | None, Some c =>
      match c w with
      | (Ok _, w') => (mk_thread (S (th_pc t)) None, w')
      | (Err e, w') => (mk_thread (S (th_pc t)) (Some e), w')
      end
  | _, _ => (t, w)
  end.

(** The scheduler: [true] runs a step of the first process, [false] one
    of the second. *)
Fixpoint interleave (A B : list (M unit)) (sched : list bool) (ta tb : thread) (w : world)
    : thread * thread * world :=
  match sched with
  | [] => (ta, tb, w)
  | true :: s => let '(ta', w') := step_thread A ta w in interleave A B s ta' tb w'
  | false :: s => let '(tb', w') := step_thread B tb w in interleave A B s ta tb' w'
  end.

(** The steps of a process that count: none when its first step failed
    (a failed [mkdir] changes nothing), all it ran otherwise. *)
Definition effective (t : thread) : nat :=
  match th_pc t, th_err t with
  | 1, Some _ => 0
  | n, _ => n
  end.

(** ** Lemmas *)

(** Run in sequence, the steps are the export of cli.py 43-48. *)
Lemma export_worksheet_steps name pr w :
  export_worksheet name pr w = run_steps 4 (export_steps name pr) w.
Proof.
  unfold export_worksheet, export_steps. simpl run_steps.
  rewrite !est_bind_run. destruct (make_dir_or_complain name w) as [[[]|e] w1]; [|done].
  rewrite !est_bind_run. destruct (write_all_worksheet _ _ _ _ _ _ w1) as [[[]|e] w2]; [|done].
  rewrite !est_bind_run. destruct (make_tarfile _ _ w2) as [[[]|e] w3]; [|done].
  rewrite !est_bind_run. by destruct (delete_dir name w3) as [[[]|e] w4].
Qed.

(** One more step, after steps that all succeeded. *)
Lemma run_steps_snoc k steps c w0 w1 :
  run_steps k steps w0 = (Ok tt, w1) -> steps !! k = Some c -> run_steps (S k) steps w0 = c w1.
Proof.
  revert steps w0. induction k as [|k IH]; intros [|c0 steps] w0; simpl; try done.
  - intros [= <-] [= ->]. rewrite est_bind_run. by destruct (c w0) as [[[]|e] w'].
  - rewrite !est_bind_run. destruct (c0 w0) as [[[]|e] w0']; [|done]. apply IH.
Qed.

Lemma run_steps_zero steps w : run_steps 0 steps w = (Ok tt, w).
Proof. by destruct steps. Qed.

(** A directory [D] is never replaced by a file. *)
Definition dir_at (D : path) (w : world) : Prop := w_fs w !! D = Some NDir.

Lemma write_file_dir_at D s c : preserves (dir_at D) (write_file s c).
Proof.
  intros w HD. unfold write_file. syscall_cases; unfold raise, put; simpl; try done.
  all: unfold dir_at; simpl; rewrite lookup_insert_ne; [done|]; intros Heq; subst D; congruence.
Qed.

#[local] Hint Resolve write_file_dir_at : ctw.

Lemma write_all_worksheet_dir_at D name xys exp cl mk ct :
  preserves (dir_at D) (write_all_worksheet name xys exp cl mk ct).
Proof. unfold write_all_worksheet. preserves_auto. Qed.

Lemma make_tarfile_dir_at D out src : preserves (dir_at D) (make_tarfile out src).
Proof.
  intros w HD. destruct (make_tarfile out src w) as [[[]|e] w'] eqn:H; simpl.
  - apply make_tarfile_ok_inv in H as [Hw ->].
    pose proof (write_file_dir_at D out (CTgz []) w HD) as HD1. rewrite Hw in HD1.
    unfold dir_at in *. simpl in *. rewrite lookup_insert_ne; [done|].
    intros Heq. subst D. by rewrite lookup_insert_eq in HD1.
  - apply make_tarfile_err_inv in H as [[_ ->]|(_ & Hw & ->)]; [done|].
    pose proof (write_file_dir_at D out (CTgz []) w HD) as HD1. by rewrite Hw in HD1.
Qed.

(** No step changes the working directory. *)
Definition cwd_is (c : path) (w : world) : Prop := w_cwd w = c.

Lemma write_file_cwd c s x : preserves (cwd_is c) (write_file s x).
Proof. intros w Hc. unfold write_file. syscall_cases; unfold raise, put; done. Qed.

Lemma mkdir_cwd c s : preserves (cwd_is c) (mkdir s).
Proof. intros w Hc. unfold mkdir. syscall_cases; unfold raise, put; done. Qed.

Lemma rmtree_cwd c s : preserves (cwd_is c) (rmtree s).
Proof. intros w Hc. unfold rmtree. syscall_cases; unfold raise, put; done. Qed.

#[local] Hint Resolve write_file_cwd mkdir_cwd rmtree_cwd : ctw.

Lemma export_steps_cwd c name pr k x : export_steps name pr !! k = Some x -> preserves (cwd_is c) x.
Proof.
  intros Hk. destruct k as [|[|[|[|k]]]]; simplify_eq/=; unfold make_dir_or_complain, delete_dir.
  - apply mkdir_cwd.
  - unfold write_all_worksheet. preserves_auto.
  - intros w Hc. destruct (make_tarfile _ _ w) as [[[]|e] w'] eqn:H; simpl.
    + by apply make_tarfile_ok_inv in H as [_ ->].
    + by apply make_tarfile_err_inv in H as [[_ ->]|(_ & _ & ->)].
  - apply rmtree_cwd.
Qed.

(** The steps after [mkdir] keep a directory, unless the [rmtree]
    succeeds. *)
Lemma export_step_keeps_dir D name pr pc c w :
  export_steps name pr !! pc = Some c ->
  1 <= pc -> pc < 3 \/ (c w).1 <> Ok tt -> dir_at D w -> dir_at D (c w).2.
Proof.
  intros Hc Hpc1 Hlt Hd. destruct pc as [|[|[|[|pc]]]]; [lia| | | |by cbn in Hc]; cbn in Hc; injection Hc as <-.
  - by apply write_all_worksheet_dir_at.
  - by apply make_tarfile_dir_at.
  - unfold delete_dir in *. destruct (rmtree name w) as [[[]|e] w1] eqn:Hr; simpl in *.
    + destruct Hlt; [lia|done].
    + by apply rmtree_atomic in Hr as ->.
Qed.

(** ** The invariant of an interleaving *)

Section Interleaving.
Context (name : string) (c0 : path).

(** The staging directory both processes create. *)
Let S := resolve c0 name.

Definition status (t : thread) : result error unit :=
  match th_err t with None => Ok tt | Some e => Err e end.

Definition refused (t : thread) : Prop := th_pc t = 1 /\ th_err t <> None.

Definition released (t : thread) : Prop := th_pc t = 4 /\ th_err t = None.

(** From its [mkdir] until its [rmtree] succeeded, a process holds the
    staging directory. *)
Definition holding (t : thread) : Prop := 1 <= effective t /\ ¬ released t.

(** The record of a process is what running its steps from [wb] gives. *)
Definition consistent (steps : list (M unit)) (t : thread) (wb : world) : Prop :=
  refused t \/ ((run_steps (th_pc t) steps wb).1 = status t /\ th_pc t <= 4).

(** The world [w] is that of [A]'s effective steps from [w0], then [B]'s,
    and [B] acquired only after [A] released, if [A] ever acquired. *)
Definition first_then (A B : list (M unit)) (ta tb : thread) (w0 w : world) : Prop :=
  w = (run_steps (effective tb) B (run_steps (effective ta) A w0).2).2 /\
  consistent A ta w0 /\ consistent B tb (run_steps (effective ta) A w0).2 /\
  (1 <= effective tb -> effective ta = 0 \/ released ta).

Definition inv (A B : list (M unit)) (ta tb : thread) (w0 w : world) : Prop :=
  (first_then A B ta tb w0 w \/ first_then B A tb ta w0 w) /\
  (holding ta -> dir_at S w) /\ (holding tb -> dir_at S w) /\ cwd_is c0 w.

Lemma inv_swap A B ta tb w0 w : inv A B ta tb w0 w -> inv B A tb ta w0 w.
Proof. unfold inv. tauto. Qed.

(** A process with no effective step is at its start or refused. *)
Lemma consistent_idle steps t wb wb' :
  effective t = 0 -> consistent steps t wb -> consistent steps t wb'.
Proof.
  unfold consistent, refused, effective, status.
  destruct t as [[|[|pc]] [e|]]; simpl; intros Hz; try lia.
  - done.
  - done.
  - intros _. left. split; [done|discriminate].
Qed.

Lemma first_then_idle_swap A B ta tb w0 w :
  effective ta = 0 -> first_then A B ta tb w0 w -> first_then B A tb ta w0 w.
Proof.
  unfold first_then. intros Hz (-> & HA & HB & _). rewrite Hz, !run_steps_zero in *. simpl.
  split_and!; [done|done|by eapply consistent_idle|lia].
Qed.
Lemma first_then_idle_second A B ta tb w0 w :
  effective tb = 0 -> first_then A B ta tb w0 w -> first_then B A tb ta w0 w.
Proof.
  unfold first_then. intros Hz (-> & HA & HB & _). rewrite Hz, !run_steps_zero in *. simpl.
  split_and!; [done|by eapply consistent_idle|done|lia].
Qed.

Lemma not_holding t : ¬ holding t -> effective t = 0 \/ released t.
Proof.
  unfold holding, released. destruct (effective t) as [|n]; [by left|].
  destruct (decide (th_pc t = 4 /\ th_err t = None)); [by right|]. intros H. exfalso. apply H. split; [lia|done].
Qed.

(** After a step of [A] that leaves it running or stopped by an
    exception, [A]'s steps come after [B]'s, provided [B] does not hold
    the directory. *)
Lemma first_then_ran A B tb ta' w0 w' :
  consistent B tb w0 -> ¬ holding tb -> effective ta' = th_pc ta' -> th_pc ta' <= 4 ->
  run_steps (th_pc ta') A (run_steps (effective tb) B w0).2 = (status ta', w') ->
  first_then B A tb ta' w0 w'.
Proof.
  intros HB Htb He Hle Hrun. unfold first_then. split_and!.
  - by rewrite He, Hrun.
  - done.
  - right. rewrite Hrun. split; [done|lia].
  - intros _. by apply not_holding.
Qed.

Lemma effective_running pc : effective (mk_thread pc None) = pc.
Proof. by destruct pc as [|[|]]. Qed.

Lemma run_steps_pair k steps wb w :
  (run_steps k steps wb).1 = Ok tt -> w = (run_steps k steps wb).2 -> run_steps k steps wb = (Ok tt, w).
Proof. intros H1 ->. by destruct (run_steps k steps wb) as [r w']; simpl in *; subst. Qed.

(** While the first process runs a step, the second one does not hold
    the directory, unless the step is a [mkdir] that fails. *)
Lemma second_not_holding pa tb pc c w :
  export_steps name pa !! pc = Some c -> cwd_is c0 w -> (holding tb -> dir_at S w) ->
  (1 <= pc -> effective tb = 0 \/ released tb) ->
  forall r w1, c w = (r, w1) -> (pc = 0 -> r = Ok tt) -> ¬ holding tb.
Proof.
  intros Hc Hcwd HdB Hside r w1 Hr Hr0 Htb. destruct pc as [|pc].
  - simplify_eq/=. rewrite Hr0 in Hr by done. apply mkdir_ok_inv in Hr as (_ & Hnone & _).
    specialize (HdB Htb). unfold dir_at in HdB. rewrite Hcwd in Hnone. unfold S in HdB. congruence.
  - destruct (Hside ltac:(lia)) as [Hz|Hr']; destruct Htb as [Ht1 Ht2]; [lia|done].
Qed.

(** One step of the first process keeps the invariant. *)
Lemma inv_step_first pa pb ta tb w0 w :
  inv (export_steps name pa) (export_steps name pb) ta tb w0 w ->
  inv (export_steps name pa) (export_steps name pb)
      (step_thread (export_steps name pa) ta w).1 tb w0 (step_thread (export_steps name pa) ta w).2.
Proof.
  set (A := export_steps name pa). set (B := export_steps name pb).
  intros (Hser & HdA & HdB & Hcwd). unfold step_thread.
  destruct ta as [pc [e|]]; simpl; [by split_and!|].
  destruct (A !! pc) as [c|] eqn:Hc; simpl; [|by split_and!].
  assert (pc < 4) as Hpc by (apply lookup_lt_Some in Hc; done).
  assert (first_then B A tb (mk_thread pc None) w0 w) as HBA.
  { destruct Hser as [Hab|]; [|done].
    destruct pc as [|pc]; [by apply first_then_idle_swap|].
    apply first_then_idle_second; [|done]. destruct Hab as (_ & _ & _ & Hside).
    destruct (effective tb) as [|n]; [done|]. rewrite effective_running in Hside.
    destruct (Hside ltac:(lia)) as [Hz|[Hz _]]; simpl in Hz; lia. }
  destruct HBA as (Hw & HB & [[? Hne]|[HA _]] & Hside); [simpl in Hne; congruence|].
  set (wB := (run_steps (effective tb) B w0).2) in *.
  rewrite effective_running in Hw. simpl in HA.
  pose proof (run_steps_snoc pc A c wB w (run_steps_pair _ _ _ _ HA Hw) Hc) as Hrun.
  pose proof (export_steps_cwd c0 name pa pc c Hc w Hcwd) as Hcwd'.
  rewrite effective_running in Hside.
  assert (pc = 0 -> c = make_dir_or_complain name) as Hc0 by (intros ->; by simplify_eq/=).
  pose proof (second_not_holding pa tb pc c w Hc Hcwd HdB Hside) as Hfree.
  pose proof (export_step_keeps_dir S name pa pc c w Hc) as Hkeep.
  assert (1 <= pc -> holding (mk_thread pc None)) as Hhold.
  { intros Hpc1. split; [rewrite effective_running; lia|]. intros [Hz _]. simpl in Hz. lia. }
  destruct (c w) as [[[]|e] w'] eqn:Hcw; simpl.
  - (* The step succeeded. *)
    assert (¬ holding tb) as Htb by (eapply Hfree; [reflexivity|done]).
    split_and!; [|intros [_ Hrel]|by intros ?|done].
    + right. apply first_then_ran; [done|done|apply effective_running|simpl; lia|exact Hrun].
    + destruct pc as [|pc].
      * rewrite (Hc0 eq_refl) in Hcw. apply mkdir_ok_inv in Hcw as (_ & _ & ->).
        unfold dir_at, S. simpl. rewrite Hcwd. apply lookup_insert_eq.
      * destruct (decide (pc = 2)) as [->|Hp2]; [exfalso; by apply Hrel|].
        apply Hkeep; [lia|left; lia|]. apply HdA, Hhold. lia.
  - (* The step raised. *)
    destruct pc as [|pc].
    + (* [mkdir] failed: the process is refused and nothing changed. *)
      rewrite (Hc0 eq_refl) in Hcw. apply mkdir_atomic in Hcw as ->.
      split_and!; [|intros [Hz _]; unfold effective in Hz; simpl in Hz; lia|done|done].
      right. unfold first_then. fold wB. split_and!.
      * change (effective (mk_thread 1 (Some e))) with 0. exact Hw.
      * done.
      * left. split; [done|discriminate].
      * change (effective (mk_thread 1 (Some e))) with 0. lia.
    + assert (¬ holding tb) as Htb by (eapply Hfree; [reflexivity|lia]).
      split_and!; [|intros _|by intros ?|done].
      * right. apply first_then_ran; [done|done|reflexivity|simpl; lia|exact Hrun].
      * apply Hkeep; [lia|right; discriminate|]. apply HdA, Hhold. lia.
Qed.

Lemma inv_step_second pa pb ta tb w0 w :
  inv (export_steps name pa) (export_steps name pb) ta tb w0 w ->
  inv (export_steps name pa) (export_steps name pb)
      ta (step_thread (export_steps name pb) tb w).1 w0 (step_thread (export_steps name pb) tb w).2.
Proof. intros H. by apply inv_swap, inv_step_first, inv_swap. Qed.

Lemma inv_interleave pa pb sched ta tb w0 w :
  inv (export_steps name pa) (export_steps name pb) ta tb w0 w ->
  let r := interleave (export_steps name pa) (export_steps name pb) sched ta tb w in
  inv (export_steps name pa) (export_steps name pb) r.1.1 r.1.2 w0 r.2.
Proof.
  revert ta tb w. induction sched as [|[] s IH]; intros ta tb w H; simpl; [done| |].
  - pose proof (inv_step_first pa pb ta tb w0 w H) as H'.
    destruct (step_thread _ ta w) as [ta' w']. by apply IH.
  - pose proof (inv_step_second pa pb ta tb w0 w H) as H'.
    destruct (step_thread _ tb w) as [tb' w']. by apply IH.
Qed.

Lemma inv_start A B w0 : cwd_is c0 w0 -> inv A B thread_start thread_start w0 w0.
Proof.
  intros Hc. split_and!; [left|intros [Hz _]; cbv in Hz; lia..|done].
  unfold first_then. change (effective thread_start) with 0. rewrite !run_steps_zero.
  split_and!; [done|right; split; [reflexivity|simpl; lia]..|lia].
Qed.
End Interleaving.

(** ** The property *)

(** C12: two invocations exporting under the same worksheet name, their
    steps interleaved in any order, have the effect of the two run one
    after the other: the final world is that of the steps the first
    really executed, followed by those the second executed, in one order
    or the other.  A process whose [mkdir] failed (because the other
    process held the staging directory, or for any other reason)
    contributes nothing.  So such a race is never silently corrupting: an
    archive never mixes the products of the two runs, and no run deletes
    the other's staging directory. *)
Theorem same_name_exports_serializable name pa pb sched w :
  let A := export_steps name pa in
  let B := export_steps name pb in
  let r := interleave A B sched thread_start thread_start w in
  r.2 = (run_steps (effective r.1.2) B (run_steps (effective r.1.1) A w).2).2 \/
  r.2 = (run_steps (effective r.1.1) A (run_steps (effective r.1.2) B w).2).2.
Proof.
  cbv zeta.
  pose proof (inv_interleave name (w_cwd w) pa pb sched thread_start thread_start w w
                (inv_start name (w_cwd w) _ _ w eq_refl)) as ([(H & _)|(H & _)] & _);
    [left|right]; exact H.
Qed.

(** ** On a concrete world *)

(** An empty worksheet, enough to watch the race. *)
Definition demo_products : products := mk_products [] [] [] [] (mk_expression [] [] []).

(** The second process's [mkdir] comes while the first holds ["ws"]: it is
    refused with [DirectoryExistsError], and the first completes. *)
Example same_name_race_refused :
  (interleave (export_steps "ws" demo_products) (export_steps "ws" demo_products)
     [true; false; true; true; true; false] thread_start thread_start demo_world).1 =
  (mk_thread 4 None, mk_thread 1 (Some (DirectoryExistsError "ws"))).
Proof. vm_compute. reflexivity. Qed.
