(* ===== verification/Independence.v ===== *)
(** * Independence: two exports with different worksheet names

    Spec 5 says that the staging directory and the archive are the only
    shared mutable state of an invocation.  So two invocations of
    [from_scanpy] under different worksheet names should not interfere.
    This file proves that, under a condition on the names that is checked
    by computation ([exports_separated]).

    The argument is the frame reasoning of separation logic, done on the
    state monad.  A computation has a footprint ([footprint c rd wr]): it
    changes only the file system, only at the paths of the regions [wr],
    and what it returns and writes depends only on the regions [rd] and
    [wr].  Regions are single entries or whole trees ([region]).  Two
    computations whose footprints are disjoint commute ([commute_at],
    the commutation of SSProve's relational monads, here on states).  The
    system calls of [FileSystem] and [Tar] get their footprints one by
    one, and [fp_bind], [fp_catch] and [fp_weaken] lift them to the
    export steps.  [Section Reduction] then turns step commutation into
    the reduction of any interleaving ([Concurrency.interleave]) to the
    two processes run one after the other, in either order. *)

From S2P Require Import Prelude Paths Dataset FileSystem Tar Cli Concurrency.

(** ** Regions of the file system *)

Inductive region : Type :=
  | Entry (p : path)
  | Tree (p : path).

Definition in_region (q : path) (r : region) : Prop :=
  match r with
  | Entry p => q = p
  | Tree p => p `prefix_of` q
  end.

Definition in_regions (q : path) (rs : list region) : Prop := Exists (in_region q) rs.

Definition region_disjoint (r1 r2 : region) : bool :=
  match r1, r2 with
  | Entry p, Entry q => negb (bool_decide (p = q))
  | Entry p, Tree q | Tree q, Entry p => negb (bool_decide (q `prefix_of` p))
  | Tree p, Tree q => negb (bool_decide (p `prefix_of` q) || bool_decide (q `prefix_of` p))
  end.

Definition regions_disjoint (rs1 rs2 : list region) : bool :=
  forallb (fun r1 => forallb (region_disjoint r1) rs2) rs1.

(** ** Footprints *)

(** [w1] differs from [w2] at most in its file system. *)
Definition env_eq (w1 w2 : world) : Prop := set_fs (w_fs w1) w2 = w1.

Definition agree (rs : list region) (w1 w2 : world) : Prop :=
  forall q, in_regions q rs -> w_fs w1 !! q = w_fs w2 !! q.

Section Footprint.
Context (cwd : path).

(** Run from a world whose working directory is [cwd], [c] changes the
    file system only inside [wr] and nothing else of the world, and two
    such worlds that agree on [rd] and [wr] give the same result and agree
    on [wr] afterwards. *)
Record footprint {A} (c : M A) (rd wr : list region) : Prop := {
  fp_frame w : w_cwd w = cwd ->
    env_eq (c w).2 w /\ forall q, ¬ in_regions q wr -> w_fs (c w).2 !! q = w_fs w !! q;
  fp_local w1 w2 : w_cwd w2 = cwd -> env_eq w1 w2 -> agree (rd ++ wr) w1 w2 ->
    (c w1).1 = (c w2).1 /\ agree wr (c w1).2 (c w2).2
}.

(** [c] returns nothing but [v]. *)
Definition returns {A} (v : A) (c : M A) : Prop :=
  forall w a, w_cwd w = cwd -> (c w).1 = Ok a -> a = v.

(** Run in either order from a world whose working directory is [cwd],
    [c1] and [c2] return the same results and end in the same world. *)
Definition commute_at (c1 c2 : M unit) : Prop :=
  forall w, w_cwd w = cwd ->
    (c1 (c2 w).2).1 = (c1 w).1 /\ (c2 (c1 w).2).1 = (c2 w).1 /\
    (c2 (c1 w).2).2 = (c1 (c2 w).2).2.

End Footprint.

(** ** Lemmas on worlds and regions *)

Lemma env_eq_refl w : env_eq w w.
Proof. apply set_fs_self. Qed.

Lemma env_eq_sym w1 w2 : env_eq w1 w2 -> env_eq w2 w1.
Proof. unfold env_eq. intros <-. by rewrite set_fs_set_fs, set_fs_self. Qed.

Lemma env_eq_trans w1 w2 w3 : env_eq w1 w2 -> env_eq w2 w3 -> env_eq w1 w3.
Proof. unfold env_eq. intros H1 H2. by rewrite <- H2, set_fs_set_fs in H1. Qed.

Lemma env_eq_cwd w1 w2 : env_eq w1 w2 -> w_cwd w1 = w_cwd w2.
Proof. unfold env_eq. by intros <-. Qed.

Lemma env_eq_faults w1 w2 : env_eq w1 w2 -> w_faults w1 = w_faults w2.
Proof. unfold env_eq. by intros <-. Qed.

(** Two worlds with the same surroundings and the same file system are
    equal. *)
Lemma world_ext w1 w2 : env_eq w1 w2 -> w_fs w1 = w_fs w2 -> w1 = w2.
Proof. unfold env_eq. intros <- H. rewrite set_fs_fs in H. rewrite H. apply set_fs_self. Qed.

Lemma env_eq_set_fs fs w : env_eq (set_fs fs w) w.
Proof. done. Qed.

Lemma in_regions_app q rs1 rs2 : in_regions q (rs1 ++ rs2) <-> in_regions q rs1 \/ in_regions q rs2.
Proof. apply Exists_app. Qed.

Lemma in_regions_cons q r rs : in_regions q (r :: rs) <-> in_region q r \/ in_regions q rs.
Proof. apply Exists_cons. Qed.

Lemma in_regions_nil q : ¬ in_regions q [].
Proof. inversion 1. Qed.

Lemma in_regions_nil_iff q : in_regions q [] <-> False.
Proof. split; [apply in_regions_nil|done]. Qed.

Lemma prefix_region_refl (p : path) : p `prefix_of` p.
Proof. reflexivity. Qed.

Lemma region_disjoint_spec r1 r2 q :
  region_disjoint r1 r2 = true -> in_region q r1 -> ¬ in_region q r2.
Proof.
  destruct r1 as [p1|p1], r2 as [p2|p2]; simpl;
    rewrite ?negb_true_iff, ?orb_false_iff, ?bool_decide_eq_false; try naive_solver.
  intros [H1 H2] Hq1 Hq2. by destruct (prefix_weak_total p1 p2 q).
Qed.

Lemma regions_disjoint_spec rs1 rs2 q :
  regions_disjoint rs1 rs2 = true -> in_regions q rs1 -> ¬ in_regions q rs2.
Proof.
  unfold regions_disjoint, in_regions. rewrite forallb_forall.
  intros H (r1 & Hr1 & Hq1)%Exists_exists (r2 & Hr2 & Hq2)%Exists_exists.
  apply list_elem_of_In in Hr1, Hr2. specialize (H r1 Hr1). rewrite forallb_forall in H.
  eapply region_disjoint_spec; [apply H, Hr2|done..].
Qed.

Lemma agree_app rs1 rs2 w1 w2 : agree (rs1 ++ rs2) w1 w2 <-> agree rs1 w1 w2 /\ agree rs2 w1 w2.
Proof.
  unfold agree. setoid_rewrite in_regions_app. naive_solver.
Qed.

#[export] Instance in_region_dec q r : Decision (in_region q r).
Proof. destruct r; simpl; apply _. Defined.

(** [in_regions_solve]: a path is in a list of regions that names it. *)
Ltac in_regions_solve :=
  rewrite ?in_regions_app, ?in_regions_cons; simpl; auto 10.

(** ** Footprints of the monad's combinators *)

Section FootprintLemmas.
Context (cwd : path).

Lemma fp_ret {A} (v : A) : footprint cwd (mret v) [] [].
Proof.
  split.
  - intros w _. split; [apply env_eq_refl|done].
  - intros w1 w2 _ _ _. split; [done|intros q []%in_regions_nil].
Qed.

Lemma fp_raise {A} e : footprint cwd (raise (A:=A) e) [] [].
Proof.
  split.
  - intros w _. split; [apply env_eq_refl|done].
  - intros w1 w2 _ _ _. split; [done|intros q []%in_regions_nil].
Qed.

(** A footprint may be enlarged; what is read may move to what is
    written. *)
Lemma fp_weaken {A} (c : M A) rd wr rd' wr' :
  footprint cwd c rd wr ->
  (forall q, in_regions q rd -> in_regions q (rd' ++ wr')) ->
  (forall q, in_regions q wr -> in_regions q wr') ->
  footprint cwd c rd' wr'.
Proof.
  intros [Hfr Hloc] Hrd Hwr. split.
  - intros w Hw. destruct (Hfr w Hw) as [He Hq]. split; [done|]. intros q Hq'.
    apply Hq. intros ?. by apply Hq', Hwr.
  - intros w1 w2 Hw He Hag.
    assert (agree (rd ++ wr) w1 w2) as Hag'.
    { intros q [Hq|Hq]%in_regions_app; apply Hag; [by apply Hrd|].
      apply in_regions_app. right. by apply Hwr. }
    destruct (Hloc w1 w2 Hw He Hag') as [Hr Hwa]. split; [done|].
    intros q Hq. destruct (decide (in_regions q wr)) as [Hin|Hout]; [by apply Hwa|].
    rewrite (proj2 (Hfr w1 ltac:(by rewrite (env_eq_cwd _ _ He))) q Hout),
            (proj2 (Hfr w2 Hw) q Hout).
    apply Hag, in_regions_app. by right.
Qed.

(** What a computation run from agreeing worlds leaves, at a path that
    one of its footprints covers. *)
Lemma fp_agree_after {A} (c : M A) rd wr rs w1 w2 q :
  footprint cwd c rd wr -> w_cwd w2 = cwd -> env_eq w1 w2 ->
  agree (rd ++ wr) w1 w2 -> agree rs w1 w2 -> in_regions q (wr ++ rs) ->
  w_fs (c w1).2 !! q = w_fs (c w2).2 !! q.
Proof.
  intros [Hfr Hloc] Hw He Hag Hrs [Hq|Hq]%in_regions_app.
  - by apply (Hloc w1 w2 Hw He Hag).
  - destruct (decide (in_regions q wr)) as [Hin|Hout]; [by apply (Hloc w1 w2 Hw He Hag)|].
    rewrite (proj2 (Hfr w1 ltac:(by rewrite (env_eq_cwd _ _ He))) q Hout),
            (proj2 (Hfr w2 Hw) q Hout).
    by apply Hrs.
Qed.

Lemma fp_ext {A} (c c' : M A) rd wr :
  (forall w, c w = c' w) -> footprint cwd c rd wr -> footprint cwd c' rd wr.
Proof.
  intros Hext [Hfr Hloc]. split.
  - intros w. rewrite <- Hext. apply Hfr.
  - intros w1 w2. rewrite <- !Hext. apply Hloc.
Qed.

(** Sequencing on the result, normal or exceptional: the continuation
    only needs a footprint for the results the first computation can
    give.  [≫=] and [catch] are both of this form. *)
Definition est_then {A B} (c : M A) (k : result error A -> M B) : M B :=
  fun w => k (c w).1 (c w).2.

Lemma fp_then {A B} (c : M A) (k : result error A -> M B) (P : result error A -> Prop)
    rd wr rd' wr' :
  footprint cwd c rd wr ->
  (forall w, w_cwd w = cwd -> P (c w).1) ->
  (forall r, P r -> footprint cwd (k r) rd' wr') ->
  footprint cwd (est_then c k) (rd ++ rd') (wr ++ wr').
Proof.
  intros Hc HP Hk. unfold est_then. split.
  - intros w Hw. destruct (fp_frame _ _ _ _ Hc w Hw) as [He1 Hq1].
    assert (w_cwd (c w).2 = cwd) as Hw1 by by rewrite (env_eq_cwd _ _ He1).
    destruct (fp_frame _ _ _ _ (Hk _ (HP w Hw)) _ Hw1) as [He2 Hq2].
    split; [by eapply env_eq_trans|]. intros q Hq.
    rewrite Hq2, Hq1; [done|..]; intros ?; apply Hq, in_regions_app; auto.
  - intros w1 w2 Hw He Hag.
    assert (agree (rd ++ wr) w1 w2) as Hag1.
    { intros q [Hq|Hq]%in_regions_app; apply Hag, in_regions_app; rewrite !in_regions_app; auto. }
    assert (agree (rd' ++ wr') w1 w2) as Hag2.
    { intros q [Hq|Hq]%in_regions_app; apply Hag, in_regions_app; rewrite !in_regions_app; auto. }
    destruct (fp_local _ _ _ _ Hc w1 w2 Hw He Hag1) as [Hr _].
    assert (forall q, in_regions q (wr ++ (rd' ++ wr')) -> w_fs (c w1).2 !! q = w_fs (c w2).2 !! q)
      as Hmid by (intros q; apply (fp_agree_after c rd wr _ w1 w2 q Hc Hw He Hag1 Hag2)).
    pose proof (fp_frame _ _ _ _ Hc w1 ltac:(by rewrite (env_eq_cwd _ _ He))) as [He1 _].
    pose proof (fp_frame _ _ _ _ Hc w2 Hw) as [He2 _].
    rewrite Hr. pose proof (Hk _ (HP w2 Hw)) as Hkr.
    assert (env_eq (c w1).2 (c w2).2) as Heu.
    { eapply env_eq_trans; [exact He1|]. eapply env_eq_trans; [exact He|]. by apply env_eq_sym. }
    assert (w_cwd (c w2).2 = cwd) as Hu2 by by rewrite (env_eq_cwd _ _ He2).
    assert (agree (rd' ++ wr') (c w1).2 (c w2).2) as Hagu.
    { intros q Hq. apply Hmid, in_regions_app. by right. }
    destruct (fp_local _ _ _ _ Hkr _ _ Hu2 Heu Hagu) as [Hr' Hwa'].
    split; [done|]. intros q Hq. apply in_regions_app in Hq as [Hq|Hq]; [|by apply Hwa'].
    apply (fp_agree_after _ rd' wr' wr _ _ q Hkr Hu2 Heu Hagu).
    + intros q' Hq'. apply Hmid, in_regions_app. by left.
    + apply in_regions_app. by right.
Qed.

Lemma fp_raise_weaken {A} e rd wr : footprint cwd (raise (A:=A) e) rd wr.
Proof.
  eapply fp_weaken; [apply fp_raise|intros q []%in_regions_nil..].
Qed.

Lemma fp_ret_weaken {A} (v : A) rd wr : footprint cwd (mret v) rd wr.
Proof.
  eapply fp_weaken; [apply fp_ret|intros q []%in_regions_nil..].
Qed.

(** [≫=]: the continuation only needs a footprint for the values the
    first computation can return. *)
Lemma fp_bind_dep {A B} (c : M A) (f : A -> M B) (P : A -> Prop) rd wr rd' wr' :
  footprint cwd c rd wr ->
  (forall w a, w_cwd w = cwd -> (c w).1 = Ok a -> P a) ->
  (forall a, P a -> footprint cwd (f a) rd' wr') ->
  footprint cwd (c ≫= f) (rd ++ rd') (wr ++ wr').
Proof.
  intros Hc HP Hf.
  apply (fp_ext (est_then c (fun r => match r with Ok a => f a | Err e => raise e end))).
  { intros w. unfold est_then. rewrite est_bind_run. by destruct (c w) as [[]]. }
  apply (fp_then _ _ (fun r => match r with Ok a => P a | Err _ => True end)); [done| |].
  - intros w Hw. destruct (c w) as [[a|e] w'] eqn:E; [|done]. eapply HP; [done|by rewrite E].
  - intros [a|e] Hr; [by apply Hf|apply fp_raise_weaken].
Qed.

Lemma fp_bind {A B} (c : M A) (f : A -> M B) rd wr rd' wr' :
  footprint cwd c rd wr -> (forall a, footprint cwd (f a) rd' wr') ->
  footprint cwd (c ≫= f) (rd ++ rd') (wr ++ wr').
Proof. intros Hc Hf. apply (fp_bind_dep c f (fun _ => True)); auto. Qed.

Lemma fp_catch {A} (c : M A) (h : error -> M A) rd wr rd' wr' :
  footprint cwd c rd wr -> (forall e, footprint cwd (h e) rd' wr') ->
  footprint cwd (catch c h) (rd ++ rd') (wr ++ wr').
Proof.
  intros Hc Hh.
  apply (fp_ext (est_then c (fun r => match r with Ok a => mret a | Err e => h e end))).
  { intros w. unfold est_then, catch. by destruct (c w) as [[]]. }
  apply (fp_then _ _ (fun _ => True)); [done|done|].
  intros [a|e] _; [apply fp_ret_weaken|apply Hh].
Qed.

End FootprintLemmas.

(** ** Footprints of the system calls *)

Section Syscalls.
Context (cwd : path).

Lemma agree_entry p w1 w2 : agree [Entry p] w1 w2 <-> w_fs w1 !! p = w_fs w2 !! p.
Proof.
  unfold agree. split; [intros H; apply H, in_regions_cons; by left|].
  intros H q [->|[]%in_regions_nil]%in_regions_cons. done.
Qed.

Lemma not_in_entry q p : ¬ in_regions q [Entry p] -> q <> p.
Proof. intros Hq ->. apply Hq, in_regions_cons. by left. Qed.

(** An operation that at most sets the entry [p] and otherwise leaves
    the world alone. *)
Lemma frame_entry (c : M unit) p w :
  ((c w).2 = w \/ exists n, (c w).2 = set_fs (<[p := n]> (w_fs w)) w) ->
  env_eq (c w).2 w /\ forall q, ¬ in_regions q [Entry p] -> w_fs (c w).2 !! q = w_fs w !! q.
Proof.
  intros [->|(n & ->)]; [split; [apply env_eq_refl|done]|split; [apply env_eq_set_fs|]].
  intros q Hq%not_in_entry. simpl. by rewrite lookup_insert_ne.
Qed.

Lemma fp_path_of s : footprint cwd (path_of s) [] [].
Proof.
  split.
  - intros w _. rewrite path_of_run. destruct (String.eqb s ""); (split; [apply env_eq_refl|done]).
  - intros w1 w2 Hw He _. rewrite !path_of_run, (env_eq_cwd _ _ He).
    split; [by destruct (String.eqb s "")|intros q []%in_regions_nil].
Qed.

Lemma path_of_returns s w a : w_cwd w = cwd -> (path_of s w).1 = Ok a -> a = resolve cwd s.
Proof. rewrite path_of_run. intros <-. by destruct (String.eqb s ""); intros [= <-]. Qed.

(** The local part of a system call at the entry [p]: once the two
    worlds are known to agree on what it reads, both runs take the same
    branches. *)
Ltac syscall_local Hc Hw Hf Hp Hr :=
  rewrite !est_bind_run, !path_of_run, Hc, Hw;
  destruct (String.eqb _ ""); [split; [done|by apply agree_entry]|];
  rewrite !est_bind_run; cbn -[resolve]; rewrite Hf, Hp, Hr;
  repeat case_match; simplify_eq/=;
  (split; [done|apply agree_entry]); simpl; rewrite ?lookup_insert_eq; congruence.

Lemma fp_mkdir s :
  footprint cwd (mkdir s) [Entry (removelast (resolve cwd s))] [Entry (resolve cwd s)].
Proof.
  split.
  - intros w <-. apply frame_entry. unfold mkdir. syscall_cases; unfold raise, put; eauto.
  - intros w1 w2 Hw He Hag.
    pose proof (Hag (resolve cwd s) ltac:(in_regions_solve)) as Hp.
    pose proof (Hag (removelast (resolve cwd s)) ltac:(in_regions_solve)) as Hr.
    pose proof (env_eq_cwd _ _ He) as Hc. pose proof (env_eq_faults _ _ He) as Hf.
    unfold mkdir. syscall_local Hc Hw Hf Hp Hr.
Qed.

Lemma fp_write_file s x :
  footprint cwd (write_file s x) [Entry (removelast (resolve cwd s))] [Entry (resolve cwd s)].
Proof.
  split.
  - intros w <-. apply frame_entry. unfold write_file. syscall_cases; unfold raise, put; eauto.
  - intros w1 w2 Hw He Hag.
    pose proof (Hag (resolve cwd s) ltac:(in_regions_solve)) as Hp.
    pose proof (Hag (removelast (resolve cwd s)) ltac:(in_regions_solve)) as Hr.
    pose proof (env_eq_cwd _ _ He) as Hc. pose proof (env_eq_faults _ _ He) as Hf.
    unfold write_file. syscall_local Hc Hw Hf Hp Hr.
Qed.

Lemma get_bind_run {A} (f : world -> M A) w : (get ≫= f) w = f w w.
Proof. reflexivity. Qed.

Lemma fp_rmtree s : footprint cwd (rmtree s) [] [Tree (resolve cwd s)].
Proof.
  split.
  - intros w <-. unfold rmtree. syscall_cases; unfold raise, put; simpl;
      try (split; [apply env_eq_refl|done]).
    split; [apply env_eq_set_fs|]. intros q Hq. simpl. apply remove_tree_lookup_out.
    intros ?. apply Hq. in_regions_solve.
  - intros w1 w2 Hw He Hag.
    pose proof (Hag (resolve cwd s) ltac:(in_regions_solve)) as Hp.
    pose proof (env_eq_cwd _ _ He) as Hc. pose proof (env_eq_faults _ _ He) as Hf.
    unfold rmtree. rewrite !est_bind_run, !path_of_run, Hc, Hw.
    destruct (String.eqb _ ""); [split; [done|intros q Hq; apply Hag, in_regions_app; auto]|].
    cbn -[resolve]. rewrite !get_bind_run. cbn -[resolve]. rewrite Hf.
    destruct (resolve cwd s) as [|y l] eqn:Ep;
      [split; [done|intros q Hq; apply Hag, in_regions_app; auto]|].
    rewrite Hp. repeat case_match; simplify_eq/=; (split; [done|]); intros q Hq;
      first [ by apply Hag
            | apply in_regions_cons in Hq as [Hq|[]%in_regions_nil]; simpl in Hq |- *;
              by rewrite !remove_tree_lookup_in ].
Qed.

Lemma fp_tar_add out src arc : footprint cwd (tar_add out src arc) [Tree (resolve cwd src)] [].
Proof.
  split.
  - intros w _. unfold tar_add, catch. syscall_cases; unfold raise; simpl;
      split; try apply env_eq_refl; done.
  - intros w1 w2 Hw He Hag. pose proof (env_eq_cwd _ _ He) as Hc.
    unfold tar_add, catch. rewrite !est_bind_run, !path_of_run, Hc, Hw.
    destruct (String.eqb _ ""); [split; [done|intros q []%in_regions_nil]|].
    rewrite !est_bind_run. cbn -[resolve].
    rewrite (Hag (resolve cwd src) ltac:(in_regions_solve)).
    rewrite (tar_members_agree arc (resolve cwd src) out (w_fs w1) (w_fs w2))
      by (intros q Hq; apply Hag; in_regions_solve).
    case_match; (split; [done|intros q []%in_regions_nil]).
Qed.

Lemma fp_tar_close out ms : footprint cwd (tar_close out ms) [] [Entry out].
Proof.
  split.
  - intros w _. apply frame_entry. right. by eexists.
  - intros w1 w2 _ _ _. split; [done|]. apply agree_entry. simpl. by rewrite !lookup_insert_eq.
Qed.

Lemma tar_open_returns name w a :
  w_cwd w = cwd -> (tar_open name w).1 = Ok a -> a = resolve cwd name.
Proof.
  intros Hw. unfold tar_open, catch. rewrite est_bind_run.
  destruct (fp_frame _ _ _ _ (fp_write_file name (CTgz [])) w Hw) as [He _].
  destruct (write_file name (CTgz []) w) as [[[]|e] w1]; simpl in *; [|done].
  destruct (path_of name w1) as [[p|e] w2] eqn:E; [|done]. intros [= <-].
  apply (path_of_returns name w1); [by rewrite (env_eq_cwd _ _ He)|by rewrite E].
Qed.

Lemma fp_make_tarfile out src :
  footprint cwd (make_tarfile out src)
    [Entry (removelast (resolve cwd out)); Tree (resolve cwd src)] [Entry (resolve cwd out)].
Proof.
  eapply fp_weaken.
  - apply (fp_bind_dep cwd _ _ (fun a => a = resolve cwd out)).
    + apply fp_catch; [apply fp_bind; [apply fp_write_file|intros; apply fp_path_of]|].
      intros. apply fp_raise.
    + intros w a Hw. by apply tar_open_returns.
    + intros a ->. apply fp_bind; [apply fp_tar_add|intros; apply fp_tar_close].
  - intros q Hq. rewrite !in_regions_app, !in_regions_cons in *. naive_solver.
  - intros q Hq. rewrite !in_regions_app, !in_regions_cons in *. naive_solver.
Qed.

End Syscalls.

(** ** Disjoint footprints commute *)

Lemma footprint_commute cwd c1 c2 rd1 wr1 rd2 wr2 :
  footprint cwd c1 rd1 wr1 -> footprint cwd c2 rd2 wr2 ->
  regions_disjoint wr1 (rd2 ++ wr2) = true -> regions_disjoint wr2 (rd1 ++ wr1) = true ->
  commute_at cwd c1 c2.
Proof.
  intros H1 H2 D1 D2 w Hw.
  destruct (fp_frame _ _ _ _ H1 w Hw) as [He1 Hq1].
  destruct (fp_frame _ _ _ _ H2 w Hw) as [He2 Hq2].
  assert (forall q, in_regions q wr1 -> ¬ in_regions q (rd2 ++ wr2)) as N1
    by (intros q; by apply regions_disjoint_spec).
  assert (forall q, in_regions q wr2 -> ¬ in_regions q (rd1 ++ wr1)) as N2
    by (intros q; by apply regions_disjoint_spec).
  assert (agree (rd1 ++ wr1) (c2 w).2 w) as A1.
  { intros q Hq. apply Hq2. intros Hq'. by apply (N2 q Hq'). }
  assert (agree (rd2 ++ wr2) (c1 w).2 w) as A2.
  { intros q Hq. apply Hq1. intros Hq'. by apply (N1 q Hq'). }
  destruct (fp_local _ _ _ _ H1 _ _ Hw He2 A1) as [R1 W1].
  destruct (fp_local _ _ _ _ H2 _ _ Hw He1 A2) as [R2 W2].
  split_and!; [done|done|].
  assert (w_cwd (c1 w).2 = cwd) as Hw1 by by rewrite (env_eq_cwd _ _ He1).
  assert (w_cwd (c2 w).2 = cwd) as Hw2 by by rewrite (env_eq_cwd _ _ He2).
  destruct (fp_frame _ _ _ _ H2 _ Hw1) as [He21 Hq21].
  destruct (fp_frame _ _ _ _ H1 _ Hw2) as [He12 Hq12].
  apply world_ext.
  { eapply env_eq_trans; [exact He21|]. eapply env_eq_trans; [exact He1|].
    apply env_eq_sym. eapply env_eq_trans; [exact He12|exact He2]. }
  apply map_eq. intros q.
  destruct (decide (in_regions q wr1)) as [Hin1|Hout1].
  - rewrite Hq21 by (intros ?; apply (N1 q Hin1), in_regions_app; by right).
    by rewrite W1.
  - destruct (decide (in_regions q wr2)) as [Hin2|Hout2].
    + rewrite Hq12 by (intros ?; apply (N2 q Hin2), in_regions_app; by right).
      by rewrite W2.
    + by rewrite Hq21, Hq12, Hq1, Hq2.
Qed.

(** ** The footprint of an export *)

(** What the export of [name] reads outside what it writes: the
    directories that hold the staging directory and the archive. *)
Definition export_reads (cwd : path) (name : string) : list region :=
  [Entry (removelast (resolve cwd name)); Entry (removelast (resolve cwd (ctw_filename name)))].

(** What it writes: the staging tree and the archive. *)
Definition export_writes (cwd : path) (name : string) : list region :=
  [Tree (resolve cwd name); Entry (resolve cwd (ctw_filename name))].

(** Neither export writes what the other one reads or writes. *)
Definition exports_separated (cwd : path) (n1 n2 : string) : bool :=
  regions_disjoint (export_writes cwd n1) (export_reads cwd n2 ++ export_writes cwd n2) &&
  regions_disjoint (export_writes cwd n2) (export_reads cwd n1 ++ export_writes cwd n1).

(** [regions_incl]: an inclusion of lists of regions. *)
Ltac regions_incl :=
  let Hq := fresh "Hq" in
  intros ? Hq; revert Hq; rewrite ?in_regions_app, ?in_regions_cons, ?in_regions_nil_iff;
  simpl; intros Hq;
  repeat match goal with H : _ \/ _ |- _ => destruct H as [H|H] end; try contradiction; subst;
  eauto 10 using prefix_app_r, prefix_region_refl.

Lemma fp_write_product cwd name f x :
  proper_component f = true ->
  footprint cwd (write_file (join name f) x) [] [Tree (resolve cwd name)].
Proof.
  intros Hf. eapply fp_weaken; [apply fp_write_file|..];
    rewrite resolve_join_any, ?removelast_last by done; regions_incl.
Qed.

Lemma fp_write_all_worksheet cwd name xys exp cl mk ct :
  footprint cwd (write_all_worksheet name xys exp cl mk ct) [] [Tree (resolve cwd name)].
Proof.
  unfold write_all_worksheet.
  eapply fp_weaken; [repeat (apply fp_bind; [apply fp_write_product; reflexivity|intros _]);
                     apply fp_write_product; reflexivity|regions_incl..].
Qed.

Lemma export_steps_footprint cwd name pr k c :
  export_steps name pr !! k = Some c -> footprint cwd c (export_reads cwd name) (export_writes cwd name).
Proof.
  unfold export_reads, export_writes.
  intros Hk. destruct k as [|[|[|[|k]]]]; simplify_eq/=.
  - eapply fp_weaken; [apply fp_mkdir|regions_incl..].
  - eapply fp_weaken; [apply fp_write_all_worksheet|regions_incl..].
  - eapply fp_weaken; [apply fp_make_tarfile|regions_incl..].
  - eapply fp_weaken; [apply fp_rmtree|regions_incl..].
Qed.

Lemma export_steps_commute cwd n1 n2 pa pb i j a b :
  exports_separated cwd n1 n2 = true ->
  export_steps n1 pa !! i = Some a -> export_steps n2 pb !! j = Some b -> commute_at cwd a b.
Proof.
  intros [D1 D2]%andb_true_iff Ha Hb.
  eapply footprint_commute; [by eapply export_steps_footprint..|done|done].
Qed.

(** ** From commuting steps to sequential runs *)

(** [n] turns of a process, alone. *)
Fixpoint run_thread (steps : list (M unit)) (n : nat) (t : thread) (w : world) : thread * world :=
  match n with
  | 0 => (t, w)
  | S n' => let '(t', w') := step_thread steps t w in run_thread steps n' t' w'
  end.

(** The turns a schedule gives to the first ([true]) or the second
    ([false]) process. *)
Fixpoint turns (b : bool) (sched : list bool) : nat :=
  match sched with
  | [] => 0
  | x :: s => (if Bool.eqb x b then 1 else 0) + turns b s
  end.

(** The record of a process after one step. *)
Definition advance (pc : nat) (r : result error unit) : thread :=
  mk_thread (S pc) (match r with Ok _ => None | Err e => Some e end).

Lemma step_thread_eq steps t w :
  step_thread steps t w =
    match th_err t, steps !! th_pc t with
    | None, Some c => (advance (th_pc t) (c w).1, (c w).2)
    | _, _ => (t, w)
    end.
Proof.
  unfold step_thread. destruct (th_err t), (steps !! th_pc t) as [c|]; [done|done| |done].
  by destruct (c w) as [[]].
Qed.

Lemma run_thread_S steps n t w :
  run_thread steps (S n) t w = run_thread steps n (step_thread steps t w).1 (step_thread steps t w).2.
Proof. simpl. by destruct (step_thread steps t w). Qed.

Section Reduction.
Context (cwd : path) (A B : list (M unit)).
Hypothesis HA : forall k c, A !! k = Some c -> preserves (cwd_is cwd) c.
Hypothesis HB : forall k c, B !! k = Some c -> preserves (cwd_is cwd) c.
Hypothesis Hcomm : forall i j a b, A !! i = Some a -> B !! j = Some b -> commute_at cwd a b.

Lemma step_thread_cwd steps t w :
  (forall k c, steps !! k = Some c -> preserves (cwd_is cwd) c) ->
  w_cwd w = cwd -> w_cwd (step_thread steps t w).2 = cwd.
Proof.
  intros Hs Hw. rewrite step_thread_eq.
  destruct (th_err t), (steps !! th_pc t) as [c|] eqn:Hc; try done. by apply (Hs _ _ Hc).
Qed.

Lemma run_thread_cwd steps n t w :
  (forall k c, steps !! k = Some c -> preserves (cwd_is cwd) c) ->
  w_cwd w = cwd -> w_cwd (run_thread steps n t w).2 = cwd.
Proof.
  intros Hs. revert t w. induction n as [|n IH]; intros t w Hw; [done|].
  rewrite run_thread_S. by apply IH, step_thread_cwd.
Qed.

(** A step of each process, in either order. *)
Lemma step_thread_commute ta tb w :
  w_cwd w = cwd ->
  step_thread A ta (step_thread B tb w).2 =
    ((step_thread A ta w).1, (step_thread B tb (step_thread A ta w).2).2) /\
  (step_thread B tb (step_thread A ta w).2).1 = (step_thread B tb w).1.
Proof.
  intros Hw. rewrite !step_thread_eq.
  destruct (th_err ta), (A !! th_pc ta) as [a|] eqn:Ha; try done;
    destruct (th_err tb), (B !! th_pc tb) as [b|] eqn:Hb; try done.
  destruct (Hcomm _ _ _ _ Ha Hb w Hw) as (R1 & R2 & W). simpl. by rewrite R1, R2, W.
Qed.

(** A step of the second process moves across any run of the first. *)
Lemma run_thread_commute_step n ta tb w :
  w_cwd w = cwd ->
  run_thread A n ta (step_thread B tb w).2 =
    ((run_thread A n ta w).1, (step_thread B tb (run_thread A n ta w).2).2) /\
  (step_thread B tb (run_thread A n ta w).2).1 = (step_thread B tb w).1.
Proof.
  revert ta w. induction n as [|n IH]; intros ta w Hw; [done|].
  rewrite !run_thread_S. destruct (step_thread_commute ta tb w Hw) as [-> H2].
  simpl. destruct (IH (step_thread A ta w).1 (step_thread A ta w).2) as [-> H3];
    [by apply step_thread_cwd|].
  split; [done|]. by rewrite H3.
Qed.

(** Whole runs of the two processes, in either order. *)
Lemma run_thread_commute na nb ta tb w :
  w_cwd w = cwd ->
  run_thread A na ta (run_thread B nb tb w).2 =
    ((run_thread A na ta w).1, (run_thread B nb tb (run_thread A na ta w).2).2) /\
  (run_thread B nb tb (run_thread A na ta w).2).1 = (run_thread B nb tb w).1.
Proof.
  revert tb w. induction nb as [|nb IH]; intros tb w Hw; [simpl; by destruct (run_thread A na ta w)|].
  rewrite !run_thread_S.
  destruct (IH (step_thread B tb w).1 (step_thread B tb w).2) as [E1 E2];
    [by apply step_thread_cwd|].
  destruct (run_thread_commute_step na ta tb w Hw) as [C1 C2].
  rewrite E1. rewrite C1 in E2 |- *. simpl in *. rewrite C2. by split.
Qed.

(** Any interleaving is the first process's turns, then the second's. *)
Lemma interleave_sequential sched ta tb w :
  w_cwd w = cwd ->
  interleave A B sched ta tb w =
    ((run_thread A (turns true sched) ta w).1,
     (run_thread B (turns false sched) tb (run_thread A (turns true sched) ta w).2).1,
     (run_thread B (turns false sched) tb (run_thread A (turns true sched) ta w).2).2).
Proof.
  revert ta tb w. induction sched as [|[] s IH]; intros ta tb w Hw; [done| |]; simpl.
  - destruct (step_thread A ta w) as [ta' w'] eqn:E.
    assert (w_cwd w' = cwd) as Hw'
      by (change w' with (ta', w').2; rewrite <- E; by apply step_thread_cwd).
    by rewrite IH.
  - destruct (step_thread B tb w) as [tb' w'] eqn:E.
    assert (w_cwd w' = cwd) as Hw'
      by (change w' with (tb', w').2; rewrite <- E; by apply step_thread_cwd).
    rewrite IH by done.
    destruct (run_thread_commute_step (turns true s) ta tb w Hw) as [C1 C2].
    rewrite E in C1, C2. simpl in C1, C2. rewrite C1. simpl.
    destruct (step_thread B tb (run_thread A (turns true s) ta w).2) as [tb2 w2] eqn:E2.
    simpl in C2. by subst.
Qed.

End Reduction.

(** A process run alone from its start: its record and the world are
    those of the steps it ran, run in sequence. *)
Lemma run_thread_start steps n w :
  let r := run_thread steps n thread_start w in
  r.2 = (run_steps (th_pc r.1) steps w).2 /\ status r.1 = (run_steps (th_pc r.1) steps w).1.
Proof.
  assert (forall t u, u = (run_steps (th_pc t) steps w).2 -> status t = (run_steps (th_pc t) steps w).1 ->
            let r := run_thread steps n t u in
            r.2 = (run_steps (th_pc r.1) steps w).2 /\ status r.1 = (run_steps (th_pc r.1) steps w).1)
    as H; [|apply H; by rewrite run_steps_zero].
  induction n as [|n IH]; intros t u Hu Hs; [done|].
  rewrite run_thread_S. apply IH; rewrite step_thread_eq;
    destruct (th_err t) as [e|] eqn:He, (steps !! th_pc t) as [c|] eqn:Hc; try done.
  all: assert (run_steps (th_pc t) steps w = (Ok tt, u)) as Hrun
         by (apply run_steps_pair; [rewrite <- Hs; unfold status; by rewrite He|done]).
  all: cbn [fst snd advance th_pc]; rewrite (run_steps_snoc _ _ _ _ _ Hrun Hc); try done.
  by destruct (c u) as [[[]|e] u'].
Qed.

(** The reduction of an interleaving of two separated exports, before the
    steps are read as sequences. *)
Lemma separated_interleave n1 n2 pa pb sched w :
  exports_separated (w_cwd w) n1 n2 = true ->
  let A := export_steps n1 pa in
  let B := export_steps n2 pb in
  let na := turns true sched in
  let nb := turns false sched in
  let r := interleave A B sched thread_start thread_start w in
  r.1.1 = (run_thread A na thread_start w).1 /\
  r.1.2 = (run_thread B nb thread_start w).1 /\
  (run_thread B nb thread_start (run_thread A na thread_start w).2).1 = (run_thread B nb thread_start w).1 /\
  (run_thread A na thread_start (run_thread B nb thread_start w).2).1 = (run_thread A na thread_start w).1 /\
  r.2 = (run_thread B nb thread_start (run_thread A na thread_start w).2).2 /\
  r.2 = (run_thread A na thread_start (run_thread B nb thread_start w).2).2.
Proof.
  intros Hsep. cbv zeta.
  assert (forall k c, export_steps n1 pa !! k = Some c -> preserves (cwd_is (w_cwd w)) c) as HA
    by (intros; by eapply export_steps_cwd).
  assert (forall k c, export_steps n2 pb !! k = Some c -> preserves (cwd_is (w_cwd w)) c) as HB
    by (intros; by eapply export_steps_cwd).
  pose proof (fun i j a b => export_steps_commute (w_cwd w) n1 n2 pa pb i j a b Hsep) as Hcomm.
  rewrite (interleave_sequential _ _ _ HA HB Hcomm sched _ _ w eq_refl).
  destruct (run_thread_commute _ _ _ HA HB Hcomm
              (turns true sched) (turns false sched) thread_start thread_start w eq_refl) as [C1 C2].
  rewrite C1. simpl. by rewrite C2.
Qed.

(** ** The properties *)

(** C13: two invocations exporting under worksheet names whose staging
    directories and archives are apart ([exports_separated]: neither
    export writes what the other reads or writes), their steps
    interleaved in any order, do not interfere.  Each process ends with
    the outcome it would have had alone on the initial world, and the
    final world is that of the steps each ran, run one process after the
    other, in either order. *)
Theorem different_name_exports_independent n1 n2 pa pb sched w :
  exports_separated (w_cwd w) n1 n2 = true ->
  let A := export_steps n1 pa in
  let B := export_steps n2 pb in
  let r := interleave A B sched thread_start thread_start w in
  status r.1.1 = (run_steps (th_pc r.1.1) A w).1 /\
  status r.1.2 = (run_steps (th_pc r.1.2) B w).1 /\
  r.2 = (run_steps (th_pc r.1.2) B (run_steps (th_pc r.1.1) A w).2).2 /\
  r.2 = (run_steps (th_pc r.1.1) A (run_steps (th_pc r.1.2) B w).2).2.
Proof.
  intros Hsep. cbv zeta.
  destruct (separated_interleave n1 n2 pa pb sched w Hsep) as (-> & -> & TB & TA & -> & E2).
  set (A := export_steps n1 pa) in *. set (B := export_steps n2 pb) in *.
  set (na := turns true sched) in *. set (nb := turns false sched) in *.
  destruct (run_thread_start A na w) as [A1 A2].
  destruct (run_thread_start B nb w) as [B1 B2].
  split_and!; [done|done|rewrite <- A1, <- TB|rewrite E2, <- B1, <- TA].
  - apply run_thread_start.
  - apply run_thread_start.
Qed.

(** ** On a concrete world *)

(** ["ws"] and ["other"] in the same directory are separated. *)
Lemma different_name_exports_independent_witness :
  exports_separated (w_cwd demo_world) "ws" "other" = true /\
  let A := export_steps "ws" demo_products in
  let B := export_steps "other" demo_products in
  let r := interleave A B [true; false; false; true; true; false; true; false]
             thread_start thread_start demo_world in
  status r.1.1 = (run_steps (th_pc r.1.1) A demo_world).1 /\
  status r.1.2 = (run_steps (th_pc r.1.2) B demo_world).1 /\
  r.2 = (run_steps (th_pc r.1.2) B (run_steps (th_pc r.1.1) A demo_world).2).2 /\
  r.2 = (run_steps (th_pc r.1.1) A (run_steps (th_pc r.1.2) B demo_world).2).2.
Proof.
  split; [vm_compute; reflexivity|].
  apply (different_name_exports_independent "ws" "other" demo_products demo_products
           [true; false; false; true; true; false; true; false] demo_world).
  vm_compute. reflexivity.
Defined.

(** The separation is needed: the staging directory of a worksheet named
    ["ws.ctw.tgz"] is the archive of the worksheet ["ws"].  Run alone
    first, the export of ["ws"] succeeds; when the other process creates
    its staging directory first, the archive cannot be written and the
    export of ["ws"] fails with [ArchiveError]. *)
Example archive_name_clash :
  exports_separated (w_cwd demo_world) "ws" "ws.ctw.tgz" = false /\
  (export_worksheet "ws" demo_products demo_world).1 = Ok tt /\
  th_err (interleave (export_steps "ws" demo_products) (export_steps "ws.ctw.tgz" demo_products)
            [false; true; true; true; true] thread_start thread_start demo_world).1.1
    = Some (ArchiveError "ws.ctw.tgz").
Proof. vm_compute. split_and!; reflexivity. Qed.
